(** * Flappy-bird simulation: a shallow embedding of the Python sources

  The development follows the four Python modules of the repository:
  - [levels.py]          -> [Module Levels]
  - [game_engine.py]     -> [Module GameEngine]
  - [flappy_bird_sim.py] -> [Module Sim]
  - [ai_controller.py]   -> [Module AI]

  Python numbers are modelled by exact rationals ([Q]); integers that the
  code divides with [//] or feeds to [random.randint] are kept in [Z].
  Floats are read as the rationals they denote (rounding is not modelled).
  Mutable objects become records threaded through the functions; a raised
  exception is returned together with the state at the time of the raise. *)

From Stdlib Require Import ZArith QArith Qminmax Lqa List Sorted Bool Lia String.
From stdpp Require Import gmap.
Import ListNotations.

#[local] Set Warnings "-clear-no-such-hyp".
Local Open Scope Z_scope.

(** ** Python primitives *)

Module Py.

Inductive exn : Type := ValueError | TypeError | AttributeError.

(** The result of a method call on a mutable object: the object after the
    call, and whether the call returned or raised. *)
Inductive outcome (S : Type) : Type :=
| Returned (s : S)
| Raised (e : exn) (s : S).
Arguments Returned {S} s.
Arguments Raised {S} e s.

Definition state_of {S : Type} (o : outcome S) : S :=
  match o with Returned s => s | Raised _ s => s end.

Definition raised {S : Type} (o : outcome S) : bool :=
  match o with Returned _ => false | Raised _ _ => true end.

(** [random.randint(a, b)]: raises [ValueError] on an empty range, and
    otherwise returns some integer of [a..b].  The choice is driven by an
    explicit entropy argument; every value of the range is hit by some
    entropy. *)
Definition randint (entropy a b : Z) : option Z :=
  if b <? a then None else Some (a + entropy mod (b - a + 1)).

(** [int(n * 0.75)] on an integer [n]: truncation toward zero. *)
Definition int_three_quarters (n : Z) : Z := Z.quot (3 * n) 4.

(** Comparisons of Python numbers. *)
Definition ltb (x y : Q) : bool := negb (Qle_bool y x).
Definition leb (x y : Q) : bool := Qle_bool x y.
Definition gtb (x y : Q) : bool := ltb y x.
Definition geb (x y : Q) : bool := leb y x.
Definition eqb (x y : Q) : bool := Qeq_bool x y.

(** [max(a, b, c)] *)
Definition max3 (a b c : Q) : Q := Qmax (Qmax a b) c.

End Py.

(** ** levels.py *)

Module Levels.

Record pipe_config : Type := {
  xPosition : Z;
  gapCenter : Z;
  gapHeight : Z
}.

(** The ["floor"] entry of a level; a missing key is [None]
    ([level_config.get("floor", {})] yields both keys missing). *)
Record floor_config : Type := {
  floor_min : option Z;
  floor_max : option Z
}.

Record level_config : Type := {
  name : string;
  description : string;
  floor : floor_config;
  pipes : list pipe_config
}.

Definition mk_floor (lo hi : Z) : floor_config :=
  {| floor_min := Some lo; floor_max := Some hi |}.

Definition mk_pipe (x c h : Z) : pipe_config :=
  {| xPosition := x; gapCenter := c; gapHeight := h |}.

Definition simple : level_config := {|
  name := "Simple (1 Pipe)";
  description := "Single pipe to test basic logic";
  floor := mk_floor 500 600;
  pipes := [ mk_pipe 400 300 150 ]
|}.

Definition medium : level_config := {|
  name := "Medium (5 Pipes)";
  description := "Five pipes with varying gaps";
  floor := mk_floor 480 600;
  pipes := [ mk_pipe 400 300 150; mk_pipe 650 250 150; mk_pipe 900 350 140;
             mk_pipe 1150 280 160; mk_pipe 1400 320 150 ]
|}.

Definition hard : level_config := {|
  name := "Hard (10 Pipes)";
  description := "Ten pipes with challenging gaps";
  floor := mk_floor 450 600;
  pipes := [ mk_pipe 400 300 150; mk_pipe 650 200 140; mk_pipe 900 380 140;
             mk_pipe 1150 250 145; mk_pipe 1400 350 140; mk_pipe 1650 220 150;
             mk_pipe 1900 330 140; mk_pipe 2150 270 145; mk_pipe 2400 310 140;
             mk_pipe 2650 290 150 ]
|}.

Definition floor_test : level_config := {|
  name := "floor_test";
  description := "Three pipes with very narrow gaps";
  floor := mk_floor 450 550;
  pipes := []
|}.

(** The comprehension [for i in range(200)] of the marathon level. *)
Definition marathon_pipe (i : Z) : pipe_config :=
  mk_pipe (450 + i * 200) (150 + (i mod 10) * 40) (140 + (i mod 5) * 10).

Definition marathon : level_config := {|
  name := "Marathon (200 Pipes!)";
  description := "Ultimate stress test with 200 pipes";
  floor := mk_floor 480 580;
  pipes := List.map (fun i => marathon_pipe (Z.of_nat i)) (seq 0 200)
|}.

Definition LEVELS : list (string * level_config) :=
  [ ("simple"%string, simple); ("medium"%string, medium); ("hard"%string, hard);
    ("floor_test"%string, floor_test); ("marathon"%string, marathon) ].

Fixpoint lookup_level (level_id : string) (tbl : list (string * level_config))
  : option level_config :=
  match tbl with
  | [] => None
  | (k, v) :: tl => if String.eqb k level_id then Some v else lookup_level level_id tl
  end.

(** [LEVELS.get(level_id, LEVELS["marathon"])] *)
Definition get_level (level_id : string) : level_config :=
  match lookup_level level_id LEVELS with
  | Some l => l
  | None => marathon
  end.

End Levels.

(** ** game_engine.py *)

Module GameEngine.

(** A pipe dictionary [{"xPosition", "topPipe", "bottomPipe"}]. *)
Record pipe : Type := {
  xPosition : Q;
  topPipe : Q;
  bottomPipe : Q
}.

Record t : Type := {
  screen_width : Z;
  screen_height : Z;
  pipe_speed : Q;
  gravity : Q;
  pilot_x : Q;
  pilot_y : Q;
  pilot_width : Q;
  pilot_height : Q;
  pilot_velocity : Q;
  jump_velocity : Q;
  floor_y : Z;
  pipes : list pipe;
  score : Z;
  frame_count : Z;
  game_over : bool;
  passed_pipes : gset nat;
  autopilot : bool
}.

(** [50 is pipe width] *)
Definition PIPE_WIDTH : Q := 50%Q.

(** [__init__] *)
Definition init (screen_width screen_height : Z) (pipe_speed gravity : Q) : t := {|
  screen_width := screen_width;
  screen_height := screen_height;
  pipe_speed := pipe_speed;
  gravity := gravity;
  pilot_x := 100%Q;
  pilot_y := inject_Z (screen_height / 2);
  pilot_width := 30%Q;
  pilot_height := 30%Q;
  pilot_velocity := 0%Q;
  jump_velocity := (-8)%Q;
  floor_y := screen_height;
  pipes := [];
  score := 0;
  frame_count := 0;
  game_over := false;
  passed_pipes := ∅;
  autopilot := false
|}.

(** [GameEngine()] with the default arguments. *)
Definition default : t := init 800 600 3%Q (1 # 2)%Q.

(** Attribute assignments. *)
Definition set_pilot_y (y : Q) (g : t) : t :=
  {| screen_width := screen_width g; screen_height := screen_height g;
     pipe_speed := pipe_speed g; gravity := gravity g; pilot_x := pilot_x g;
     pilot_y := y;
     pilot_width := pilot_width g; pilot_height := pilot_height g;
     pilot_velocity := pilot_velocity g; jump_velocity := jump_velocity g;
     floor_y := floor_y g; pipes := pipes g; score := score g;
     frame_count := frame_count g; game_over := game_over g;
     passed_pipes := passed_pipes g; autopilot := autopilot g |}.

Definition set_pilot_velocity (v : Q) (g : t) : t :=
  {| screen_width := screen_width g; screen_height := screen_height g;
     pipe_speed := pipe_speed g; gravity := gravity g; pilot_x := pilot_x g;
     pilot_y := pilot_y g;
     pilot_width := pilot_width g; pilot_height := pilot_height g;
     pilot_velocity := v; jump_velocity := jump_velocity g;
     floor_y := floor_y g; pipes := pipes g; score := score g;
     frame_count := frame_count g; game_over := game_over g;
     passed_pipes := passed_pipes g; autopilot := autopilot g |}.

Definition set_floor_y (f : Z) (g : t) : t :=
  {| screen_width := screen_width g; screen_height := screen_height g;
     pipe_speed := pipe_speed g; gravity := gravity g; pilot_x := pilot_x g;
     pilot_y := pilot_y g;
     pilot_width := pilot_width g; pilot_height := pilot_height g;
     pilot_velocity := pilot_velocity g; jump_velocity := jump_velocity g;
     floor_y := f; pipes := pipes g; score := score g;
     frame_count := frame_count g; game_over := game_over g;
     passed_pipes := passed_pipes g; autopilot := autopilot g |}.

Definition set_pipes (ps : list pipe) (g : t) : t :=
  {| screen_width := screen_width g; screen_height := screen_height g;
     pipe_speed := pipe_speed g; gravity := gravity g; pilot_x := pilot_x g;
     pilot_y := pilot_y g;
     pilot_width := pilot_width g; pilot_height := pilot_height g;
     pilot_velocity := pilot_velocity g; jump_velocity := jump_velocity g;
     floor_y := floor_y g; pipes := ps; score := score g;
     frame_count := frame_count g; game_over := game_over g;
     passed_pipes := passed_pipes g; autopilot := autopilot g |}.

Definition set_score (sc : Z) (g : t) : t :=
  {| screen_width := screen_width g; screen_height := screen_height g;
     pipe_speed := pipe_speed g; gravity := gravity g; pilot_x := pilot_x g;
     pilot_y := pilot_y g;
     pilot_width := pilot_width g; pilot_height := pilot_height g;
     pilot_velocity := pilot_velocity g; jump_velocity := jump_velocity g;
     floor_y := floor_y g; pipes := pipes g; score := sc;
     frame_count := frame_count g; game_over := game_over g;
     passed_pipes := passed_pipes g; autopilot := autopilot g |}.

Definition set_frame_count (n : Z) (g : t) : t :=
  {| screen_width := screen_width g; screen_height := screen_height g;
     pipe_speed := pipe_speed g; gravity := gravity g; pilot_x := pilot_x g;
     pilot_y := pilot_y g;
     pilot_width := pilot_width g; pilot_height := pilot_height g;
     pilot_velocity := pilot_velocity g; jump_velocity := jump_velocity g;
     floor_y := floor_y g; pipes := pipes g; score := score g;
     frame_count := n; game_over := game_over g;
     passed_pipes := passed_pipes g; autopilot := autopilot g |}.

Definition set_game_over (b : bool) (g : t) : t :=
  {| screen_width := screen_width g; screen_height := screen_height g;
     pipe_speed := pipe_speed g; gravity := gravity g; pilot_x := pilot_x g;
     pilot_y := pilot_y g;
     pilot_width := pilot_width g; pilot_height := pilot_height g;
     pilot_velocity := pilot_velocity g; jump_velocity := jump_velocity g;
     floor_y := floor_y g; pipes := pipes g; score := score g;
     frame_count := frame_count g; game_over := b;
     passed_pipes := passed_pipes g; autopilot := autopilot g |}.

Definition set_passed_pipes (s : gset nat) (g : t) : t :=
  {| screen_width := screen_width g; screen_height := screen_height g;
     pipe_speed := pipe_speed g; gravity := gravity g; pilot_x := pilot_x g;
     pilot_y := pilot_y g;
     pilot_width := pilot_width g; pilot_height := pilot_height g;
     pilot_velocity := pilot_velocity g; jump_velocity := jump_velocity g;
     floor_y := floor_y g; pipes := pipes g; score := score g;
     frame_count := frame_count g; game_over := game_over g;
     passed_pipes := s; autopilot := autopilot g |}.

Definition set_autopilot (b : bool) (g : t) : t :=
  {| screen_width := screen_width g; screen_height := screen_height g;
     pipe_speed := pipe_speed g; gravity := gravity g; pilot_x := pilot_x g;
     pilot_y := pilot_y g;
     pilot_width := pilot_width g; pilot_height := pilot_height g;
     pilot_velocity := pilot_velocity g; jump_velocity := jump_velocity g;
     floor_y := floor_y g; pipes := pipes g; score := score g;
     frame_count := frame_count g; game_over := game_over g;
     passed_pipes := passed_pipes g; autopilot := b |}.

(** [reset] *)
Definition reset (g : t) : t :=
  set_passed_pipes ∅
    (set_game_over false
      (set_frame_count 0
        (set_score 0
          (set_pipes []
            (set_pilot_velocity 0%Q
              (set_pilot_y (inject_Z (screen_height g / 2)) g)))))).

(** The body of the loop of [load_level] for one pipe descriptor: the pipe
    dictionary appended to [self.pipes]. *)
Definition make_pipe (floor_y : Z) (pipe_config : Levels.pipe_config) : pipe :=
  let gap_top := Levels.gapCenter pipe_config - Levels.gapHeight pipe_config / 2 in
  let gap_bottom := Levels.gapCenter pipe_config + Levels.gapHeight pipe_config / 2 in
  let '(gap_top, gap_bottom) :=
    if gap_bottom >? floor_y
    then (floor_y - 10 - Levels.gapHeight pipe_config, floor_y - 10)
    else (gap_top, gap_bottom) in
  {| xPosition := inject_Z (Levels.xPosition pipe_config);
     topPipe := inject_Z gap_top;
     bottomPipe := inject_Z gap_bottom |}.

(** The floor range of [load_level]: the configured one when both keys are
    present, the bottom quarter of the screen otherwise. *)
Definition floor_range (level_config : Levels.level_config) (g : t) : Z * Z :=
  match Levels.floor_min (Levels.floor level_config),
        Levels.floor_max (Levels.floor level_config) with
  | Some lo, Some hi => (lo, hi)
  | _, _ => (Py.int_three_quarters (screen_height g), screen_height g)
  end.

(** [load_level]: resets, draws the floor (which may raise), then appends
    one pipe per descriptor. *)
Definition load_level (entropy : Z) (level_config : Levels.level_config) (g : t)
  : Py.outcome t :=
  let g := reset g in
  let '(lo, hi) := floor_range level_config g in
  match Py.randint entropy lo hi with
  | None => Py.Raised Py.ValueError g
  | Some f =>
      let g := set_floor_y f g in
      Py.Returned
        (fold_left (fun g pipe_config => set_pipes (pipes g ++ [make_pipe (floor_y g) pipe_config]) g)
                   (Levels.pipes level_config) g)
  end.

(** [jump] *)
Definition jump (g : t) : t :=
  if game_over g then g else set_pilot_velocity (jump_velocity g) g.

(** [get_current_pipe]: index and pipe, or [(None, None)]. *)
Fixpoint first_ahead (i : nat) (pilot_x : Q) (ps : list pipe) : option (nat * pipe) :=
  match ps with
  | [] => None
  | p :: tl =>
      if Py.gtb (xPosition p + PIPE_WIDTH) pilot_x then Some (i, p)
      else first_ahead (S i) pilot_x tl
  end.

Definition get_current_pipe (g : t) : option (nat * pipe) :=
  first_ahead 0 (pilot_x g) (pipes g).

(** The dictionaries built by [get_game_state]. *)
Record pilot_dict : Type := {
  xPos : Q;
  yPos : Q;
  height : Q;
  width : Q;
  pilot_gravity : Q;
  jumpVelocity : Q;
  velocity : Q
}.

Record game_state : Type := {
  pilot : pilot_dict;
  pipeSpeed : Q;
  currentPipe : option pipe;
  pipeArray : list pipe;
  gs_gravity : Q;
  floor : Q
}.

(** [get_game_state] *)
Definition get_game_state (g : t) : game_state := {|
  pilot := {| xPos := pilot_x g; yPos := pilot_y g; height := pilot_height g;
              width := pilot_width g; pilot_gravity := gravity g;
              jumpVelocity := jump_velocity g; velocity := pilot_velocity g |};
  pipeSpeed := pipe_speed g;
  currentPipe := option_map snd (get_current_pipe g);
  pipeArray := pipes g;
  gs_gravity := gravity g;
  floor := inject_Z (floor_y g)
|}.

(** [check_collision] *)
Definition hits_pipe (g : t) (p : pipe) : bool :=
  (Py.ltb (xPosition p) (pilot_x g + pilot_width g)
   && Py.gtb (xPosition p + PIPE_WIDTH) (pilot_x g))
  && (Py.ltb (pilot_y g) (topPipe p)
      || Py.gtb (pilot_y g + pilot_height g) (bottomPipe p)).

Definition check_collision (g : t) : bool :=
  if Py.leb (pilot_y g) 0 then true
  else if Py.geb (pilot_y g + pilot_height g) (inject_Z (floor_y g)) then true
  else existsb (hits_pipe g) (pipes g).

(** [update_score]: the loop over [enumerate(self.pipes)], threading the
    score and the set of credited indices. *)
Fixpoint score_loop (pilot_x : Q) (i : nat) (ps : list pipe)
  (acc : Z * gset nat) : Z * gset nat :=
  match ps with
  | [] => acc
  | p :: tl =>
      if Py.ltb (xPosition p + PIPE_WIDTH) pilot_x && negb (bool_decide (i ∈ acc.2))
      then score_loop pilot_x (S i) tl (acc.1 + 1, acc.2 ∪ {[ i ]})
      else score_loop pilot_x (S i) tl acc
  end.

Definition update_score (g : t) : t :=
  let r := score_loop (pilot_x g) 0 (pipes g) (score g, passed_pipes g) in
  set_passed_pipes r.2 (set_score r.1 g).

(** [pipe["xPosition"] -= self.pipe_speed] *)
Definition move_pipe (speed : Q) (p : pipe) : pipe :=
  {| xPosition := xPosition p - speed; topPipe := topPipe p; bottomPipe := bottomPipe p |}.

(** The body of [update] between the terminal guard and the score update:
    frame counter, impulse, integration, pipe advance. *)
Definition advance_frame (g : t) (should_jump : bool) : t :=
  let g := set_frame_count (frame_count g + 1) g in
  let g := if should_jump then jump g else g in
  let g := set_pilot_velocity (pilot_velocity g + gravity g) g in
  let g := set_pilot_y (pilot_y g + pilot_velocity g) g in
  set_pipes (map (move_pipe (pipe_speed g)) (pipes g)) g.

(** [update] *)
Definition update (g : t) (should_jump : bool) : t :=
  if game_over g then g
  else
    let g := advance_frame g should_jump in
    let g := update_score g in
    if check_collision g then set_game_over true g else g.

(** A sequence of [update] calls. *)
Definition run (g : t) (decisions : list bool) : t := fold_left update decisions g.

End GameEngine.

(** ** ai_controller.py *)

Module AI.

Import GameEngine.

(** [SCREEN_CENTER = 300] and [apex_height = 64], the two constants of the
    strategy split. *)
Definition SCREEN_CENTER : Q := 300%Q.
Definition apex_height : Q := 64%Q.

(** [for _ in range(frames_to_check)]: gravity-only free fall. *)
Fixpoint free_fall (frames : nat) (gravity : Q) (yv : Q * Q) : Q * Q :=
  match frames with
  | O => yv
  | S n =>
      let predicted_velocity := (yv.2 + gravity)%Q in
      free_fall n gravity ((yv.1 + predicted_velocity)%Q, predicted_velocity)
  end.

Definition safety_margin (pilot : pilot_dict) : Q :=
  Py.max3 (height pilot * (1 # 10)) (width pilot * (1 # 10)) 5.

Definition pilot_bottom_next_frame (pilot : pilot_dict) (gravity : Q) : Q :=
  let next_velocity := (velocity pilot + gravity)%Q in
  let next_y := (yPos pilot + next_velocity)%Q in
  (next_y + height pilot)%Q.

(** PRIORITY 1: floor safety. *)
Definition floor_rule (gs : game_state) : bool :=
  Py.geb (pilot_bottom_next_frame (pilot gs) (gs_gravity gs) + safety_margin (pilot gs))
         (floor gs).

(** PRIORITY 2: emergency bottom pipe collision (the [if pipe:] block). *)
Definition emergency_rule (gs : game_state) : bool :=
  match currentPipe gs with
  | None => false
  | Some pipe =>
      let gap_bottom := bottomPipe pipe in
      let distance_to_pipe := (xPosition pipe - xPos (pilot gs))%Q in
      if Py.ltb 0 distance_to_pipe && Py.ltb distance_to_pipe 150 then
        let predicted :=
          free_fall 5 (gs_gravity gs) (yPos (pilot gs), velocity (pilot gs)) in
        let predicted_bottom := (predicted.1 + height (pilot gs))%Q in
        Py.geb (predicted_bottom + 5) gap_bottom
      else false
  end.

(** [shouldJump] *)
Definition shouldJump (gs : game_state) : bool :=
  if floor_rule gs then true
  else if emergency_rule gs then true
  else
    match currentPipe gs with
    | None => false
    | Some pipe =>
        let gap_top := topPipe pipe in
        let gap_bottom := bottomPipe pipe in
        let gap_center := ((gap_top + gap_bottom) / 2)%Q in
        let gap_height := (gap_bottom - gap_top)%Q in
        if Py.leb gap_center SCREEN_CENTER then
          let target_y := (gap_bottom - gap_height * (3 # 4))%Q in
          let minimum_y := (target_y + apex_height)%Q in
          if Py.geb minimum_y (floor gs - 20) then
            if Py.geb (pilot_bottom_next_frame (pilot gs) (gs_gravity gs)
                       + safety_margin (pilot gs)) gap_bottom
            then true else false
          else if Py.geb (yPos (pilot gs)) minimum_y then true else false
        else
          let target_y := gap_bottom in
          if Py.geb (pilot_bottom_next_frame (pilot gs) (gs_gravity gs)
                     + safety_margin (pilot gs)) target_y
          then true else false
    end.

End AI.

(** ** flappy_bird_sim.py *)

Module Sim.

Record Pilot : Type := {
  x_pos : Q;
  y_pos : Q;
  height : Q;
  width : Q;
  pilot_gravity : Q;
  jump_velocity : Q;
  velocity : Q
}.

(** [Pilot.__init__] with the defaults [height=30, width=30, jump_velocity=-8]. *)
Definition new_pilot (x_pos y_pos gravity : Q) : Pilot := {|
  x_pos := x_pos; y_pos := y_pos; height := 30%Q; width := 30%Q;
  pilot_gravity := gravity; jump_velocity := (-8)%Q; velocity := 0%Q
|}.

(** [Pilot.jump] *)
Definition pilot_jump (p : Pilot) : Pilot := {|
  x_pos := x_pos p; y_pos := y_pos p; height := height p; width := width p;
  pilot_gravity := pilot_gravity p; jump_velocity := jump_velocity p;
  velocity := jump_velocity p
|}.

(** [Pilot.update] *)
Definition pilot_update (gravity : Q) (p : Pilot) : Pilot :=
  let v := (velocity p + gravity)%Q in
  {| x_pos := x_pos p; y_pos := (y_pos p + v)%Q; height := height p; width := width p;
     pilot_gravity := pilot_gravity p; jump_velocity := jump_velocity p;
     velocity := v |}.

Record Pipe : Type := {
  x_position : Q;
  gap_y_center : Z;
  gap_height : Z;
  top_pipe : Z;
  bottom_pipe : Z
}.

(** [Pipe.__init__] *)
Definition new_pipe (x_position : Q) (gap_y_center gap_height : Z) : Pipe := {|
  x_position := x_position;
  gap_y_center := gap_y_center;
  gap_height := gap_height;
  top_pipe := gap_y_center - gap_height / 2;
  bottom_pipe := gap_y_center + gap_height / 2
|}.

(** [Pipe.update] *)
Definition pipe_update (pipe_speed : Q) (p : Pipe) : Pipe := {|
  x_position := (x_position p - pipe_speed)%Q;
  gap_y_center := gap_y_center p;
  gap_height := gap_height p;
  top_pipe := top_pipe p;
  bottom_pipe := bottom_pipe p
|}.

Record t : Type := {
  screen_width : Z;
  screen_height : Z;
  pipe_speed : Q;
  gravity : Q;
  pilot : Pilot;
  pipes : list Pipe;
  score : Z;
  frame_count : Z;
  game_over : bool
}.

Definition set_pilot (p : Pilot) (s : t) : t :=
  {| screen_width := screen_width s; screen_height := screen_height s;
     pipe_speed := pipe_speed s; gravity := gravity s; pilot := p;
     pipes := pipes s; score := score s; frame_count := frame_count s;
     game_over := game_over s |}.

Definition set_pipes (ps : list Pipe) (s : t) : t :=
  {| screen_width := screen_width s; screen_height := screen_height s;
     pipe_speed := pipe_speed s; gravity := gravity s; pilot := pilot s;
     pipes := ps; score := score s; frame_count := frame_count s;
     game_over := game_over s |}.

Definition set_score (sc : Z) (s : t) : t :=
  {| screen_width := screen_width s; screen_height := screen_height s;
     pipe_speed := pipe_speed s; gravity := gravity s; pilot := pilot s;
     pipes := pipes s; score := sc; frame_count := frame_count s;
     game_over := game_over s |}.

Definition set_frame_count (n : Z) (s : t) : t :=
  {| screen_width := screen_width s; screen_height := screen_height s;
     pipe_speed := pipe_speed s; gravity := gravity s; pilot := pilot s;
     pipes := pipes s; score := score s; frame_count := n;
     game_over := game_over s |}.

Definition set_game_over (b : bool) (s : t) : t :=
  {| screen_width := screen_width s; screen_height := screen_height s;
     pipe_speed := pipe_speed s; gravity := gravity s; pilot := pilot s;
     pipes := pipes s; score := score s; frame_count := frame_count s;
     game_over := b |}.

(** The number of pipes kept on screen ([range(4)], [len(self.pipes) < 4]),
    the spacing of spawned pipes and the x below which a pipe is dropped. *)
Definition PIPE_COUNT : nat := 4.
Definition PIPE_SPACING : Q := 250%Q.
Definition RETIRE_X : Q := (-100)%Q.
Definition PIPE_WIDTH : Q := 50%Q.

(** [_generate_initial_pipes]: the i-th draw uses [entropy i]; a raising
    draw aborts the construction. *)
Fixpoint generate_initial_pipes (entropy : nat -> Z) (screen_width screen_height : Z)
  (i n : nat) (acc : list Pipe) : option (list Pipe) :=
  match n with
  | O => Some acc
  | S n' =>
      let x_pos := inject_Z (screen_width + Z.of_nat i * 250) in
      match Py.randint (entropy i) 150 (screen_height - 150) with
      | None => None
      | Some gap_center =>
          generate_initial_pipes entropy screen_width screen_height (S i) n'
            (acc ++ [new_pipe x_pos gap_center 150])
      end
  end.

(** [FlappyBirdGame.__init__]; [None] when the constructor raises. *)
Definition init (entropy : nat -> Z) (screen_width screen_height : Z)
  (pipe_speed gravity : Q) : option t :=
  match generate_initial_pipes entropy screen_width screen_height 0 PIPE_COUNT [] with
  | None => None
  | Some ps =>
      Some {| screen_width := screen_width; screen_height := screen_height;
              pipe_speed := pipe_speed; gravity := gravity;
              pilot := new_pilot 100%Q (inject_Z (screen_height / 2)) gravity;
              pipes := ps; score := 0; frame_count := 0; game_over := false |}
  end.

(** [get_current_pipe] *)
Definition get_current_pipe (s : t) : option Pipe :=
  find (fun pipe => Py.gtb (x_position pipe + PIPE_WIDTH) (x_pos (pilot s))) (pipes s).

(** The dictionaries of [to_dict] and [get_game_state]; unlike those of the
    engine they carry neither the pilot's velocity nor a floor. *)
Record pilot_dict : Type := {
  xPos : Q; yPos : Q; d_height : Q; d_width : Q; d_gravity : Q; jumpVelocity : Q
}.

Record pipe_dict : Type := { topPipe : Z; bottomPipe : Z; xPosition : Q }.

Record game_state : Type := {
  gs_pilot : pilot_dict;
  pipeSpeed : Q;
  currentPipe : option pipe_dict;
  pipeArray : list pipe_dict;
  gs_gravity : Q
}.

Definition pilot_to_dict (p : Pilot) : pilot_dict :=
  {| xPos := x_pos p; yPos := y_pos p; d_height := height p; d_width := width p;
     d_gravity := pilot_gravity p; jumpVelocity := jump_velocity p |}.

Definition pipe_to_dict (p : Pipe) : pipe_dict :=
  {| topPipe := top_pipe p; bottomPipe := bottom_pipe p; xPosition := x_position p |}.

Definition get_game_state (s : t) : game_state :=
  {| gs_pilot := pilot_to_dict (pilot s);
     pipeSpeed := pipe_speed s;
     currentPipe := option_map pipe_to_dict (get_current_pipe s);
     pipeArray := map pipe_to_dict (pipes s);
     gs_gravity := gravity s |}.

(** [check_collision] *)
Definition hits_pipe (s : t) (p : Pipe) : bool :=
  (Py.ltb (x_position p) (x_pos (pilot s) + width (pilot s))
   && Py.gtb (x_position p + PIPE_WIDTH) (x_pos (pilot s)))
  && (Py.ltb (y_pos (pilot s)) (inject_Z (top_pipe p))
      || Py.gtb (y_pos (pilot s) + height (pilot s)) (inject_Z (bottom_pipe p))).

Definition check_collision (s : t) : bool :=
  if Py.leb (y_pos (pilot s)) 0
     || Py.geb (y_pos (pilot s) + height (pilot s)) (inject_Z (screen_height s))
  then true
  else existsb (hits_pipe s) (pipes s).

(** The list comprehension dropping the pipes that left the screen. *)
Definition retire (ps : list Pipe) : list Pipe :=
  List.filter (fun pipe => Py.gtb (x_position pipe) RETIRE_X) ps.

(** [# Add new pipe if needed]: at most one pipe per frame; the draw of the
    gap center may raise. *)
Definition spawn (entropy : Z) (s : t) : Py.outcome t :=
  if (length (pipes s) <? PIPE_COUNT)%nat then
    let new_x :=
      match last (pipes s) with
      | Some last_pipe => (x_position last_pipe + PIPE_SPACING)%Q
      | None => inject_Z (screen_width s)
      end in
    match Py.randint entropy 150 (screen_height s - 150) with
    | None => Py.Raised Py.ValueError s
    | Some gap_center =>
        Py.Returned (set_pipes (pipes s ++ [new_pipe new_x gap_center 150]) s)
    end
  else Py.Returned s.

(** [# Update score (passed a pipe)] *)
Definition update_score (s : t) : t :=
  fold_left
    (fun s pipe =>
       if Py.eqb (x_position pipe + PIPE_WIDTH) (x_pos (pilot s))
       then set_score (score s + 1) s else s)
    (pipes s) s.

(** The body of [update] up to the removal of the off-screen pipes: frame
    counter, impulse, integration, pipe advance, retirement. *)
Definition advance_frame (s : t) (should_jump : bool) : t :=
  let s := set_frame_count (frame_count s + 1) s in
  let s := if should_jump then set_pilot (pilot_jump (pilot s)) s else s in
  let s := set_pilot (pilot_update (gravity s) (pilot s)) s in
  let s := set_pipes (map (pipe_update (pipe_speed s)) (pipes s)) s in
  set_pipes (retire (pipes s)) s.

(** [update] *)
Definition update (s : t) (should_jump : bool) (entropy : Z) : Py.outcome t :=
  if game_over s then Py.Returned s
  else
    let s := advance_frame s should_jump in
    match spawn entropy s with
    | Py.Raised e s => Py.Raised e s
    | Py.Returned s =>
        let s := update_score s in
        Py.Returned (if check_collision s then set_game_over true s else s)
    end.

(** [is_game_over] *)
Definition is_game_over (s : t) : bool := game_over s.

(** A sequence of [update] calls, each with its decision and its entropy;
    a raised exception ends the sequence. *)
Fixpoint run (s : t) (inputs : list (bool * Z)) : Py.outcome t :=
  match inputs with
  | [] => Py.Returned s
  | (should_jump, entropy) :: tl =>
      match update s should_jump entropy with
      | Py.Returned s' => run s' tl
      | Py.Raised e s' => Py.Raised e s'
      end
  end.

End Sim.

(** ** The properties of the specification, in its own words *)

Module Spec.

(** Collision detector of the engine: ceiling, floor, or an overlapping
    obstacle whose gap the agent is outside of. *)
Definition overlaps (agent_x agent_width obstacle_x : Q) : Prop :=
  (obstacle_x < agent_x + agent_width /\ agent_x < obstacle_x + 50)%Q.

Definition engine_collision (g : GameEngine.t) : Prop :=
  (GameEngine.pilot_y g <= 0)%Q
  \/ (inject_Z (GameEngine.floor_y g) <= GameEngine.pilot_y g + GameEngine.pilot_height g)%Q
  \/ exists p, In p (GameEngine.pipes g)
       /\ overlaps (GameEngine.pilot_x g) (GameEngine.pilot_width g) (GameEngine.xPosition p)
       /\ ((GameEngine.pilot_y g < GameEngine.topPipe p)%Q
           \/ (GameEngine.bottomPipe p < GameEngine.pilot_y g + GameEngine.pilot_height g)%Q).

(** The same predicate on the pygame simulation, whose floor is the bottom
    of the screen. *)
Definition sim_collision (s : Sim.t) : Prop :=
  (Sim.y_pos (Sim.pilot s) <= 0)%Q
  \/ (inject_Z (Sim.screen_height s) <= Sim.y_pos (Sim.pilot s) + Sim.height (Sim.pilot s))%Q
  \/ exists p, In p (Sim.pipes s)
       /\ overlaps (Sim.x_pos (Sim.pilot s)) (Sim.width (Sim.pilot s)) (Sim.x_position p)
       /\ ((Sim.y_pos (Sim.pilot s) < inject_Z (Sim.top_pipe p))%Q
           \/ (inject_Z (Sim.bottom_pipe p) < Sim.y_pos (Sim.pilot s) + Sim.height (Sim.pilot s))%Q).

(** Floor safety: the predicted bottom edge of the next tick, without an
    impulse, and the safety margin. *)
Definition margin (pilot : GameEngine.pilot_dict) : Q :=
  Qmax (Qmax ((1 # 10) * GameEngine.height pilot) ((1 # 10) * GameEngine.width pilot)) 5.

Definition predicted_bottom (gs : GameEngine.game_state) : Q :=
  let nextVel := (GameEngine.velocity (GameEngine.pilot gs) + GameEngine.gs_gravity gs)%Q in
  let nextY := (GameEngine.yPos (GameEngine.pilot gs) + nextVel)%Q in
  (nextY + GameEngine.height (GameEngine.pilot gs))%Q.

(** The snapshot [gs] with another target obstacle and obstacle list. *)
Definition with_obstacles (target : option GameEngine.pipe)
  (obstacles : list GameEngine.pipe) (gs : GameEngine.game_state)
  : GameEngine.game_state := {|
  GameEngine.pilot := GameEngine.pilot gs;
  GameEngine.pipeSpeed := GameEngine.pipeSpeed gs;
  GameEngine.currentPipe := target;
  GameEngine.pipeArray := obstacles;
  GameEngine.gs_gravity := GameEngine.gs_gravity gs;
  GameEngine.floor := GameEngine.floor gs
|}.

(** Apex maintenance: the rise of one impulse and the altitude to hold, as
    the specification computes them from the snapshot. *)
Definition apexRise (gs : GameEngine.game_state) : Q :=
  (GameEngine.jumpVelocity (GameEngine.pilot gs) * GameEngine.jumpVelocity (GameEngine.pilot gs)
   / (2 * GameEngine.gs_gravity gs))%Q.

Definition targetY (obstacle : GameEngine.pipe) : Q :=
  (GameEngine.bottomPipe obstacle
   - (3 # 4) * (GameEngine.bottomPipe obstacle - GameEngine.topPipe obstacle))%Q.

Definition gapCenter (obstacle : GameEngine.pipe) : Q :=
  ((GameEngine.topPipe obstacle + GameEngine.bottomPipe obstacle) / 2)%Q.

Definition minimumY (gs : GameEngine.game_state) (obstacle : GameEngine.pipe) : Q :=
  (targetY obstacle + apexRise gs)%Q.

(** Score tracker: an obstacle is cleared once its trailing edge has passed
    the agent's x. *)
Definition cleared (agent_x : Q) (obstacle : GameEngine.pipe) : Prop :=
  (GameEngine.xPosition obstacle + 50 < agent_x)%Q.

Definition cleared_at (g : GameEngine.t) (i : nat) : Prop :=
  exists p, nth_error (GameEngine.pipes g) i = Some p
            /\ cleared (GameEngine.pilot_x g) p.

Definition all_cleared_credited (g : GameEngine.t) : Prop :=
  forall i, cleared_at g i -> i ∈ GameEngine.passed_pipes g.

Definition only_cleared_credited (g : GameEngine.t) : Prop :=
  forall i, i ∈ GameEngine.passed_pipes g -> cleared_at g i.

(** The indices, counted from [i], of the cleared obstacles of a list. *)
Fixpoint cleared_from (agent_x : Q) (i : nat) (ps : list GameEngine.pipe) : gset nat :=
  match ps with
  | [] => ∅
  | p :: tl =>
      (if Py.ltb (GameEngine.xPosition p + GameEngine.PIPE_WIDTH) agent_x
       then {[ i ]} else ∅)
      ∪ cleared_from agent_x (S i) tl
  end.

(** The number of cleared obstacles on the track. *)
Definition cleared_count (g : GameEngine.t) : nat :=
  length (List.filter
            (fun p => Py.ltb (GameEngine.xPosition p + GameEngine.PIPE_WIDTH)
                             (GameEngine.pilot_x g))
            (GameEngine.pipes g)).

(** Any two obstacles of the track are at least one tick of travel apart. *)
Definition well_spaced (g : GameEngine.t) : Prop :=
  forall i j p q, i <> j ->
    nth_error (GameEngine.pipes g) i = Some p ->
    nth_error (GameEngine.pipes g) j = Some q ->
    (GameEngine.xPosition p + GameEngine.pipe_speed g <= GameEngine.xPosition q
     \/ GameEngine.xPosition q + GameEngine.pipe_speed g <= GameEngine.xPosition p)%Q.

(** The track of the pygame simulation: obstacles at strictly increasing
    x, and the full track of four obstacles 250 apart whose head has not
    reached the retirement x. *)
Definition ordered (ps : list Sim.Pipe) : Prop :=
  StronglySorted (fun p q => (Sim.x_position p < Sim.x_position q)%Q) ps.

Definition full_track (ps : list Sim.Pipe) : Prop :=
  exists p0 p1 p2 p3,
    ps = [p0; p1; p2; p3]
    /\ (Sim.x_position p1 == Sim.x_position p0 + 250)%Q
    /\ (Sim.x_position p2 == Sim.x_position p1 + 250)%Q
    /\ (Sim.x_position p3 == Sim.x_position p2 + 250)%Q
    /\ (-100 < Sim.x_position p0)%Q.

(** The obstacles whose trailing edge is exactly at the agent's x. *)
Definition aligned (agent_x : Q) (ps : list Sim.Pipe) : list Sim.Pipe :=
  List.filter (fun p => Py.eqb (Sim.x_position p + Sim.PIPE_WIDTH) agent_x) ps.

End Spec.

(** ** Concrete states used as examples *)

Module Examples.

Definition snapshot (y v gravity jump floor : Q) (target : option GameEngine.pipe)
  : GameEngine.game_state := {|
  GameEngine.pilot := {| GameEngine.xPos := 100; GameEngine.yPos := y;
                         GameEngine.height := 30; GameEngine.width := 30;
                         GameEngine.pilot_gravity := gravity;
                         GameEngine.jumpVelocity := jump;
                         GameEngine.velocity := v |};
  GameEngine.pipeSpeed := 3;
  GameEngine.currentPipe := target;
  GameEngine.pipeArray := match target with Some p => [p] | None => [] end;
  GameEngine.gs_gravity := gravity;
  GameEngine.floor := floor
|}.

(** An obstacle far ahead whose gap has center 150 and height 150. *)
Definition high_gap : GameEngine.pipe :=
  {| GameEngine.xPosition := 400; GameEngine.topPipe := 75; GameEngine.bottomPipe := 225 |}.

(** The agent one pixel above the floor, at rest. *)
Definition near_floor : GameEngine.game_state :=
  snapshot 569 0 (1 # 2) (-8) 600 None.

(** The apex examples of the specification, at the default physics. *)
Definition apex_low : GameEngine.game_state :=
  snapshot 200 0 (1 # 2) (-8) 600 (Some high_gap).
Definition apex_high : GameEngine.game_state :=
  snapshot 100 0 (1 # 2) (-8) 600 (Some high_gap).

(** The same obstacle under a gravity of 1 per tick. *)
Definition apex_heavy : GameEngine.game_state :=
  snapshot 150 0 1 (-8) 600 (Some high_gap).

(** A running engine and a running simulation, and their terminal states. *)
Definition running_engine : GameEngine.t :=
  Py.state_of (GameEngine.load_level 60 Levels.simple GameEngine.default).

Definition crashed_engine : GameEngine.t :=
  GameEngine.set_game_over true running_engine.

Definition running_sim : Sim.t :=
  {| Sim.screen_width := 800; Sim.screen_height := 600; Sim.pipe_speed := 3;
     Sim.gravity := (1 # 2);
     Sim.pilot := Sim.new_pilot 100 300 (1 # 2);
     Sim.pipes := [Sim.new_pipe 800 300 150; Sim.new_pipe 1050 200 150;
                   Sim.new_pipe 1300 400 150; Sim.new_pipe 1550 300 150];
     Sim.score := 0; Sim.frame_count := 0; Sim.game_over := false |}.

Definition crashed_sim : Sim.t := Sim.set_game_over true running_sim.

(** An engine two frames into the simple level. *)
Definition played_engine : GameEngine.t :=
  GameEngine.run running_engine [false; true].

(** Level descriptors with an inverted gap and with an empty floor range. *)
Definition inverted_gap_level : Levels.level_config := {|
  Levels.name := "inverted"; Levels.description := "gap height below zero";
  Levels.floor := Levels.mk_floor 500 600;
  Levels.pipes := [ Levels.mk_pipe 400 300 (-50) ]
|}.

(** A level whose single gap reaches below any floor of its range. *)
Definition low_gap_level : Levels.level_config := {|
  Levels.name := "low gap"; Levels.description := "gap bottom below the floor";
  Levels.floor := Levels.mk_floor 500 560;
  Levels.pipes := [ Levels.mk_pipe 400 520 150 ]
|}.

Definition empty_floor_range_level : Levels.level_config := {|
  Levels.name := "no floor"; Levels.description := "floor range min above max";
  Levels.floor := Levels.mk_floor 600 500;
  Levels.pipes := [ Levels.mk_pipe 400 300 150 ]
|}.

(** Two obstacles six pixels apart, just ahead of the agent's trailing
    edge test, and the engine loaded with them. *)
Definition two_close_level : Levels.level_config := {|
  Levels.name := "two close"; Levels.description := "two obstacles six pixels apart";
  Levels.floor := Levels.mk_floor 500 600;
  Levels.pipes := [ Levels.mk_pipe 52 300 150; Levels.mk_pipe 58 300 150 ]
|}.

Definition two_close_engine : GameEngine.t :=
  Py.state_of (GameEngine.load_level 60 two_close_level GameEngine.default).

(** Two obstacles one pixel apart. *)
Definition overlapping_level : Levels.level_config := {|
  Levels.name := "overlapping"; Levels.description := "two obstacles one pixel apart";
  Levels.floor := Levels.mk_floor 500 600;
  Levels.pipes := [ Levels.mk_pipe 51 300 150; Levels.mk_pipe 52 300 150 ]
|}.

Definition overlapping_engine : GameEngine.t :=
  Py.state_of (GameEngine.load_level 60 overlapping_level GameEngine.default).

(** The engine loaded with the medium level, and a simulation whose pipes
    travel four spacings per tick. *)
Definition medium_engine : GameEngine.t :=
  Py.state_of (GameEngine.load_level 60 Levels.medium GameEngine.default).

Definition fast_sim : option Sim.t :=
  Sim.init (fun _ => 150) 800 600 1000 (1 # 2).

(** The default simulation with all gaps centered at 300, and inputs that
    keep its agent hovering between y = 240 and y = 300: an impulse every 31
    frames. *)
Definition level_sim : option Sim.t := Sim.init (fun _ => 150) 800 600 3 (1 # 2).

Definition hover_inputs (frames : nat) : list (bool * Z) :=
  map (fun i => (Nat.eqb (i mod 31) 0, 150)) (seq 0 frames).

End Examples.

(** ** Dictionaries as [shouldJump] receives them *)

Module Dyn.

(** The Python values a game-state dictionary is made of. *)
#[local] Unset Elimination Schemes.
Inductive value : Type :=
| VNone
| VNum (n : Q)
| VDict (items : list (string * value))
| VList (items : list value).
#[local] Set Elimination Schemes.

Inductive error : Type :=
| KeyError (key : string)
| TypeError.

Definition result (A : Type) : Type := (error + A)%type.

Definition bind {A B : Type} (r : result A) (k : A -> result B) : result B :=
  match r with
  | inl e => inl e
  | inr a => k a
  end.

Notation "'let*' x ':=' r 'in' k" := (bind r (fun x => k))
  (at level 10, x name, r at level 100, k at level 200).

Fixpoint assoc (key : string) (items : list (string * value)) : option value :=
  match items with
  | [] => None
  | (k, v) :: tl => if String.eqb k key then Some v else assoc key tl
  end.

(** [d[key]]: only a dictionary can be subscripted with a string. *)
Definition getitem (d : value) (key : string) : result value :=
  match d with
  | VDict items =>
      match assoc key items with
      | Some v => inr v
      | None => inl (KeyError key)
      end
  | _ => inl TypeError
  end.

(** A value used in arithmetic or in an ordering comparison. *)
Definition num (v : value) : result Q :=
  match v with
  | VNum n => inr n
  | _ => inl TypeError
  end.

(** Truth value of [if pipe:]. *)
Definition truthy (v : value) : bool :=
  match v with
  | VNone => false
  | VNum n => negb (Py.eqb n 0)
  | VDict items => match items with [] => false | _ => true end
  | VList items => match items with [] => false | _ => true end
  end.

(** [shouldJump], statement by statement, on an arbitrary value: the key
    lookups in the order of the source, the coercions to numbers where the
    source computes. *)
Definition shouldJump (game_state : value) : result bool :=
  let* pilot := getitem game_state "pilot" in
  let* floor := getitem game_state "floor" in
  let* gravity := getitem game_state "gravity" in
  let* pipe := getitem game_state "currentPipe" in
  let* current_y := getitem pilot "yPos" in
  let* current_velocity := getitem pilot "velocity" in
  let* pilot_height := getitem pilot "height" in
  let* pilot_width := getitem pilot "width" in
  let* pilot_height := num pilot_height in
  let* pilot_width := num pilot_width in
  let safety_margin := Py.max3 (pilot_height * (1 # 10)) (pilot_width * (1 # 10)) 5 in
  let* current_velocity := num current_velocity in
  let* gravity := num gravity in
  let next_velocity := (current_velocity + gravity)%Q in
  let* current_y := num current_y in
  let next_y := (current_y + next_velocity)%Q in
  let pilot_bottom_next_frame := (next_y + pilot_height)%Q in
  let* floor := num floor in
  if Py.geb (pilot_bottom_next_frame + safety_margin) floor then inr true
  else
    let* emergency :=
      (if truthy pipe then
         let* gap_bottom := getitem pipe "bottomPipe" in
         let* pipe_x := getitem pipe "xPosition" in
         let* pilot_x := getitem pilot "xPos" in
         let* pipe_x := num pipe_x in
         let* pilot_x := num pilot_x in
         let distance_to_pipe := (pipe_x - pilot_x)%Q in
         if Py.ltb 0 distance_to_pipe && Py.ltb distance_to_pipe 150 then
           let predicted := AI.free_fall 5 gravity (current_y, current_velocity) in
           let predicted_bottom := (predicted.1 + pilot_height)%Q in
           let* gap_bottom := num gap_bottom in
           inr (Py.geb (predicted_bottom + 5) gap_bottom)
         else inr false
       else inr false) in
    if emergency then inr true
    else if negb (truthy pipe) then inr false
    else
      let* gap_top := getitem pipe "topPipe" in
      let* gap_bottom := getitem pipe "bottomPipe" in
      let* gap_top := num gap_top in
      let* gap_bottom := num gap_bottom in
      let gap_center := ((gap_top + gap_bottom) / 2)%Q in
      let gap_height := (gap_bottom - gap_top)%Q in
      if Py.leb gap_center AI.SCREEN_CENTER then
        let target_y := (gap_bottom - gap_height * (3 # 4))%Q in
        let minimum_y := (target_y + AI.apex_height)%Q in
        if Py.geb minimum_y (floor - 20) then
          inr (Py.geb (pilot_bottom_next_frame + safety_margin) gap_bottom)
        else inr (Py.geb current_y minimum_y)
      else
        inr (Py.geb (pilot_bottom_next_frame + safety_margin) gap_bottom).

(** The dictionary built by [GameEngine.get_game_state]. *)
Definition engine_pipe (p : GameEngine.pipe) : value :=
  VDict [ ("xPosition"%string, VNum (GameEngine.xPosition p));
          ("topPipe"%string, VNum (GameEngine.topPipe p));
          ("bottomPipe"%string, VNum (GameEngine.bottomPipe p)) ].

Definition engine_pilot (p : GameEngine.pilot_dict) : value :=
  VDict [ ("xPos"%string, VNum (GameEngine.xPos p));
          ("yPos"%string, VNum (GameEngine.yPos p));
          ("height"%string, VNum (GameEngine.height p));
          ("width"%string, VNum (GameEngine.width p));
          ("gravity"%string, VNum (GameEngine.pilot_gravity p));
          ("jumpVelocity"%string, VNum (GameEngine.jumpVelocity p));
          ("velocity"%string, VNum (GameEngine.velocity p)) ].

Definition engine_game_state (gs : GameEngine.game_state) : value :=
  VDict [ ("pilot"%string, engine_pilot (GameEngine.pilot gs));
          ("pipeSpeed"%string, VNum (GameEngine.pipeSpeed gs));
          ("currentPipe"%string,
           match GameEngine.currentPipe gs with
           | Some p => engine_pipe p
           | None => VNone
           end);
          ("pipeArray"%string, VList (map engine_pipe (GameEngine.pipeArray gs)));
          ("gravity"%string, VNum (GameEngine.gs_gravity gs));
          ("floor"%string, VNum (GameEngine.floor gs)) ].

(** The dictionary built by [FlappyBirdGame.get_game_state] and the two
    [to_dict] methods. *)
Definition sim_pipe (p : Sim.pipe_dict) : value :=
  VDict [ ("topPipe"%string, VNum (inject_Z (Sim.topPipe p)));
          ("bottomPipe"%string, VNum (inject_Z (Sim.bottomPipe p)));
          ("xPosition"%string, VNum (Sim.xPosition p)) ].

Definition sim_pilot (p : Sim.pilot_dict) : value :=
  VDict [ ("xPos"%string, VNum (Sim.xPos p));
          ("yPos"%string, VNum (Sim.yPos p));
          ("height"%string, VNum (Sim.d_height p));
          ("width"%string, VNum (Sim.d_width p));
          ("gravity"%string, VNum (Sim.d_gravity p));
          ("jumpVelocity"%string, VNum (Sim.jumpVelocity p)) ].

Definition sim_game_state (gs : Sim.game_state) : value :=
  VDict [ ("pilot"%string, sim_pilot (Sim.gs_pilot gs));
          ("pipeSpeed"%string, VNum (Sim.pipeSpeed gs));
          ("currentPipe"%string,
           match Sim.currentPipe gs with
           | Some p => sim_pipe p
           | None => VNone
           end);
          ("pipeArray"%string, VList (map sim_pipe (Sim.pipeArray gs)));
          ("gravity"%string, VNum (Sim.gs_gravity gs)) ].

(** What ends [run_test_mode] of main.py. *)
Inductive test_outcome : Type :=
| Finished (score : Z) (frame : nat)
| PolicyRaised (e : error) (game : Sim.t) (frame : nat)
| UpdateRaised (e : Py.exn) (game : Sim.t) (frame : nat).

(** The loop of [run_test_mode]: at most [frames_left] more frames, the
    i-th update drawing from [entropy i]. *)
Fixpoint test_loop (entropy : nat -> Z) (frames_left : nat) (game : Sim.t) (frame : nat)
  : test_outcome :=
  match frames_left with
  | O => Finished (Sim.score game) frame
  | S n =>
      if Sim.is_game_over game then Finished (Sim.score game) frame
      else
        match shouldJump (sim_game_state (Sim.get_game_state game)) with
        | inl e => PolicyRaised e game frame
        | inr jump_decision =>
            match Sim.update game jump_decision (entropy frame) with
            | Py.Raised e game' => UpdateRaised e game' frame
            | Py.Returned game' => test_loop entropy n game' (S frame)
            end
        end
  end.

(** [run_test_mode] on the game its first line constructs. *)
Definition run_test_mode (entropy : nat -> Z) (game : Sim.t) : test_outcome :=
  test_loop entropy (100 * 100) game 0.

End Dyn.

(** ** app.py: the commands of a session *)

Module App.

(** The dictionary of [GameEngine.get_render_state]. *)
Record render_pilot : Type := {
  x : Q; y : Q; width : Q; height : Q; velocity : Q
}.

Record render_state : Type := {
  pilot : render_pilot;
  pipes : list GameEngine.pipe;
  score : Z;
  frame : Z;
  gameOver : bool;
  screenWidth : Z;
  screenHeight : Z;
  floor : Z
}.

Definition get_render_state (g : GameEngine.t) : render_state := {|
  pilot := {| x := GameEngine.pilot_x g; y := GameEngine.pilot_y g;
              width := GameEngine.pilot_width g; height := GameEngine.pilot_height g;
              velocity := GameEngine.pilot_velocity g |};
  pipes := GameEngine.pipes g;
  score := GameEngine.score g;
  frame := GameEngine.frame_count g;
  gameOver := GameEngine.game_over g;
  screenWidth := GameEngine.screen_width g;
  screenHeight := GameEngine.screen_height g;
  floor := GameEngine.floor_y g
|}.

(** A payload as [websocket.receive_json] returns it: any JSON value.  An
    object is given by its items, one per key. *)
#[local] Unset Elimination Schemes.
Inductive json : Type :=
| JNull
| JBool (b : bool)
| JNum (n : Q)
| JStr (s : string)
| JList (items : list json)
| JObj (items : list (string * json)).
#[local] Set Elimination Schemes.

Fixpoint assoc (key : string) (items : list (string * json)) : option json :=
  match items with
  | [] => None
  | (k, v) :: tl => if String.eqb k key then Some v else assoc key tl
  end.



(** [get_level(level_id)] on a received value.  [LEVELS.get] hashes its key:
    a list or a dict raises [TypeError] ([None]); a string is looked up; any
    other value is hashable and equal to no key of [LEVELS], which gives the
    default. *)
Definition get_level (level_id : json) : option Levels.level_config :=
  match level_id with
  | JStr id => Some (Levels.get_level id)
  | JList _ | JObj _ => None
  | JNull | JBool _ | JNum _ => Some Levels.marathon
  end.

(** The branch of the receive loop a message takes; [LoadLevel] carries
    [data.get("level_id", "simple")]. *)
Inductive action : Type :=
| LoadLevel (level_id : json)
| StartManual
| StartAutopilot
| Jump
| Update
| Reset
| Unknown.


(** The messages sent back. *)
Inductive message : Type :=
| level_loaded (level_id : json) (state : render_state)
| mode_changed (mode : string)
| state_update (state : render_state) (shouldJump : bool)
| reset_done (state : render_state).

(** The decision of an [update] message.  The policy is the shipped
    [ai_controller.shouldJump]; it is consulted in autopilot mode on a
    running instance only. *)
Definition decide (game : GameEngine.t) : bool :=
  if GameEngine.autopilot game && negb (GameEngine.game_over game)
  then match Dyn.shouldJump (Dyn.engine_game_state (GameEngine.get_game_state game)) with
       | inr should_jump => should_jump
       | inl _ => false
       end
  else false.

(** One iteration of the receive loop of [websocket_endpoint]: the game
    after the message, and the reply if one is sent.  An exception leaves
    the loop. *)
Definition handle (entropy : Z) (a : action) (game : GameEngine.t)
  : Py.outcome GameEngine.t * option message :=
  match a with
  | LoadLevel level_id =>
      match get_level level_id with
      | None => (Py.Raised Py.TypeError game, None)
      | Some level_config =>
          match GameEngine.load_level entropy level_config game with
          | Py.Returned game =>
              (Py.Returned game, Some (level_loaded level_id (get_render_state game)))
          | Py.Raised e game => (Py.Raised e game, None)
          end
      end
  | StartManual =>
      (Py.Returned (GameEngine.set_autopilot false game), Some (mode_changed "manual"))
  | StartAutopilot =>
      (Py.Returned (GameEngine.set_autopilot true game), Some (mode_changed "autopilot"))
  | Jump =>
      (Py.Returned (if GameEngine.autopilot game then game else GameEngine.jump game),
       None)
  | Update =>
      let should_jump := decide game in
      let game := GameEngine.update game should_jump in
      (Py.Returned game, Some (state_update (get_render_state game) should_jump))
  | Reset =>
      let game := GameEngine.reset game in
      (Py.Returned game, Some (reset_done (get_render_state game)))
  | Unknown => (Py.Returned game, None)
  end.

(** A session of messages already received as branches of the loop, each
    with the entropy of its floor draw. *)
Fixpoint session (inputs : list (Z * action)) (game : GameEngine.t)
  : Py.outcome GameEngine.t * list message :=
  match inputs with
  | [] => (Py.Returned game, [])
  | (entropy, a) :: tl =>
      match handle entropy a game with
      | (Py.Returned game', reply) =>
          let '(final, replies) := session tl game' in
          (final, match reply with Some m => m :: replies | None => replies end)
      | (Py.Raised e game', _) => (Py.Raised e game', [])
      end
  end.


End App.

(** ** Further properties: vocabulary and example states *)

Module Props.

(** The snapshot [gs] with the agent at altitude [y] and velocity [v]. *)
Definition with_kinematics (y v : Q) (gs : GameEngine.game_state)
  : GameEngine.game_state := {|
  GameEngine.pilot := {|
    GameEngine.xPos := GameEngine.xPos (GameEngine.pilot gs);
    GameEngine.yPos := y;
    GameEngine.height := GameEngine.height (GameEngine.pilot gs);
    GameEngine.width := GameEngine.width (GameEngine.pilot gs);
    GameEngine.pilot_gravity := GameEngine.pilot_gravity (GameEngine.pilot gs);
    GameEngine.jumpVelocity := GameEngine.jumpVelocity (GameEngine.pilot gs);
    GameEngine.velocity := v |};
  GameEngine.pipeSpeed := GameEngine.pipeSpeed gs;
  GameEngine.currentPipe := GameEngine.currentPipe gs;
  GameEngine.pipeArray := GameEngine.pipeArray gs;
  GameEngine.gs_gravity := GameEngine.gs_gravity gs;
  GameEngine.floor := GameEngine.floor gs
|}.

(** The bottom edge after five frames of free fall, in closed form. *)
Definition bottom_after_five (gs : GameEngine.game_state) : Q :=
  (GameEngine.yPos (GameEngine.pilot gs)
   + 5 * GameEngine.velocity (GameEngine.pilot gs)
   + 15 * GameEngine.gs_gravity gs
   + GameEngine.height (GameEngine.pilot gs))%Q.

(** A snapshot with a target 100 pixels ahead whose gap is low on the
    screen, the agent falling towards its lower edge. *)
Definition low_gap : GameEngine.pipe :=
  {| GameEngine.xPosition := 200; GameEngine.topPipe := 375; GameEngine.bottomPipe := 525 |}.

Definition falling_near_pipe : GameEngine.game_state :=
  Examples.snapshot 470 4 (1 # 2) (-8) 600 (Some low_gap).

Definition gliding_far_pipe : GameEngine.game_state :=
  Examples.snapshot 400 0 (1 # 2) (-8) 600
    (Some {| GameEngine.xPosition := 400; GameEngine.topPipe := 375;
             GameEngine.bottomPipe := 525 |}).

(** The configuration of an engine: what a tick never changes. *)
Definition same_config (g g' : GameEngine.t) : Prop :=
  GameEngine.screen_width g' = GameEngine.screen_width g
  /\ GameEngine.screen_height g' = GameEngine.screen_height g
  /\ GameEngine.pipe_speed g' = GameEngine.pipe_speed g
  /\ GameEngine.gravity g' = GameEngine.gravity g
  /\ GameEngine.pilot_x g' = GameEngine.pilot_x g
  /\ GameEngine.pilot_width g' = GameEngine.pilot_width g
  /\ GameEngine.pilot_height g' = GameEngine.pilot_height g
  /\ GameEngine.jump_velocity g' = GameEngine.jump_velocity g
  /\ GameEngine.floor_y g' = GameEngine.floor_y g
  /\ GameEngine.autopilot g' = GameEngine.autopilot g.

(** [n] frames without any impulse. *)
Definition free_frames (n : nat) : list bool := repeat false n.

(** [n] [update] messages handled in a row. *)
Definition updates (n : nat) (g : GameEngine.t) : GameEngine.t :=
  Nat.iter n (fun g => Py.state_of (App.handle 0 App.Update g).1) g.

(** The engine loaded with the simple level, in autopilot mode. *)
Definition autopilot_engine : GameEngine.t :=
  GameEngine.set_autopilot true Examples.running_engine.

(** Checks on the x positions of a level: any two at least [speed] apart,
    and none with its trailing edge already behind [agent_x]. *)
Fixpoint spacedb (speed : Q) (xs : list Q) : bool :=
  match xs with
  | [] => true
  | x :: tl =>
      forallb (fun y => Py.leb (x + speed) y || Py.leb (y + speed) x) tl
      && spacedb speed tl
  end.

Definition none_behindb (agent_x : Q) (xs : list Q) : bool :=
  forallb (fun x => Py.geb (x + 50) agent_x) xs.

Definition level_xs (level : Levels.level_config) : list Q :=
  map (fun pc => inject_Z (Levels.xPosition pc)) (Levels.pipes level).

(** The levels of the table. *)
Definition shipped : list Levels.level_config := map snd Levels.LEVELS.







(** A gap of the pygame simulation: 150 high around a center that is at
    least 150 away from the top and the bottom of the screen. *)
Definition gap_in_screen (screen_height : Z) (p : Sim.Pipe) : Prop :=
  Sim.gap_height p = 150
  /\ Sim.top_pipe p = Sim.gap_y_center p - 75
  /\ Sim.bottom_pipe p = Sim.gap_y_center p + 75
  /\ 150 <= Sim.gap_y_center p <= screen_height - 150.

(** The same decisions for the simulation, each with the entropy [e]. *)
Definition sim_inputs (e : Z) (ds : list bool) : list (bool * Z) :=
  map (fun d => (d, e)) ds.

(** A game-state dictionary holding only the keys that [shouldJump] reads;
    [with_x] tells whether the pilot entry has its ["xPos"]. *)
Definition minimal_game_state (with_x : bool) (gs : GameEngine.game_state) : Dyn.value :=
  let pilot := GameEngine.pilot gs in
  Dyn.VDict [
    ("currentPipe"%string,
     match GameEngine.currentPipe gs with
     | Some p =>
         Dyn.VDict [ ("bottomPipe"%string, Dyn.VNum (GameEngine.bottomPipe p));
                     ("topPipe"%string, Dyn.VNum (GameEngine.topPipe p));
                     ("xPosition"%string, Dyn.VNum (GameEngine.xPosition p)) ]
     | None => Dyn.VNone
     end);
    ("floor"%string, Dyn.VNum (GameEngine.floor gs));
    ("gravity"%string, Dyn.VNum (GameEngine.gs_gravity gs));
    ("pilot"%string,
     Dyn.VDict (
       (if with_x then [ ("xPos"%string, Dyn.VNum (GameEngine.xPos pilot)) ] else [])
       ++ [ ("yPos"%string, Dyn.VNum (GameEngine.yPos pilot));
            ("velocity"%string, Dyn.VNum (GameEngine.velocity pilot));
            ("height"%string, Dyn.VNum (GameEngine.height pilot));
            ("width"%string, Dyn.VNum (GameEngine.width pilot)) ])) ].

(** The dictionary of the pygame simulation with a ["floor"] entry added. *)
Definition sim_game_state_with_floor (floor : Q) (gs : Sim.game_state) : Dyn.value :=
  match Dyn.sim_game_state gs with
  | Dyn.VDict items => Dyn.VDict (items ++ [ ("floor"%string, Dyn.VNum floor) ])
  | v => v
  end.

End Props.

(** ** Comparisons of Python numbers *)

Lemma ltb_iff (x y : Q) : Py.ltb x y = true <-> (x < y)%Q.
Proof.
  unfold Py.ltb. rewrite negb_true_iff, <- not_true_iff_false, Qle_bool_iff.
  split; [apply Qnot_le_lt | apply Qlt_not_le].
Qed.

Lemma leb_iff (x y : Q) : Py.leb x y = true <-> (x <= y)%Q.
Proof. apply Qle_bool_iff. Qed.

Lemma gtb_iff (x y : Q) : Py.gtb x y = true <-> (y < x)%Q.
Proof. apply ltb_iff. Qed.

Lemma geb_iff (x y : Q) : Py.geb x y = true <-> (y <= x)%Q.
Proof. apply leb_iff. Qed.

Lemma eqb_iff (x y : Q) : Py.eqb x y = true <-> (x == y)%Q.
Proof. apply Qeq_bool_iff. Qed.

Lemma ltb_false_iff (x y : Q) : Py.ltb x y = false <-> (y <= x)%Q.
Proof.
  unfold Py.ltb. rewrite negb_false_iff. apply Qle_bool_iff.
Qed.

Lemma leb_false_iff (x y : Q) : Py.leb x y = false <-> (y < x)%Q.
Proof.
  rewrite <- not_true_iff_false, leb_iff.
  split; [apply Qnot_le_lt | apply Qlt_not_le].
Qed.

Lemma geb_false_iff (x y : Q) : Py.geb x y = false <-> (x < y)%Q.
Proof. apply leb_false_iff. Qed.

(** ** The simulation clock: terminal states and the frame counter *)

Lemma engine_run_terminal (ds : list bool) (g : GameEngine.t) :
  GameEngine.game_over g = true -> GameEngine.run g ds = g.
Proof.
  intros Hover. unfold GameEngine.run.
  induction ds as [| d ds IH]; simpl; [reflexivity |].
  unfold GameEngine.update at 2. rewrite Hover. exact IH.
Qed.

Lemma sim_update_terminal (s : Sim.t) (d : bool) (e : Z) :
  Sim.game_over s = true -> Sim.update s d e = Py.Returned s.
Proof. intros Hover. unfold Sim.update. now rewrite Hover. Qed.

Lemma sim_run_terminal (inputs : list (bool * Z)) (s : Sim.t) :
  Sim.game_over s = true -> Sim.run s inputs = Py.Returned s.
Proof.
  intros Hover. induction inputs as [| [d e] tl IH]; simpl; [reflexivity |].
  rewrite sim_update_terminal by assumption. exact IH.
Qed.

Lemma engine_advance_frame_fields (g : GameEngine.t) (d : bool) :
  let g' := GameEngine.advance_frame g d in
  GameEngine.frame_count g' = GameEngine.frame_count g + 1
  /\ GameEngine.game_over g' = GameEngine.game_over g
  /\ GameEngine.pilot_x g' = GameEngine.pilot_x g
  /\ GameEngine.pipe_speed g' = GameEngine.pipe_speed g
  /\ GameEngine.pipes g'
     = map (GameEngine.move_pipe (GameEngine.pipe_speed g)) (GameEngine.pipes g)
  /\ GameEngine.score g' = GameEngine.score g
  /\ GameEngine.passed_pipes g' = GameEngine.passed_pipes g.
Proof.
  unfold GameEngine.advance_frame, GameEngine.jump.
  destruct d; cbn; destruct (GameEngine.game_over g) eqn:Hover;
    repeat split; exact Hover.
Qed.

Lemma engine_update_score_fields (g : GameEngine.t) :
  let g' := GameEngine.update_score g in
  GameEngine.frame_count g' = GameEngine.frame_count g
  /\ GameEngine.game_over g' = GameEngine.game_over g
  /\ GameEngine.pilot_x g' = GameEngine.pilot_x g
  /\ GameEngine.pipe_speed g' = GameEngine.pipe_speed g
  /\ GameEngine.pipes g' = GameEngine.pipes g.
Proof. repeat split. Qed.

(** One effective tick, with the state before and after the score update
    kept abstract. *)
Lemma engine_update_running (g : GameEngine.t) (d : bool) :
  GameEngine.game_over g = false ->
  exists b : bool,
    GameEngine.update g d
    = (if b then GameEngine.set_game_over true else fun g' : GameEngine.t => g')
        (GameEngine.update_score (GameEngine.advance_frame g d)).
Proof.
  intros Hrun. unfold GameEngine.update. rewrite Hrun.
  exists (GameEngine.check_collision
            (GameEngine.update_score (GameEngine.advance_frame g d))).
  destruct (GameEngine.check_collision _); reflexivity.
Qed.

Lemma engine_update_frame (g : GameEngine.t) (d : bool) :
  GameEngine.game_over g = false ->
  GameEngine.frame_count (GameEngine.update g d) = GameEngine.frame_count g + 1.
Proof.
  intros Hrun. destruct (engine_update_running g d Hrun) as [b ->].
  destruct (engine_advance_frame_fields g d) as (Hf & _).
  revert Hf. generalize (GameEngine.advance_frame g d) as g'. intros g' Hf.
  destruct b; exact Hf.
Qed.

Lemma sim_score_fold_fields (ps : list Sim.Pipe) (s : Sim.t) :
  let s' :=
    fold_left
      (fun s pipe =>
         if Py.eqb (Sim.x_position pipe + Sim.PIPE_WIDTH) (Sim.x_pos (Sim.pilot s))
         then Sim.set_score (Sim.score s + 1) s else s) ps s in
  Sim.frame_count s' = Sim.frame_count s /\ Sim.pipes s' = Sim.pipes s
  /\ Sim.pilot s' = Sim.pilot s /\ Sim.game_over s' = Sim.game_over s
  /\ Sim.screen_height s' = Sim.screen_height s
  /\ Sim.pipe_speed s' = Sim.pipe_speed s
  /\ Sim.score s'
     = Sim.score s + Z.of_nat (length (Spec.aligned (Sim.x_pos (Sim.pilot s)) ps)).
Proof.
  revert s. induction ps as [| p ps IH]; intros s; cbn [fold_left].
  - cbn. repeat split. lia.
  - unfold Spec.aligned. cbn [List.filter].
    destruct (Py.eqb _ _).
    + destruct (IH (Sim.set_score (Sim.score s + 1) s)) as (? & ? & ? & ? & ? & ? & Hs).
      cbn zeta in *. repeat split; try assumption.
      rewrite Hs. unfold Spec.aligned. cbn. lia.
    + apply IH.
Qed.

Lemma sim_update_score_fields (s : Sim.t) :
  let s' := Sim.update_score s in
  Sim.frame_count s' = Sim.frame_count s /\ Sim.pipes s' = Sim.pipes s
  /\ Sim.pilot s' = Sim.pilot s /\ Sim.game_over s' = Sim.game_over s
  /\ Sim.screen_height s' = Sim.screen_height s
  /\ Sim.pipe_speed s' = Sim.pipe_speed s
  /\ Sim.score s'
     = Sim.score s
       + Z.of_nat (length (Spec.aligned (Sim.x_pos (Sim.pilot s)) (Sim.pipes s))).
Proof. apply sim_score_fold_fields. Qed.

Lemma sim_advance_frame_fields (s : Sim.t) (d : bool) :
  let s' := Sim.advance_frame s d in
  Sim.frame_count s' = Sim.frame_count s + 1
  /\ Sim.game_over s' = Sim.game_over s
  /\ Sim.screen_height s' = Sim.screen_height s
  /\ Sim.screen_width s' = Sim.screen_width s
  /\ Sim.pipes s'
     = Sim.retire (map (Sim.pipe_update (Sim.pipe_speed s)) (Sim.pipes s))
  /\ Sim.pipe_speed s' = Sim.pipe_speed s
  /\ Sim.score s' = Sim.score s.
Proof. unfold Sim.advance_frame. destruct d; repeat split. Qed.

Lemma sim_spawn_fields (e : Z) (s : Sim.t) :
  let s' := Py.state_of (Sim.spawn e s) in
  Sim.frame_count s' = Sim.frame_count s
  /\ Sim.game_over s' = Sim.game_over s
  /\ Sim.screen_height s' = Sim.screen_height s
  /\ Sim.pilot s' = Sim.pilot s
  /\ Sim.score s' = Sim.score s.
Proof.
  unfold Sim.spawn.
  destruct (Nat.ltb _ _); [destruct (Py.randint e 150 _) |]; repeat split.
Qed.

Lemma sim_update_frame (s : Sim.t) (d : bool) (e : Z) :
  Sim.game_over s = false ->
  Sim.frame_count (Py.state_of (Sim.update s d e)) = Sim.frame_count s + 1.
Proof.
  intros Hrun. unfold Sim.update. rewrite Hrun.
  destruct (sim_advance_frame_fields s d) as (Hf & _).
  destruct (sim_spawn_fields e (Sim.advance_frame s d)) as (Hs & _).
  destruct (Sim.spawn e _) as [s1 | x s1]; cbn [Py.state_of] in *.
  - destruct (sim_update_score_fields s1) as (Hu & _).
    rewrite Hs, Hf in Hu. revert Hu.
    generalize (Sim.update_score s1) as s2. intros s2 Hu.
    destruct (Sim.check_collision s2); exact Hu.
  - congruence.
Qed.

(** C1. A terminal state is a fixed point of the clock, for any decision and
    any sequence of decisions (so every field, the terminal flag included,
    stays as it was); on a non-terminal state one tick advances the frame
    counter by exactly one.  Both clocks of the repository are covered: the
    engine's [update] and the pygame simulation's [update] (for which the
    frame counter advances whether or not the spawn draw raises). *)
Theorem C1_terminal_frozen_frame_steps :
  (forall g d, GameEngine.game_over g = true -> GameEngine.update g d = g)
  /\ (forall g ds, GameEngine.game_over g = true ->
        GameEngine.run g ds = g /\ GameEngine.game_over (GameEngine.run g ds) = true)
  /\ (forall g d, GameEngine.game_over g = false ->
        GameEngine.frame_count (GameEngine.update g d) = GameEngine.frame_count g + 1)
  /\ (forall s d e, Sim.game_over s = true -> Sim.update s d e = Py.Returned s)
  /\ (forall s inputs, Sim.game_over s = true ->
        Sim.run s inputs = Py.Returned s
        /\ Sim.game_over (Py.state_of (Sim.run s inputs)) = true)
  /\ (forall s d e, Sim.game_over s = false ->
        Sim.frame_count (Py.state_of (Sim.update s d e)) = Sim.frame_count s + 1).
Proof.
  split; [| split; [| split; [| split; [| split]]]].
  - intros g d Hover. unfold GameEngine.update. now rewrite Hover.
  - intros g ds Hover. rewrite engine_run_terminal by assumption. now split.
  - apply engine_update_frame.
  - apply sim_update_terminal.
  - intros s inputs Hover. rewrite sim_run_terminal by assumption. now split.
  - apply sim_update_frame.
Qed.

Lemma C1_witness :
  GameEngine.update Examples.crashed_engine true = Examples.crashed_engine
  /\ GameEngine.run Examples.crashed_engine [true; false; true] = Examples.crashed_engine
  /\ GameEngine.frame_count (GameEngine.update Examples.running_engine true) = 1
  /\ Sim.run Examples.crashed_sim [(true, 3); (false, 5)] = Py.Returned Examples.crashed_sim
  /\ Sim.frame_count (Py.state_of (Sim.update Examples.running_sim false 7)) = 1.
Proof.
  destruct C1_terminal_frozen_frame_steps as (He & Hr & Hf & Hs & Hsr & Hsf).
  split; [apply He; reflexivity |].
  split; [apply Hr; reflexivity |].
  split; [apply (Hf Examples.running_engine true); reflexivity |].
  split; [apply Hsr; reflexivity |].
  apply (Hsf Examples.running_sim false 7); reflexivity.
Defined.

(** ** Reset *)

Lemma half_of_even (n : Z) :
  Z.even n = true -> (inject_Z (n / 2) == inject_Z n / 2)%Q.
Proof.
  intros Heven. apply Z.even_spec in Heven as [m ->].
  rewrite Z.mul_comm, Z.div_mul by lia.
  rewrite inject_Z_mult. change (inject_Z 2) with 2%Q. field.
Qed.

(** C10. [reset] puts the agent at half the screen height (the integer half
    [screen_height // 2], which is the exact half for an even height such as
    the default 600) with velocity 0, zeroes score and frame, clears the
    terminal flag, empties the obstacle list (and the set of credited
    obstacles), and leaves the floor, the screen dimensions, the pipe speed,
    the gravity and the autopilot mode as they were: the floor of the
    previously loaded level persists. *)
Theorem C10_reset_fields (g : GameEngine.t) :
  let g' := GameEngine.reset g in
  GameEngine.pilot_y g' = inject_Z (GameEngine.screen_height g / 2)
  /\ (Z.even (GameEngine.screen_height g) = true ->
      (GameEngine.pilot_y g' == inject_Z (GameEngine.screen_height g) / 2)%Q)
  /\ GameEngine.pilot_velocity g' = 0%Q
  /\ GameEngine.score g' = 0
  /\ GameEngine.frame_count g' = 0
  /\ GameEngine.game_over g' = false
  /\ GameEngine.pipes g' = []
  /\ GameEngine.passed_pipes g' = ∅
  /\ GameEngine.floor_y g' = GameEngine.floor_y g
  /\ GameEngine.screen_width g' = GameEngine.screen_width g
  /\ GameEngine.screen_height g' = GameEngine.screen_height g
  /\ GameEngine.pipe_speed g' = GameEngine.pipe_speed g
  /\ GameEngine.gravity g' = GameEngine.gravity g
  /\ GameEngine.autopilot g' = GameEngine.autopilot g
  /\ GameEngine.pilot_x g' = GameEngine.pilot_x g
  /\ GameEngine.pilot_width g' = GameEngine.pilot_width g
  /\ GameEngine.pilot_height g' = GameEngine.pilot_height g
  /\ GameEngine.jump_velocity g' = GameEngine.jump_velocity g.
Proof.
  cbn zeta. split; [reflexivity |]. split; [apply half_of_even |].
  repeat split.
Qed.

Lemma C10_witness :
  (GameEngine.pilot_y (GameEngine.reset Examples.played_engine) == 600 / 2)%Q
  /\ GameEngine.pipes (GameEngine.reset Examples.played_engine) = []
  /\ GameEngine.floor_y (GameEngine.reset Examples.played_engine) = 560.
Proof.
  destruct (C10_reset_fields Examples.played_engine)
    as (_ & Hhalf & _ & _ & _ & _ & Hpipes & _ & Hfloor & _).
  split; [apply Hhalf; reflexivity |]. split; [exact Hpipes |].
  rewrite Hfloor. reflexivity.
Defined.

(** ** The collision detector *)

Lemma engine_hits_pipe_iff (g : GameEngine.t) (p : GameEngine.pipe) :
  GameEngine.hits_pipe g p = true <->
  Spec.overlaps (GameEngine.pilot_x g) (GameEngine.pilot_width g) (GameEngine.xPosition p)
  /\ ((GameEngine.pilot_y g < GameEngine.topPipe p)%Q
      \/ (GameEngine.bottomPipe p < GameEngine.pilot_y g + GameEngine.pilot_height g)%Q).
Proof.
  unfold GameEngine.hits_pipe, Spec.overlaps, GameEngine.PIPE_WIDTH.
  rewrite !andb_true_iff, orb_true_iff, !ltb_iff, !gtb_iff. tauto.
Qed.

Lemma engine_check_collision_iff (g : GameEngine.t) :
  GameEngine.check_collision g = true <-> Spec.engine_collision g.
Proof.
  unfold GameEngine.check_collision, Spec.engine_collision.
  destruct (Py.leb (GameEngine.pilot_y g) 0) eqn:Hceil.
  { apply leb_iff in Hceil. tauto. }
  apply leb_false_iff in Hceil.
  destruct (Py.geb _ (inject_Z (GameEngine.floor_y g))) eqn:Hfloor.
  { apply geb_iff in Hfloor. tauto. }
  apply geb_false_iff in Hfloor.
  rewrite existsb_exists. split.
  - intros (p & Hin & Hhit). apply engine_hits_pipe_iff in Hhit. right. right.
    exists p. tauto.
  - intros [Hc | [Hf | (p & Hin & Hov & Hgap)]].
    + destruct (Qlt_not_le _ _ Hceil Hc).
    + destruct (Qlt_not_le _ _ Hfloor Hf).
    + exists p. split; [assumption |]. apply engine_hits_pipe_iff. tauto.
Qed.

Lemma sim_hits_pipe_iff (s : Sim.t) (p : Sim.Pipe) :
  Sim.hits_pipe s p = true <->
  Spec.overlaps (Sim.x_pos (Sim.pilot s)) (Sim.width (Sim.pilot s)) (Sim.x_position p)
  /\ ((Sim.y_pos (Sim.pilot s) < inject_Z (Sim.top_pipe p))%Q
      \/ (inject_Z (Sim.bottom_pipe p) < Sim.y_pos (Sim.pilot s) + Sim.height (Sim.pilot s))%Q).
Proof.
  unfold Sim.hits_pipe, Spec.overlaps, Sim.PIPE_WIDTH.
  rewrite !andb_true_iff, orb_true_iff, !ltb_iff, !gtb_iff. tauto.
Qed.

Lemma sim_check_collision_iff (s : Sim.t) :
  Sim.check_collision s = true <-> Spec.sim_collision s.
Proof.
  unfold Sim.check_collision, Spec.sim_collision.
  destruct (Py.leb (Sim.y_pos (Sim.pilot s)) 0) eqn:Hceil; cbn [orb].
  { apply leb_iff in Hceil. tauto. }
  apply leb_false_iff in Hceil.
  destruct (Py.geb _ (inject_Z (Sim.screen_height s))) eqn:Hfloor.
  { apply geb_iff in Hfloor. tauto. }
  apply geb_false_iff in Hfloor.
  rewrite existsb_exists. split.
  - intros (p & Hin & Hhit). apply sim_hits_pipe_iff in Hhit. right. right.
    exists p. tauto.
  - intros [Hc | [Hf | (p & Hin & Hov & Hgap)]].
    + destruct (Qlt_not_le _ _ Hceil Hc).
    + destruct (Qlt_not_le _ _ Hfloor Hf).
    + exists p. split; [assumption |]. apply sim_hits_pipe_iff. tauto.
Qed.

Lemma engine_collision_ignores_flag (b : bool) (g : GameEngine.t) :
  GameEngine.check_collision (GameEngine.set_game_over b g)
  = GameEngine.check_collision g.
Proof. reflexivity. Qed.

Lemma sim_collision_ignores_flag (b : bool) (s : Sim.t) :
  Sim.check_collision (Sim.set_game_over b s) = Sim.check_collision s.
Proof. reflexivity. Qed.

Lemma engine_update_terminal_iff (g : GameEngine.t) (d : bool) :
  GameEngine.game_over g = false ->
  (GameEngine.game_over (GameEngine.update g d) = true
   <-> GameEngine.check_collision (GameEngine.update g d) = true).
Proof.
  intros Hrun. unfold GameEngine.update. rewrite Hrun.
  destruct (engine_advance_frame_fields g d) as (_ & Hg & _).
  rewrite Hrun in Hg. revert Hg.
  generalize (GameEngine.advance_frame g d) as g1. intros g1 Hg.
  change (GameEngine.game_over g1)
    with (GameEngine.game_over (GameEngine.update_score g1)) in Hg.
  revert Hg. generalize (GameEngine.update_score g1) as g'. intros g' Hg.
  destruct (GameEngine.check_collision g') eqn:Hc.
  - rewrite engine_collision_ignores_flag, Hc. cbn. tauto.
  - rewrite Hc, Hg. tauto.
Qed.

Lemma sim_update_terminal_iff (s s' : Sim.t) (d : bool) (e : Z) :
  Sim.game_over s = false ->
  Sim.update s d e = Py.Returned s' ->
  (Sim.game_over s' = true <-> Sim.check_collision s' = true).
Proof.
  intros Hrun. unfold Sim.update. rewrite Hrun.
  destruct (sim_advance_frame_fields s d) as (_ & Ha & _).
  destruct (sim_spawn_fields e (Sim.advance_frame s d)) as (_ & Hs & _).
  destruct (Sim.spawn e _) as [s1 | x s1]; [| discriminate].
  cbn [Py.state_of] in Hs. intros [= <-].
  destruct (sim_update_score_fields s1) as (_ & _ & _ & Hg & _).
  cbn zeta in Hg. rewrite Hs, Ha, Hrun in Hg. revert Hg.
  generalize (Sim.update_score s1) as s2. intros s2 Hg.
  destruct (Sim.check_collision s2) eqn:Hc.
  - rewrite sim_collision_ignores_flag, Hc. cbn. tauto.
  - rewrite Hc, Hg. tauto.
Qed.

(** C4. The collision predicate is true exactly when the agent touches the
    ceiling ([y <= 0]), or the floor ([y + height >= floor]), or is outside
    the gap of an obstacle whose horizontal span overlaps its own; and a tick
    of a running instance ends terminal exactly when the predicate holds of
    the state it produced (after integration and track advance).  For the
    engine the floor is the one drawn at level load; the pygame simulation
    has the bottom of the screen as its floor. *)
Theorem C4_collision_predicate :
  (forall g, GameEngine.check_collision g = true <-> Spec.engine_collision g)
  /\ (forall g d, GameEngine.game_over g = false ->
        (GameEngine.game_over (GameEngine.update g d) = true
         <-> Spec.engine_collision (GameEngine.update g d)))
  /\ (forall s, Sim.check_collision s = true <-> Spec.sim_collision s)
  /\ (forall s d e s', Sim.game_over s = false ->
        Sim.update s d e = Py.Returned s' ->
        (Sim.game_over s' = true <-> Spec.sim_collision s')).
Proof.
  split; [| split; [| split]].
  - apply engine_check_collision_iff.
  - intros g d Hrun. rewrite <- engine_check_collision_iff.
    now apply engine_update_terminal_iff.
  - apply sim_check_collision_iff.
  - intros s d e s' Hrun Hup. rewrite <- sim_check_collision_iff.
    now apply (sim_update_terminal_iff s s' d e).
Qed.

Lemma C4_witness :
  (GameEngine.game_over (GameEngine.update Examples.running_engine false) = true
   <-> Spec.engine_collision (GameEngine.update Examples.running_engine false))
  /\ (Sim.game_over (Py.state_of (Sim.update Examples.running_sim false 7)) = true
      <-> Spec.sim_collision (Py.state_of (Sim.update Examples.running_sim false 7))).
Proof.
  destruct C4_collision_predicate as (_ & He & _ & Hs).
  split.
  - apply (He Examples.running_engine false). reflexivity.
  - apply (Hs Examples.running_sim false 7). + reflexivity. + reflexivity.
Defined.

(** ** The decision policy *)

Lemma safety_margin_spec (pilot : GameEngine.pilot_dict) :
  (AI.safety_margin pilot == Spec.margin pilot)%Q.
Proof.
  unfold AI.safety_margin, Spec.margin, Py.max3.
  apply Q.max_compat; [apply Q.max_compat |]; try reflexivity; apply Qmult_comm.
Qed.

Lemma floor_rule_iff (gs : GameEngine.game_state) :
  AI.floor_rule gs = true
  <-> (GameEngine.floor gs <= Spec.predicted_bottom gs + Spec.margin (GameEngine.pilot gs))%Q.
Proof.
  unfold AI.floor_rule. rewrite geb_iff.
  change (AI.pilot_bottom_next_frame (GameEngine.pilot gs) (GameEngine.gs_gravity gs))
    with (Spec.predicted_bottom gs).
  now rewrite safety_margin_spec.
Qed.

(** C2. Floor safety comes first: when the bottom edge predicted for the
    next tick without an impulse, plus the margin
    [max(0.1*height, 0.1*width, 5)], reaches the floor, [shouldJump] returns
    true, whatever the target obstacle (present or not) and the obstacle
    list are. *)
Theorem C2_floor_safety_first (gs : GameEngine.game_state)
  (target : option GameEngine.pipe) (obstacles : list GameEngine.pipe) :
  (GameEngine.floor gs <= Spec.predicted_bottom gs + Spec.margin (GameEngine.pilot gs))%Q ->
  AI.shouldJump gs = true
  /\ AI.shouldJump (Spec.with_obstacles target obstacles gs) = true.
Proof.
  intros Hfloor. split.
  - unfold AI.shouldJump. apply floor_rule_iff in Hfloor. now rewrite Hfloor.
  - unfold AI.shouldJump.
    assert (H : AI.floor_rule (Spec.with_obstacles target obstacles gs) = true)
      by (apply floor_rule_iff; exact Hfloor).
    now rewrite H.
Qed.

Lemma C2_witness :
  AI.shouldJump Examples.near_floor = true
  /\ AI.shouldJump
       (Spec.with_obstacles (Some Examples.high_gap) [Examples.high_gap] Examples.near_floor)
     = true.
Proof.
  apply (C2_floor_safety_first Examples.near_floor (Some Examples.high_gap)
           [Examples.high_gap]).
  vm_compute. discriminate.
Defined.

(** C3, as stated, fails: under a gravity of 1 per tick (impulse -8) the
    apex rise [jumpImpulse^2 / (2*gravity)] is 32, so for the gap 75..225 the
    altitude to hold would be 144.5; with the agent at y = 150, rules 1 and 2
    silent and the floor far away, the claim asks for a jump, and
    [shouldJump] returns false. *)
Lemma C3_counterexample :
  GameEngine.currentPipe Examples.apex_heavy = Some Examples.high_gap
  /\ AI.floor_rule Examples.apex_heavy = false
  /\ AI.emergency_rule Examples.apex_heavy = false
  /\ (Spec.gapCenter Examples.high_gap <= 300)%Q
  /\ (Spec.minimumY Examples.apex_heavy Examples.high_gap == 289 # 2)%Q
  /\ (Spec.minimumY Examples.apex_heavy Examples.high_gap
      < GameEngine.floor Examples.apex_heavy - 20)%Q
  /\ (Spec.minimumY Examples.apex_heavy Examples.high_gap
      <= GameEngine.yPos (GameEngine.pilot Examples.apex_heavy))%Q
  /\ AI.shouldJump Examples.apex_heavy = false.
Proof. vm_compute. repeat split; discriminate. Qed.

(** C3, amended. The apex rise is the constant 64 of the source (the value
    of [jumpImpulse^2 / (2*gravity)] at the default impulse -8 and gravity
    0.5) and the midline is the constant 300: for a target whose gap center
    is at most 300, when rules 1 and 2 do not fire and
    [minimum_y = gapBottom - 0.75*gapHeight + 64] is below [floor - 20],
    [shouldJump] returns true iff [agent.y >= minimum_y]. *)
Theorem C3_apex_rule_constant_rise (gs : GameEngine.game_state) (obstacle : GameEngine.pipe) :
  GameEngine.currentPipe gs = Some obstacle ->
  AI.floor_rule gs = false ->
  AI.emergency_rule gs = false ->
  (Spec.gapCenter obstacle <= 300)%Q ->
  (Spec.targetY obstacle + 64 < GameEngine.floor gs - 20)%Q ->
  (AI.shouldJump gs = true
   <-> (Spec.targetY obstacle + 64 <= GameEngine.yPos (GameEngine.pilot gs))%Q).
Proof.
  intros Htarget Hfloor Hemergency Hcenter Hfeasible.
  unfold AI.shouldJump. rewrite Hfloor, Hemergency, Htarget.
  apply leb_iff in Hcenter. unfold Spec.gapCenter in Hcenter.
  unfold AI.SCREEN_CENTER. rewrite Hcenter.
  assert (Hmin : (GameEngine.bottomPipe obstacle
                  - (GameEngine.bottomPipe obstacle - GameEngine.topPipe obstacle) * (3 # 4)
                  + AI.apex_height == Spec.targetY obstacle + 64)%Q).
  { unfold Spec.targetY, AI.apex_height. ring. }
  destruct (Py.geb _ (GameEngine.floor gs - 20)) eqn:Hfar.
  - apply geb_iff in Hfar. rewrite Hmin in Hfar.
    destruct (Qlt_not_le _ _ Hfeasible Hfar).
  - destruct (Py.geb (GameEngine.yPos (GameEngine.pilot gs)) _) eqn:Hy.
    + apply geb_iff in Hy. rewrite Hmin in Hy. tauto.
    + apply geb_false_iff in Hy. rewrite Hmin in Hy.
      split; [discriminate |]. intros Hle. destruct (Qlt_not_le _ _ Hy Hle).
Qed.

Lemma C3_witness :
  (Spec.targetY Examples.high_gap + 64 == 353 # 2)%Q
  /\ (Spec.apexRise Examples.apex_low == 64)%Q
  /\ (AI.shouldJump Examples.apex_low = true
      <-> (Spec.targetY Examples.high_gap + 64
           <= GameEngine.yPos (GameEngine.pilot Examples.apex_low))%Q)
  /\ (AI.shouldJump Examples.apex_high = true
      <-> (Spec.targetY Examples.high_gap + 64
           <= GameEngine.yPos (GameEngine.pilot Examples.apex_high))%Q).
Proof.
  split; [reflexivity |]. split; [reflexivity |]. split.
  - apply (C3_apex_rule_constant_rise Examples.apex_low Examples.high_gap);
      try reflexivity; vm_compute; try reflexivity; discriminate.
  - apply (C3_apex_rule_constant_rise Examples.apex_high Examples.high_gap);
      try reflexivity; vm_compute; try reflexivity; discriminate.
Defined.

(** The apex examples of the specification evaluate as it says. *)
Example apex_examples :
  AI.shouldJump Examples.apex_low = true /\ AI.shouldJump Examples.apex_high = false.
Proof. split; reflexivity. Qed.

(** ** Level load *)

Lemma engine_set_pipes_id (g : GameEngine.t) :
  GameEngine.set_pipes (GameEngine.pipes g) g = g.
Proof. now destruct g. Qed.

Lemma load_pipes_fold (cfgs : list Levels.pipe_config) (g : GameEngine.t) :
  fold_left
    (fun g pipe_config =>
       GameEngine.set_pipes
         (GameEngine.pipes g
          ++ [GameEngine.make_pipe (GameEngine.floor_y g) pipe_config]) g)
    cfgs g
  = GameEngine.set_pipes
      (GameEngine.pipes g ++ map (GameEngine.make_pipe (GameEngine.floor_y g)) cfgs) g.
Proof.
  revert g. induction cfgs as [| c cfgs IH]; intros g; cbn [fold_left map].
  - now rewrite app_nil_r, engine_set_pipes_id.
  - rewrite IH. cbn. now rewrite <- app_assoc.
Qed.

Lemma randint_range (entropy a b f : Z) :
  Py.randint entropy a b = Some f -> a <= f <= b.
Proof.
  unfold Py.randint. destruct (Z.ltb_spec b a) as [Hlt | Hle]; [discriminate |].
  intros [= <-]. pose proof (Z.mod_pos_bound entropy (b - a + 1)). lia.
Qed.

Lemma randint_empty (entropy a b : Z) :
  b < a -> Py.randint entropy a b = None.
Proof. intros H. unfold Py.randint. now apply Z.ltb_lt in H as ->. Qed.

Lemma randint_total (entropy a b : Z) :
  a <= b -> exists f, Py.randint entropy a b = Some f.
Proof.
  intros H. unfold Py.randint. destruct (Z.ltb_spec b a); [lia | eauto].
Qed.

Lemma load_level_returned (entropy : Z) (level : Levels.level_config) (g g' : GameEngine.t) :
  GameEngine.load_level entropy level g = Py.Returned g' ->
  Py.randint entropy (GameEngine.floor_range level g).1 (GameEngine.floor_range level g).2
  = Some (GameEngine.floor_y g')
  /\ g' = GameEngine.set_pipes
            (map (GameEngine.make_pipe (GameEngine.floor_y g')) (Levels.pipes level))
            (GameEngine.set_floor_y (GameEngine.floor_y g') (GameEngine.reset g)).
Proof.
  unfold GameEngine.load_level.
  change (GameEngine.floor_range level (GameEngine.reset g))
    with (GameEngine.floor_range level g).
  destruct (GameEngine.floor_range level g) as [lo hi]. cbn [fst snd].
  destruct (Py.randint entropy lo hi) as [f |]; [| discriminate].
  rewrite load_pipes_fold. intros [= <-]. split; reflexivity.
Qed.

(** C7, as stated, fails on the shipped levels.  In the marathon level with
    the floor drawn at 560, the obstacle of index 8 (center 470, height 170)
    keeps its gap bottom at 555, above [floor - 10 = 550]: the gap is moved
    only when it passes the floor itself.  In the hard level the obstacle of
    index 3 (center 250, height 145) gets its gap top at 178, not at
    [250 - 145/2 = 177.5]: the halves are floor divisions. *)
Lemma C7_counterexample :
  (let g' := Py.state_of (GameEngine.load_level 80 Levels.marathon GameEngine.default) in
   GameEngine.floor_y g' = 560
   /\ nth_error (Levels.pipes Levels.marathon) 8 = Some (Levels.mk_pipe 2050 470 170)
   /\ nth_error (GameEngine.pipes g') 8
      = Some {| GameEngine.xPosition := 2050; GameEngine.topPipe := 385;
                GameEngine.bottomPipe := 555 |}
   /\ (inject_Z (GameEngine.floor_y g' - 10) < 555)%Q)
  /\ (let g' := Py.state_of (GameEngine.load_level 0 Levels.hard GameEngine.default) in
      nth_error (Levels.pipes Levels.hard) 3 = Some (Levels.mk_pipe 1150 250 145)
      /\ nth_error (GameEngine.pipes g') 3
         = Some {| GameEngine.xPosition := 1150; GameEngine.topPipe := 178;
                   GameEngine.bottomPipe := 322 |}
      /\ ~ (178 == 250 - 145 / 2)%Q).
Proof. vm_compute. repeat split; discriminate. Qed.

(** C7, amended. On level load every obstacle descriptor yields the
    obstacle of the same index, with [gapTop = gapCenter - gapHeight // 2]
    and [gapBottom = gapCenter + gapHeight // 2] (floor divisions); when that
    [gapBottom] exceeds the floor itself, the gap is moved up so that
    [gapBottom = floor - 10] and [gapTop = gapBottom - gapHeight]. *)
Theorem C7_load_gap_positions (entropy : Z) (level : Levels.level_config)
  (g g' : GameEngine.t) (i : nat) (pc : Levels.pipe_config) :
  GameEngine.load_level entropy level g = Py.Returned g' ->
  nth_error (Levels.pipes level) i = Some pc ->
  exists p,
    nth_error (GameEngine.pipes g') i = Some p
    /\ GameEngine.xPosition p = inject_Z (Levels.xPosition pc)
    /\ (Levels.gapCenter pc + Levels.gapHeight pc / 2 <= GameEngine.floor_y g' ->
        GameEngine.topPipe p = inject_Z (Levels.gapCenter pc - Levels.gapHeight pc / 2)
        /\ GameEngine.bottomPipe p
           = inject_Z (Levels.gapCenter pc + Levels.gapHeight pc / 2))
    /\ (GameEngine.floor_y g' < Levels.gapCenter pc + Levels.gapHeight pc / 2 ->
        GameEngine.bottomPipe p = inject_Z (GameEngine.floor_y g' - 10)
        /\ GameEngine.topPipe p
           = inject_Z (GameEngine.floor_y g' - 10 - Levels.gapHeight pc)).
Proof.
  intros Hload Hpc. apply load_level_returned in Hload as [_ ->]. cbn.
  exists (GameEngine.make_pipe (GameEngine.floor_y g') pc).
  split; [now apply map_nth_error |].
  unfold GameEngine.make_pipe.
  destruct (Z.gtb_spec (Levels.gapCenter pc + Levels.gapHeight pc / 2)
              (GameEngine.floor_y g')) as [Hgt | Hle]; cbn.
  - repeat split; intros; lia.
  - repeat split; intros; lia.
Qed.

Lemma C7_witness :
  exists p,
    nth_error
      (GameEngine.pipes
         (Py.state_of (GameEngine.load_level 60 Examples.low_gap_level GameEngine.default))) 0
    = Some p
    /\ GameEngine.bottomPipe p = 550%Q /\ GameEngine.topPipe p = 400%Q.
Proof.
  destruct (C7_load_gap_positions 60 Examples.low_gap_level GameEngine.default
              (Py.state_of
                 (GameEngine.load_level 60 Examples.low_gap_level GameEngine.default))
              0 (Levels.mk_pipe 400 520 150))
    as (p & Hp & _ & _ & Hshift);
    [vm_compute; reflexivity | vm_compute; reflexivity |].
  exists p. split; [exact Hp |]. apply Hshift. vm_compute. reflexivity.
Defined.

(** C9, as stated, fails.  A descriptor whose gap height is -50 is loaded
    like any other and yields an obstacle with [gapTop > gapBottom]; a
    descriptor whose floor range is empty makes the floor draw raise, but
    only after the running instance was reset.  In both cases the instance
    that was two frames into a run is changed by the load. *)
Lemma C9_counterexample :
  (exists g',
     GameEngine.load_level 7 Examples.inverted_gap_level Examples.played_engine
     = Py.Returned g'
     /\ GameEngine.pipes g'
        = [{| GameEngine.xPosition := 400; GameEngine.topPipe := 325;
              GameEngine.bottomPipe := 275 |}]
     /\ g' <> Examples.played_engine)
  /\ (exists g',
        GameEngine.load_level 7 Examples.empty_floor_range_level Examples.played_engine
        = Py.Raised Py.ValueError g'
        /\ GameEngine.frame_count Examples.played_engine = 2
        /\ GameEngine.frame_count g' = 0
        /\ GameEngine.pipes g' = []
        /\ g' <> Examples.played_engine).
Proof.
  split.
  - eexists. split; [vm_compute; reflexivity |]. split; [reflexivity |].
    intros Heq. apply (f_equal GameEngine.frame_count) in Heq.
    vm_compute in Heq. discriminate.
  - eexists. split; [vm_compute; reflexivity |].
    split; [vm_compute; reflexivity |]. split; [reflexivity |].
    split; [reflexivity |].
    intros Heq. apply (f_equal GameEngine.frame_count) in Heq.
    vm_compute in Heq. discriminate.
Qed.

(** C9, amended. [load_level] validates nothing about the gaps: whenever the
    floor range is not empty the load returns, with a floor of the range and
    one obstacle per descriptor, whatever the gap heights are.  The only
    rejection is the floor draw raising [ValueError] on an empty range
    ([min > max]), and then the instance is left reset, not as it was. *)
Theorem C9_load_not_validated (entropy : Z) (level : Levels.level_config) (g : GameEngine.t) :
  ((GameEngine.floor_range level g).2 < (GameEngine.floor_range level g).1 ->
   GameEngine.load_level entropy level g = Py.Raised Py.ValueError (GameEngine.reset g))
  /\ ((GameEngine.floor_range level g).1 <= (GameEngine.floor_range level g).2 ->
      exists g',
        GameEngine.load_level entropy level g = Py.Returned g'
        /\ (GameEngine.floor_range level g).1 <= GameEngine.floor_y g'
           <= (GameEngine.floor_range level g).2
        /\ length (GameEngine.pipes g') = length (Levels.pipes level)
        /\ GameEngine.frame_count g' = 0
        /\ GameEngine.score g' = 0
        /\ GameEngine.game_over g' = false).
Proof.
  split.
  - intros Hempty. unfold GameEngine.load_level.
    change (GameEngine.floor_range level (GameEngine.reset g))
      with (GameEngine.floor_range level g).
    destruct (GameEngine.floor_range level g) as [lo hi]. cbn [fst snd] in Hempty.
    now rewrite randint_empty.
  - intros Hrange.
    destruct (randint_total entropy _ _ Hrange) as [f Hf].
    pose proof (randint_range _ _ _ _ Hf) as Hbounds.
    exists (GameEngine.set_pipes
              (map (GameEngine.make_pipe f) (Levels.pipes level))
              (GameEngine.set_floor_y f (GameEngine.reset g))).
    split.
    + unfold GameEngine.load_level.
      change (GameEngine.floor_range level (GameEngine.reset g))
        with (GameEngine.floor_range level g).
      destruct (GameEngine.floor_range level g) as [lo hi]. cbn [fst snd] in Hf.
      rewrite Hf, load_pipes_fold. reflexivity.
    + cbn. rewrite length_map. repeat split; lia.
Qed.

Lemma C9_witness :
  GameEngine.load_level 7 Examples.empty_floor_range_level Examples.played_engine
  = Py.Raised Py.ValueError (GameEngine.reset Examples.played_engine)
  /\ exists g',
       GameEngine.load_level 7 Examples.inverted_gap_level Examples.played_engine
       = Py.Returned g'
       /\ length (GameEngine.pipes g') = 1%nat.
Proof.
  split.
  - apply (C9_load_not_validated 7 Examples.empty_floor_range_level Examples.played_engine).
    vm_compute. reflexivity.
  - destruct (C9_load_not_validated 7 Examples.inverted_gap_level Examples.played_engine)
      as [_ Hok].
    destruct Hok as (g' & Hload & _ & Hlen & _); [vm_compute; discriminate |].
    exists g'. split; [exact Hload | exact Hlen].
Defined.

(** ** The score tracker of the engine *)

Lemma elem_of_cleared_from (px : Q) (ps : list GameEngine.pipe) (i j : nat) :
  j ∈ Spec.cleared_from px i ps
  <-> exists p, (i <= j)%nat /\ nth_error ps (j - i) = Some p /\ Spec.cleared px p.
Proof.
  revert i. induction ps as [| q ps IH]; intros i; cbn [Spec.cleared_from].
  - split; [set_solver |]. intros (p & _ & Hp & _).
    now destruct (j - i)%nat.
  - rewrite elem_of_union, IH. split.
    + intros [Hi | (p & Hle & Hp & Hc)].
      * destruct (Py.ltb _ px) eqn:Hq; [| set_solver].
        apply elem_of_singleton in Hi as ->. exists q.
        rewrite Nat.sub_diag. apply ltb_iff in Hq. auto.
      * exists p. split; [lia |]. split; [| assumption].
        replace (j - i)%nat with (S (j - S i)) by lia. assumption.
    + intros (p & Hle & Hp & Hc).
      destruct (decide (j = i)) as [-> | Hne].
      * left. rewrite Nat.sub_diag in Hp. injection Hp as ->.
        apply ltb_iff in Hc. unfold GameEngine.PIPE_WIDTH. rewrite Hc. set_solver.
      * right. exists p. split; [lia |]. split; [| assumption].
        replace (j - i)%nat with (S (j - S i)) in Hp by lia. assumption.
Qed.

Lemma score_loop_spec (px : Q) (ps : list GameEngine.pipe) (i : nat) (sc : Z)
  (passed : gset nat) :
  GameEngine.score_loop px i ps (sc, passed)
  = (sc + Z.of_nat (size (Spec.cleared_from px i ps ∖ passed)),
     passed ∪ Spec.cleared_from px i ps).
Proof.
  revert i sc passed. induction ps as [| q ps IH]; intros i sc passed;
    cbn [GameEngine.score_loop Spec.cleared_from fst snd].
  - f_equal.
    + replace ((∅ : gset nat) ∖ passed) with (∅ : gset nat) by set_solver.
      rewrite size_empty. lia.
    + set_solver.
  - assert (Hfresh : i ∉ Spec.cleared_from px (S i) ps).
    { rewrite elem_of_cleared_from. intros (p & Hle & _). lia. }
    destruct (Py.ltb _ px) eqn:Hq; cbn [andb].
    + destruct (bool_decide_reflect (i ∈ passed)) as [Hin | Hnin]; cbn [negb].
      * rewrite IH. f_equal; [| set_solver].
        do 2 f_equal. f_equal. set_solver.
      * rewrite IH. f_equal; [| set_solver].
        replace (({[i]} ∪ Spec.cleared_from px (S i) ps) ∖ passed)
          with ({[i]} ∪ (Spec.cleared_from px (S i) ps ∖ (passed ∪ {[i]})))
          by set_solver.
        pose proof (size_union (C:=gset nat) {[i]}
                      (Spec.cleared_from px (S i) ps ∖ (passed ∪ {[i]}))) as Hsz.
        rewrite Hsz by set_solver. rewrite size_singleton. lia.
    + rewrite IH. f_equal; [| set_solver].
      do 2 f_equal. f_equal. set_solver.
Qed.

Lemma elem_of_cleared_set (g : GameEngine.t) (i : nat) :
  i ∈ Spec.cleared_from (GameEngine.pilot_x g) 0 (GameEngine.pipes g)
  <-> Spec.cleared_at g i.
Proof.
  rewrite elem_of_cleared_from. unfold Spec.cleared_at. rewrite Nat.sub_0_r.
  split.
  - intros (p & _ & Hp & Hc). eauto.
  - intros (p & Hp & Hc). exists p. split; [lia | auto].
Qed.

Lemma size_cleared_from (px : Q) (ps : list GameEngine.pipe) (i : nat) :
  size (Spec.cleared_from px i ps)
  = length (List.filter
              (fun p => Py.ltb (GameEngine.xPosition p + GameEngine.PIPE_WIDTH) px) ps).
Proof.
  revert i. induction ps as [| q ps IH]; intros i;
    cbn [Spec.cleared_from List.filter]; [apply size_empty |].
  assert (Hfresh : i ∉ Spec.cleared_from px (S i) ps).
  { rewrite elem_of_cleared_from. intros (p & Hle & _). lia. }
  destruct (Py.ltb _ px).
  - pose proof (size_union (C:=gset nat) {[i]} (Spec.cleared_from px (S i) ps)) as Hsz.
    rewrite Hsz by set_solver. rewrite size_singleton, IH. reflexivity.
  - replace (∅ ∪ Spec.cleared_from px (S i) ps) with (Spec.cleared_from px (S i) ps)
      by set_solver.
    apply IH.
Qed.

(** What [update_score] does to the score and to the set of credited
    indices. *)
Lemma engine_update_score_spec (g : GameEngine.t) :
  let cleared := Spec.cleared_from (GameEngine.pilot_x g) 0 (GameEngine.pipes g) in
  GameEngine.score (GameEngine.update_score g)
  = GameEngine.score g + Z.of_nat (size (cleared ∖ GameEngine.passed_pipes g))
  /\ GameEngine.passed_pipes (GameEngine.update_score g)
     = GameEngine.passed_pipes g ∪ cleared.
Proof.
  unfold GameEngine.update_score. rewrite score_loop_spec. split; reflexivity.
Qed.

(** One effective tick of the engine, seen from the score tracker. *)
Lemma engine_tick_credit (g : GameEngine.t) (d : bool) :
  GameEngine.game_over g = false ->
  let g' := GameEngine.update g d in
  let cleared := Spec.cleared_from (GameEngine.pilot_x g') 0 (GameEngine.pipes g') in
  GameEngine.score g'
  = GameEngine.score g + Z.of_nat (size (cleared ∖ GameEngine.passed_pipes g))
  /\ GameEngine.passed_pipes g' = GameEngine.passed_pipes g ∪ cleared
  /\ GameEngine.pipes g'
     = map (GameEngine.move_pipe (GameEngine.pipe_speed g)) (GameEngine.pipes g)
  /\ GameEngine.pilot_x g' = GameEngine.pilot_x g
  /\ GameEngine.pipe_speed g' = GameEngine.pipe_speed g.
Proof.
  intros Hrun. destruct (engine_update_running g d Hrun) as [b ->].
  destruct (engine_advance_frame_fields g d) as (_ & _ & Hx & Hv & Hps & Hsc & Hpp).
  revert Hx Hv Hps Hsc Hpp.
  generalize (GameEngine.advance_frame g d) as g1. intros g1 Hx Hv Hps Hsc Hpp.
  destruct (engine_update_score_spec g1) as (Hs1 & Hp1).
  rewrite Hsc, Hpp in Hs1. rewrite Hpp in Hp1. rewrite <- Hps, <- Hx, <- Hv.
  destruct b; cbn; repeat split; assumption.
Qed.

Lemma moved_pipe_cleared (v px : Q) (p : GameEngine.pipe) :
  (0 <= v)%Q -> Spec.cleared px p -> Spec.cleared px (GameEngine.move_pipe v p).
Proof. unfold Spec.cleared. cbn. intros Hv Hc. lra. Qed.

Lemma engine_update_invariants (g : GameEngine.t) (d : bool) :
  GameEngine.score g = Z.of_nat (size (GameEngine.passed_pipes g)) ->
  let g' := GameEngine.update g d in
  GameEngine.score g' = Z.of_nat (size (GameEngine.passed_pipes g'))
  /\ GameEngine.passed_pipes g ⊆ GameEngine.passed_pipes g'
  /\ length (GameEngine.pipes g') = length (GameEngine.pipes g)
  /\ GameEngine.pipe_speed g' = GameEngine.pipe_speed g
  /\ (GameEngine.game_over g = false -> Spec.all_cleared_credited g')
  /\ (Spec.all_cleared_credited g -> Spec.all_cleared_credited g')
  /\ (Spec.only_cleared_credited g -> (0 <= GameEngine.pipe_speed g)%Q ->
      Spec.only_cleared_credited g').
Proof.
  intros Hscore.
  destruct (GameEngine.game_over g) eqn:Hover.
  { unfold GameEngine.update. rewrite Hover. cbn zeta.
    split; [assumption |]. split; [reflexivity |]. split; [reflexivity |].
    split; [reflexivity |]. split; [discriminate |]. split; auto. }
  destruct (engine_tick_credit g d Hover) as (Hs & Hp & Hps & Hx & Hv).
  cbn zeta in *.
  assert (Hall : Spec.all_cleared_credited (GameEngine.update g d)).
  { intros i Hi. apply elem_of_cleared_set in Hi. rewrite Hp. set_solver. }
  split; [| split; [| split; [| split; [| split; [| split]]]]].
  - rewrite Hs, Hp, Hscore.
    pose proof (size_union_alt (C:=gset nat) (GameEngine.passed_pipes g)
                  (Spec.cleared_from (GameEngine.pilot_x (GameEngine.update g d)) 0
                     (GameEngine.pipes (GameEngine.update g d)))) as Hsz.
    rewrite Hsz. lia.
  - rewrite Hp. set_solver.
  - rewrite Hps. apply length_map.
  - exact Hv.
  - intros _. exact Hall.
  - intros _. exact Hall.
  - intros Honly Hspeed i Hi. rewrite Hp in Hi.
    apply elem_of_union in Hi as [Hi | Hi]; [| now apply elem_of_cleared_set].
    destruct (Honly i Hi) as (p & Hnth & Hc).
    exists (GameEngine.move_pipe (GameEngine.pipe_speed g) p). split.
    + rewrite Hps. now apply map_nth_error.
    + rewrite Hx. now apply moved_pipe_cleared.
Qed.

Lemma engine_run_invariants (ds : list bool) (g : GameEngine.t) :
  GameEngine.score g = Z.of_nat (size (GameEngine.passed_pipes g)) ->
  let g' := GameEngine.run g ds in
  GameEngine.score g' = Z.of_nat (size (GameEngine.passed_pipes g'))
  /\ GameEngine.passed_pipes g ⊆ GameEngine.passed_pipes g'
  /\ length (GameEngine.pipes g') = length (GameEngine.pipes g)
  /\ GameEngine.pipe_speed g' = GameEngine.pipe_speed g
  /\ (Spec.all_cleared_credited g -> Spec.all_cleared_credited g')
  /\ (Spec.only_cleared_credited g -> (0 <= GameEngine.pipe_speed g)%Q ->
      Spec.only_cleared_credited g').
Proof.
  revert g. induction ds as [| d ds IH]; intros g Hscore.
  - cbn. repeat split; auto.
  - change (GameEngine.run g (d :: ds)) with (GameEngine.run (GameEngine.update g d) ds).
    destruct (engine_update_invariants g d Hscore) as (Hs & Hsub & Hlen & Hv & _ & Hall & Honly).
    destruct (IH _ Hs) as (Hs' & Hsub' & Hlen' & Hv' & Hall' & Honly').
    cbn zeta in *.
    split; [exact Hs' |]. split; [set_solver |]. split; [congruence |].
    split; [congruence |]. split; [auto |].
    intros Ho Hspeed. apply Honly'; [auto |]. now rewrite Hv.
Qed.

(** X23. The engine credits every cleared obstacle exactly one point.  The
    crediting state holds list indices, and the engine never reorders,
    shortens or extends the list during a run, so an index stands for one
    obstacle: from any state whose score counts the credited indices (as
    after a reset or a load), after any sequence of ticks the score still
    counts the credited indices, none is ever dropped, the list has kept its
    length, after at least one tick of a running instance every cleared
    obstacle is credited, and, for a non-negative pipe speed, only cleared
    obstacles are, so that the score is the number of cleared obstacles. *)
Theorem X23_engine_credits_cleared_once (g : GameEngine.t) (ds : list bool) :
  GameEngine.score g = Z.of_nat (size (GameEngine.passed_pipes g)) ->
  let g' := GameEngine.run g ds in
  GameEngine.score g' = Z.of_nat (size (GameEngine.passed_pipes g'))
  /\ GameEngine.passed_pipes g ⊆ GameEngine.passed_pipes g'
  /\ length (GameEngine.pipes g') = length (GameEngine.pipes g)
  /\ (GameEngine.game_over g = false -> ds <> [] -> Spec.all_cleared_credited g')
  /\ (Spec.only_cleared_credited g -> (0 <= GameEngine.pipe_speed g)%Q ->
      Spec.only_cleared_credited g')
  /\ (GameEngine.game_over g = false -> ds <> [] ->
      Spec.only_cleared_credited g -> (0 <= GameEngine.pipe_speed g)%Q ->
      GameEngine.score g' = Z.of_nat (Spec.cleared_count g')).
Proof.
  intros Hscore.
  destruct (engine_run_invariants ds g Hscore) as (Hs & Hsub & Hlen & _ & _ & Honly).
  cbn zeta in *.
  assert (Hall : GameEngine.game_over g = false -> ds <> [] ->
                 Spec.all_cleared_credited (GameEngine.run g ds)).
  { intros Hrun Hne. destruct ds as [| d ds]; [congruence |].
    change (GameEngine.run g (d :: ds)) with (GameEngine.run (GameEngine.update g d) ds).
    destruct (engine_update_invariants g d Hscore) as (Hs1 & _ & _ & _ & Hall & _).
    destruct (engine_run_invariants ds _ Hs1) as (_ & _ & _ & _ & Hall' & _).
    apply Hall'. now apply Hall. }
  repeat split; try assumption.
  intros Hrun Hne Ho Hspeed. rewrite Hs. f_equal.
  unfold Spec.cleared_count. rewrite <- (size_cleared_from _ _ 0). f_equal.
  apply set_eq. intros i. rewrite elem_of_cleared_set. split.
  - now apply Honly.
  - now apply Hall.
Qed.

Lemma X23_witness :
  let g' := GameEngine.run Examples.two_close_engine [false; false; false] in
  GameEngine.score g' = Z.of_nat (size (GameEngine.passed_pipes g'))
  /\ Spec.all_cleared_credited g'
  /\ GameEngine.score g' = Z.of_nat (Spec.cleared_count g').
Proof.
  destruct (X23_engine_credits_cleared_once Examples.two_close_engine [false; false; false])
    as (Hs & _ & _ & Hall & _ & Hcount); [reflexivity |].
  split; [exact Hs |]. split.
  - apply Hall; [reflexivity | discriminate].
  - apply Hcount; [reflexivity | discriminate | | vm_compute; discriminate].
    intros i Hi. exfalso. revert Hi.
    change (GameEngine.passed_pipes Examples.two_close_engine) with (∅ : gset nat).
    apply not_elem_of_empty.
Defined.

(** C5 (defect in the simulation's score step).  [FlappyBirdGame.update]
    credits an obstacle only on a frame where its trailing edge is exactly
    at the agent's x, although its comment reads "passed a pipe" and the
    engine's [update_score] credits every obstacle whose trailing edge is
    behind the agent.  In a default game (800 by 600, speed 3, gravity 1/2)
    the second obstacle starts at x = 1050: on frame 333 its trailing edge
    is at 101, on frame 334 at 98, and the score, 1 since the first
    obstacle was credited on frame 250, does not move.  The third obstacle
    (1300) is skipped likewise and the fourth (1550) is credited on frame
    500: four obstacles are behind or at the agent and the score is 2. *)
Theorem C5_sim_misses_cleared_obstacle :
  match Examples.level_sim with
  | None => False
  | Some s =>
      let s333 := Py.state_of (Sim.run s (Examples.hover_inputs 333)) in
      let s334 := Py.state_of (Sim.update s333 false 150) in
      let s500 := Py.state_of (Sim.run s (Examples.hover_inputs 500)) in
      Sim.x_pos (Sim.pilot s333) = 100%Q
      /\ map Sim.x_position (Sim.pipes s333) = [51; 301; 551; 801]%Q
      /\ Sim.frame_count s333 = 333
      /\ Sim.score s333 = 1
      /\ map Sim.x_position (Sim.pipes s334) = [48; 298; 548; 798]%Q
      /\ Sim.score s334 = 1
      /\ Sim.game_over s334 = false
      /\ map Sim.x_position (Sim.pipes s500) = [50; 300; 550; 800]%Q
      /\ Sim.frame_count s500 = 500
      /\ Sim.score s500 = 2
      /\ Sim.game_over s500 = false
  end.
Proof. vm_compute. repeat split. Qed.

(** ** Score growth per tick (engine) *)

Lemma size_at_most_one (X : gset nat) :
  (forall i j, i ∈ X -> j ∈ X -> i = j) -> (size X <= 1)%nat.
Proof.
  intros Huniq. destruct (set_choose_or_empty X) as [[x Hx] | Hempty].
  - assert (Hsub : X ⊆ {[x]}).
    { intros y Hy. apply elem_of_singleton. now apply Huniq. }
    apply subseteq_size in Hsub. now rewrite size_singleton in Hsub.
  - apply size_empty_iff in Hempty. lia.
Qed.

Lemma engine_update_monotone (g : GameEngine.t) (d : bool) :
  GameEngine.score g <= GameEngine.score (GameEngine.update g d).
Proof.
  destruct (GameEngine.game_over g) eqn:Hover.
  - unfold GameEngine.update. rewrite Hover. lia.
  - destruct (engine_tick_credit g d Hover) as (Hs & _). cbn zeta in Hs. lia.
Qed.

Lemma engine_run_monotone (ds : list bool) (g : GameEngine.t) :
  GameEngine.score g <= GameEngine.score (GameEngine.run g ds).
Proof.
  revert g. induction ds as [| d ds IH]; intros g; [cbn; lia |].
  change (GameEngine.run g (d :: ds)) with (GameEngine.run (GameEngine.update g d) ds).
  pose proof (engine_update_monotone g d). pose proof (IH (GameEngine.update g d)). lia.
Qed.

Lemma engine_update_well_spaced (g : GameEngine.t) (d : bool) :
  Spec.well_spaced g -> Spec.well_spaced (GameEngine.update g d).
Proof.
  intros Hsp. destruct (GameEngine.game_over g) eqn:Hover.
  { unfold GameEngine.update. now rewrite Hover. }
  destruct (engine_tick_credit g d Hover) as (_ & _ & Hps & _ & Hv). cbn zeta in *.
  intros i j p q Hne Hp Hq. rewrite Hps in Hp, Hq. rewrite Hv.
  rewrite nth_error_map in Hp, Hq.
  destruct (nth_error (GameEngine.pipes g) i) as [p0 |] eqn:Hp0; [| discriminate].
  destruct (nth_error (GameEngine.pipes g) j) as [q0 |] eqn:Hq0; [| discriminate].
  injection Hp as <-. injection Hq as <-. cbn.
  destruct (Hsp i j p0 q0 Hne Hp0 Hq0); [left | right]; lra.
Qed.

Lemma engine_tick_at_most_one (g : GameEngine.t) (d : bool) :
  Spec.well_spaced g -> Spec.all_cleared_credited g ->
  GameEngine.score (GameEngine.update g d) <= GameEngine.score g + 1.
Proof.
  intros Hsp Hall. destruct (GameEngine.game_over g) eqn:Hover.
  { unfold GameEngine.update. rewrite Hover. lia. }
  destruct (engine_tick_credit g d Hover) as (Hs & _ & Hps & Hx & _). cbn zeta in *.
  rewrite Hs.
  assert (Hnew : forall i,
             i ∈ Spec.cleared_from (GameEngine.pilot_x (GameEngine.update g d)) 0
                   (GameEngine.pipes (GameEngine.update g d))
                 ∖ GameEngine.passed_pipes g ->
             exists p, nth_error (GameEngine.pipes g) i = Some p
                       /\ (GameEngine.xPosition p - GameEngine.pipe_speed g + 50
                           < GameEngine.pilot_x g)%Q
                       /\ (GameEngine.pilot_x g <= GameEngine.xPosition p + 50)%Q).
  { intros i Hi. apply elem_of_difference in Hi as [Hi Hnot].
    apply elem_of_cleared_set in Hi as (p' & Hp' & Hc).
    rewrite Hps, nth_error_map in Hp'. rewrite Hx in Hc.
    destruct (nth_error (GameEngine.pipes g) i) as [p |] eqn:Hp; [| discriminate].
    injection Hp' as <-. exists p. split; [reflexivity |]. split; [exact Hc |].
    apply Qnot_lt_le. intros Hlt. apply Hnot, Hall. exists p. now split. }
  enough (size (Spec.cleared_from (GameEngine.pilot_x (GameEngine.update g d)) 0
                  (GameEngine.pipes (GameEngine.update g d))
                ∖ GameEngine.passed_pipes g) <= 1)%nat by lia.
  apply size_at_most_one. intros i j Hi Hj.
  destruct (decide (i = j)) as [| Hne]; [assumption | exfalso].
  destruct (Hnew i Hi) as (p & Hp & Hp1 & Hp2).
  destruct (Hnew j Hj) as (q & Hq & Hq1 & Hq2).
  destruct (Hsp i j p q Hne Hp Hq); lra.
Qed.

(** C6, as stated, fails: the engine credits every newly cleared obstacle
    of the tick.  With two obstacles one pixel apart, neither cleared before
    the tick, one tick of a running instance takes the score from 0 to 2. *)
Lemma C6_counterexample :
  GameEngine.score Examples.overlapping_engine = 0
  /\ GameEngine.game_over Examples.overlapping_engine = false
  /\ GameEngine.pipes Examples.overlapping_engine
     = [{| GameEngine.xPosition := 51; GameEngine.topPipe := 225;
           GameEngine.bottomPipe := 375 |};
        {| GameEngine.xPosition := 52; GameEngine.topPipe := 225;
           GameEngine.bottomPipe := 375 |}]
  /\ GameEngine.score (GameEngine.update Examples.overlapping_engine false) = 2
  /\ GameEngine.game_over (GameEngine.update Examples.overlapping_engine false) = false.
Proof. vm_compute. repeat split. Qed.

(** ** The track of the pygame simulation *)

(** One effective tick of the simulation, with the intermediate states kept
    abstract. *)
Lemma sim_update_running (s : Sim.t) (d : bool) (e : Z) :
  Sim.game_over s = false ->
  Sim.update s d e
  = match Sim.spawn e (Sim.advance_frame s d) with
    | Py.Raised x s1 => Py.Raised x s1
    | Py.Returned s1 =>
        Py.Returned
          (if Sim.check_collision (Sim.update_score s1)
           then Sim.set_game_over true (Sim.update_score s1)
           else Sim.update_score s1)
    end.
Proof. intros Hrun. unfold Sim.update. now rewrite Hrun. Qed.

Lemma sim_finish_fields (s : Sim.t) :
  let s' := if Sim.check_collision s then Sim.set_game_over true s else s in
  Sim.pipes s' = Sim.pipes s /\ Sim.screen_height s' = Sim.screen_height s
  /\ Sim.pipe_speed s' = Sim.pipe_speed s /\ Sim.score s' = Sim.score s.
Proof. cbn zeta. destruct (Sim.check_collision s); repeat split. Qed.

Lemma retire_keep (p : Sim.Pipe) (ps : list Sim.Pipe) :
  (-100 < Sim.x_position p)%Q -> Sim.retire (p :: ps) = p :: Sim.retire ps.
Proof.
  intros Hx. unfold Sim.retire. cbn [List.filter].
  apply gtb_iff in Hx. unfold Sim.RETIRE_X. now rewrite Hx.
Qed.

Lemma retire_drop (p : Sim.Pipe) (ps : list Sim.Pipe) :
  (Sim.x_position p <= -100)%Q -> Sim.retire (p :: ps) = Sim.retire ps.
Proof.
  intros Hx. unfold Sim.retire. cbn [List.filter].
  apply ltb_false_iff in Hx. unfold Py.gtb, Sim.RETIRE_X. now rewrite Hx.
Qed.

Lemma retire_nil : Sim.retire [] = [].
Proof. reflexivity. Qed.

(** A full track stays full over one tick, and the tick returns, when the
    pipes travel at most one spacing per tick and the spawn range is not
    empty. *)
Lemma sim_full_track_step (s : Sim.t) (d : bool) (e : Z) :
  Spec.full_track (Sim.pipes s) ->
  300 <= Sim.screen_height s ->
  (Sim.pipe_speed s <= 250)%Q ->
  exists s',
    Sim.update s d e = Py.Returned s'
    /\ Spec.full_track (Sim.pipes s')
    /\ Sim.screen_height s' = Sim.screen_height s
    /\ Sim.pipe_speed s' = Sim.pipe_speed s.
Proof.
  intros Hfull Hheight Hspeed.
  destruct (Sim.game_over s) eqn:Hover.
  { exists s. rewrite sim_update_terminal by assumption. auto. }
  rewrite sim_update_running by assumption.
  destruct (sim_advance_frame_fields s d) as (_ & _ & Hh & _ & Hps & Hv & _).
  cbn zeta in *. revert Hh Hps Hv.
  generalize (Sim.advance_frame s d) as s1. intros s1 Hh Hps Hv.
  destruct Hfull as (p0 & p1 & p2 & p3 & Hpipes & H01 & H12 & H23 & Hhead).
  rewrite Hpipes in Hps. cbn [map] in Hps.
  set (v := Sim.pipe_speed s) in *.
  assert (Hx : forall p, Sim.x_position (Sim.pipe_update v p) = (Sim.x_position p - v)%Q)
    by reflexivity.
  assert (Hspawned :
            exists s2, Sim.spawn e s1 = Py.Returned s2
                       /\ Spec.full_track (Sim.pipes s2)
                       /\ Sim.screen_height s2 = Sim.screen_height s
                       /\ Sim.pipe_speed s2 = v).
  { destruct (Qlt_le_dec (-100) (Sim.x_position p0 - v)) as [Hstay | Hgone].
    - rewrite !retire_keep, retire_nil in Hps by (rewrite Hx; lra).
      exists s1. split.
      + unfold Sim.spawn. now rewrite Hps.
      + split; [| auto]. rewrite Hps.
        exists (Sim.pipe_update v p0), (Sim.pipe_update v p1),
          (Sim.pipe_update v p2), (Sim.pipe_update v p3).
        rewrite !Hx. repeat split; lra.
    - rewrite retire_drop in Hps by (rewrite Hx; lra).
      rewrite !retire_keep, retire_nil in Hps by (rewrite Hx; lra).
      destruct (randint_total e 150 (Sim.screen_height s1 - 150)) as [c Hc]; [lia |].
      eexists. split.
      + unfold Sim.spawn. rewrite Hps. cbn [length Nat.ltb Nat.leb Sim.PIPE_COUNT].
        rewrite Hc. cbn [last]. reflexivity.
      + split; [| auto]. cbn [Sim.pipes Sim.set_pipes app].
        eexists _, _, _, _. split; [reflexivity |].
        cbn [Sim.x_position Sim.new_pipe]. rewrite !Hx. unfold Sim.PIPE_SPACING.
        repeat split; lra. }
  destruct Hspawned as (s2 & -> & Hfull2 & Hh2 & Hv2).
  destruct (sim_update_score_fields s2) as (_ & Hps3 & _ & _ & Hh3 & Hv3 & _).
  cbn zeta in *. revert Hps3 Hh3 Hv3.
  generalize (Sim.update_score s2) as s3. intros s3 Hps3 Hh3 Hv3.
  destruct (sim_finish_fields s3) as (Hps4 & Hh4 & Hv4 & _). cbn zeta in *.
  eexists. split; [reflexivity |].
  rewrite Hps4, Hh4, Hv4, Hps3, Hh3, Hv3. auto.
Qed.

Lemma sim_full_track_run (inputs : list (bool * Z)) (s : Sim.t) :
  Spec.full_track (Sim.pipes s) ->
  300 <= Sim.screen_height s ->
  (Sim.pipe_speed s <= 250)%Q ->
  exists s', Sim.run s inputs = Py.Returned s' /\ Spec.full_track (Sim.pipes s').
Proof.
  revert s. induction inputs as [| [d e] tl IH]; intros s Hfull Hheight Hspeed.
  - exists s. auto.
  - cbn [Sim.run].
    destruct (sim_full_track_step s d e Hfull Hheight Hspeed)
      as (s1 & -> & Hfull1 & Hh1 & Hv1).
    apply IH; [assumption | lia | now rewrite Hv1].
Qed.

(** The constructor builds a full track, and only when the spawn range is
    not empty. *)
Lemma sim_init_full_track (entropy : nat -> Z) (sw sh : Z) (speed gravity : Q) (s : Sim.t) :
  Sim.init entropy sw sh speed gravity = Some s ->
  -100 < sw ->
  Spec.full_track (Sim.pipes s) /\ 300 <= Sim.screen_height s
  /\ Sim.pipe_speed s = speed /\ Sim.game_over s = false /\ Sim.score s = 0.
Proof.
  unfold Sim.init, Sim.PIPE_COUNT. cbn [Sim.generate_initial_pipes].
  destruct (Py.randint (entropy 0%nat) 150 (sh - 150)) as [c0 |] eqn:H0; [| discriminate].
  destruct (Py.randint (entropy 1%nat) 150 (sh - 150)) as [c1 |]; [| discriminate].
  destruct (Py.randint (entropy 2%nat) 150 (sh - 150)) as [c2 |]; [| discriminate].
  destruct (Py.randint (entropy 3%nat) 150 (sh - 150)) as [c3 |]; [| discriminate].
  intros [= <-] Hsw. cbn. apply randint_range in H0.
  split; [| repeat split; lia].
  eexists _, _, _, _. split; [reflexivity |]. cbn [Sim.x_position Sim.new_pipe].
  rewrite !inject_Z_plus, !inject_Z_mult.
  assert (Hq : (inject_Z (-100) < inject_Z sw)%Q) by now rewrite <- Zlt_Qlt.
  change (inject_Z (-100)) with (-100)%Q in Hq.
  change (inject_Z (Z.of_nat 0)) with 0%Q. change (inject_Z (Z.of_nat 1)) with 1%Q.
  change (inject_Z (Z.of_nat 2)) with 2%Q. change (inject_Z (Z.of_nat 3)) with 3%Q.
  change (inject_Z 250) with 250%Q.
  revert Hq. generalize (inject_Z sw) as x0. intros x0 Hq.
  repeat split; lra.
Qed.

(** ** Track length *)

Lemma engine_update_length (g : GameEngine.t) (d : bool) :
  length (GameEngine.pipes (GameEngine.update g d)) = length (GameEngine.pipes g).
Proof.
  destruct (GameEngine.game_over g) eqn:Hover.
  - unfold GameEngine.update. now rewrite Hover.
  - destruct (engine_tick_credit g d Hover) as (_ & _ & Hps & _). cbn zeta in Hps.
    rewrite Hps. apply length_map.
Qed.

Lemma engine_run_length (ds : list bool) (g : GameEngine.t) :
  length (GameEngine.pipes (GameEngine.run g ds)) = length (GameEngine.pipes g).
Proof.
  revert g. induction ds as [| d ds IH]; intros g; [reflexivity |].
  change (GameEngine.run g (d :: ds)) with (GameEngine.run (GameEngine.update g d) ds).
  rewrite IH. apply engine_update_length.
Qed.

(** C8, as stated, fails: the engine, the clock that loads levels, neither
    retires nor spawns, so its track keeps the length of the loaded level (1
    for the simple level, 5 for the medium one) while the lookahead count of
    the repository is 4; and the pygame simulation, which does retire and
    spawn, adds at most one obstacle per tick, so with pipes travelling 1000
    per tick its track is down to one obstacle after two ticks. *)
Lemma C8_counterexample :
  Sim.PIPE_COUNT = 4%nat
  /\ length (Levels.pipes Levels.simple) = 1%nat
  /\ length (GameEngine.pipes
               (GameEngine.run Examples.running_engine [false; false; false])) = 1%nat
  /\ length (GameEngine.pipes
               (GameEngine.run Examples.medium_engine [false; false; false])) = 5%nat
  /\ (exists s s',
        Examples.fast_sim = Some s
        /\ length (Sim.pipes s) = 4%nat
        /\ Sim.run s [(false, 150); (false, 150)] = Py.Returned s'
        /\ Sim.game_over s' = false
        /\ length (Sim.pipes s') = 1%nat).
Proof.
  split; [reflexivity |]. split; [reflexivity |].
  split; [vm_compute; reflexivity |]. split; [vm_compute; reflexivity |].
  eexists. eexists. split; [vm_compute; reflexivity |].
  split; [reflexivity |]. split; [vm_compute; reflexivity |].
  split; reflexivity.
Qed.

(** C8, amended. The engine's track keeps, after arbitrarily many ticks, the
    number of obstacles of the loaded level (it neither retires nor spawns).
    The pygame simulation, built with four obstacles 250 apart starting at
    the screen width, has exactly four obstacles after arbitrarily many
    ticks, each of which returns, provided the screen width is above -100
    and the pipes travel at most one spacing (250) per tick: at most one
    obstacle is then retired per tick (once its x is at most -100), and one
    is spawned at [lastX + 250]. *)
Theorem C8_track_length :
  (forall entropy level g g' ds,
      GameEngine.load_level entropy level g = Py.Returned g' ->
      length (GameEngine.pipes (GameEngine.run g' ds)) = length (Levels.pipes level))
  /\ (forall entropy sw sh speed gravity s inputs,
        Sim.init entropy sw sh speed gravity = Some s ->
        -100 < sw ->
        (speed <= 250)%Q ->
        exists s',
          Sim.run s inputs = Py.Returned s'
          /\ length (Sim.pipes s') = Sim.PIPE_COUNT).
Proof.
  split.
  - intros entropy level g g' ds Hload. rewrite engine_run_length.
    apply load_level_returned in Hload as [_ ->]. cbn. apply length_map.
  - intros entropy sw sh speed gravity s inputs Hinit Hsw Hspeed.
    destruct (sim_init_full_track _ _ _ _ _ _ Hinit Hsw) as (Hfull & Hh & Hv & _).
    destruct (sim_full_track_run inputs s Hfull Hh) as (s' & Hrun & Hfull');
      [now rewrite Hv |].
    exists s'. split; [exact Hrun |].
    destruct Hfull' as (p0 & p1 & p2 & p3 & -> & _). reflexivity.
Qed.

Lemma C8_witness :
  length (GameEngine.pipes
            (GameEngine.run Examples.medium_engine [false; true; false])) = 5%nat
  /\ exists s',
       Sim.run Examples.running_sim [(false, 1); (true, 2); (false, 3)] = Py.Returned s'
       /\ length (Sim.pipes s') = 4%nat.
Proof.
  destruct C8_track_length as [Hengine Hsim]. split.
  - apply (Hengine 60 Levels.medium GameEngine.default Examples.medium_engine).
    vm_compute. reflexivity.
  - apply (Hsim (fun i => match i with
                          | O => 150 | S O => 50 | S (S O) => 250 | _ => 150
                          end) 800 600 3%Q (1 # 2)%Q Examples.running_sim).
    + vm_compute. reflexivity.
    + lia.
    + vm_compute. discriminate.
Defined.

(** ** Score growth per tick (pygame simulation) *)

Lemma ordered_map_update (v : Q) (ps : list Sim.Pipe) :
  Spec.ordered ps -> Spec.ordered (map (Sim.pipe_update v) ps).
Proof.
  unfold Spec.ordered. induction 1 as [| p ps Hsorted IH Hall]; cbn [map].
  - constructor.
  - constructor; [exact IH |].
    rewrite List.Forall_forall in *. intros q' Hq'.
    apply in_map_iff in Hq' as (q & <- & Hq). specialize (Hall q Hq). cbn. lra.
Qed.

Lemma ordered_retire (ps : list Sim.Pipe) :
  Spec.ordered ps -> Spec.ordered (Sim.retire ps).
Proof.
  unfold Spec.ordered, Sim.retire. induction 1 as [| p ps Hsorted IH Hall];
    cbn [List.filter]; [constructor |].
  destruct (Py.gtb _ _); [| exact IH].
  constructor; [exact IH |].
  rewrite List.Forall_forall in *. intros q Hq. apply filter_In in Hq as [Hq _]. auto.
Qed.

Lemma ordered_snoc (ps : list Sim.Pipe) (q : Sim.Pipe) :
  Spec.ordered ps ->
  (forall p, In p ps -> (Sim.x_position p < Sim.x_position q)%Q) ->
  Spec.ordered (ps ++ [q]).
Proof.
  unfold Spec.ordered. induction 1 as [| p ps Hsorted IH Hall]; intros Hlt; cbn [app].
  - repeat constructor.
  - constructor.
    + apply IH. intros r Hr. apply Hlt. now right.
    + rewrite List.Forall_forall in *. intros r Hr.
      apply in_app_or in Hr as [Hr | [<- | []]]; [auto |]. apply Hlt. now left.
Qed.

Lemma ordered_last_max (ps : list Sim.Pipe) (l : Sim.Pipe) :
  Spec.ordered ps -> last ps = Some l ->
  forall p, In p ps -> (Sim.x_position p <= Sim.x_position l)%Q.
Proof.
  unfold Spec.ordered. induction 1 as [| p ps Hsorted IH Hall]; intros Hlast q Hq.
  - destruct Hq.
  - destruct ps as [| p' ps'].
    + cbn in Hlast. injection Hlast as <-. destruct Hq as [<- | []]. lra.
    + change (last (p :: p' :: ps')) with (last (p' :: ps')) in Hlast.
      destruct Hq as [<- | Hq]; [| now apply IH].
      assert (Hl : In l (p' :: ps')).
      { apply list_elem_of_In. eapply last_Some_elem_of. exact Hlast. }
      rewrite List.Forall_forall in Hall. specialize (Hall l Hl). lra.
Qed.

Lemma aligned_at_most_one (px : Q) (ps : list Sim.Pipe) :
  Spec.ordered ps -> (length (Spec.aligned px ps) <= 1)%nat.
Proof.
  unfold Spec.ordered, Spec.aligned. induction 1 as [| p ps Hsorted IH Hall];
    cbn [List.filter length]; [lia |].
  destruct (Py.eqb _ px) eqn:Hp; [| exact IH].
  apply eqb_iff in Hp.
  assert (Hnone : List.filter (fun q => Py.eqb (Sim.x_position q + Sim.PIPE_WIDTH) px) ps = []).
  { rewrite List.Forall_forall in Hall.
    destruct (List.filter _ ps) as [| q qs] eqn:Hf; [reflexivity | exfalso].
    assert (Hq : In q (List.filter
                         (fun q => Py.eqb (Sim.x_position q + Sim.PIPE_WIDTH) px) ps))
      by (rewrite Hf; now left).
    apply filter_In in Hq as [Hq Heq]. apply eqb_iff in Heq.
    specialize (Hall q Hq). unfold Sim.PIPE_WIDTH in *. lra. }
  rewrite Hnone. cbn. lia.
Qed.

Lemma sim_spawn_ordered (e : Z) (s : Sim.t) :
  Spec.ordered (Sim.pipes s) -> Spec.ordered (Sim.pipes (Py.state_of (Sim.spawn e s))).
Proof.
  intros Hord. unfold Sim.spawn.
  destruct (Nat.ltb _ _); [| exact Hord].
  destruct (Py.randint e 150 _) as [c |]; [| exact Hord].
  cbn. apply ordered_snoc; [exact Hord |].
  intros p Hp. cbn.
  destruct (last (Sim.pipes s)) as [l |] eqn:Hlast.
  - pose proof (ordered_last_max _ _ Hord Hlast p Hp). unfold Sim.PIPE_SPACING. lra.
  - apply last_None in Hlast. rewrite Hlast in Hp. destruct Hp.
Qed.

(** One tick of the simulation on a track ordered by x: the track stays
    ordered and the score grows by 0 or 1. *)
Lemma sim_tick_score (s : Sim.t) (d : bool) (e : Z) :
  Spec.ordered (Sim.pipes s) ->
  let s' := Py.state_of (Sim.update s d e) in
  Spec.ordered (Sim.pipes s')
  /\ Sim.score s <= Sim.score s' <= Sim.score s + 1.
Proof.
  intros Hord. destruct (Sim.game_over s) eqn:Hover.
  { rewrite sim_update_terminal by assumption. cbn. split; [assumption | lia]. }
  rewrite sim_update_running by assumption.
  destruct (sim_advance_frame_fields s d) as (_ & _ & _ & _ & Hps & _ & Hsc).
  cbn zeta in *.
  assert (Hord1 : Spec.ordered (Sim.pipes (Sim.advance_frame s d))).
  { rewrite Hps. now apply ordered_retire, ordered_map_update. }
  revert Hsc Hord1. clear Hps.
  generalize (Sim.advance_frame s d) as s1. intros s1 Hsc Hord1.
  pose proof (sim_spawn_ordered e s1 Hord1) as Hord2.
  destruct (sim_spawn_fields e s1) as (_ & _ & _ & _ & Hsc2). cbn zeta in Hsc2.
  destruct (Sim.spawn e s1) as [s2 | x s2]; cbn [Py.state_of] in *.
  - destruct (sim_update_score_fields s2) as (_ & Hps3 & _ & _ & _ & _ & Hsc3).
    cbn zeta in *.
    pose proof (aligned_at_most_one (Sim.x_pos (Sim.pilot s2)) _ Hord2) as Hone.
    revert Hps3 Hsc3. generalize (Sim.update_score s2) as s3. intros s3 Hps3 Hsc3.
    destruct (sim_finish_fields s3) as (Hps4 & _ & _ & Hsc4). cbn zeta in *.
    rewrite Hps4, Hsc4, Hps3. split; [assumption | lia].
  - split; [assumption | lia].
Qed.

Lemma sim_tick_monotone (s : Sim.t) (d : bool) (e : Z) :
  Sim.score s <= Sim.score (Py.state_of (Sim.update s d e)).
Proof.
  destruct (Sim.game_over s) eqn:Hover.
  { rewrite sim_update_terminal by assumption. cbn. lia. }
  rewrite sim_update_running by assumption.
  destruct (sim_advance_frame_fields s d) as (_ & _ & _ & _ & _ & _ & Hsc).
  cbn zeta in *. revert Hsc.
  generalize (Sim.advance_frame s d) as s1. intros s1 Hsc.
  destruct (sim_spawn_fields e s1) as (_ & _ & _ & _ & Hsc2). cbn zeta in Hsc2.
  destruct (Sim.spawn e s1) as [s2 | x s2]; cbn [Py.state_of] in *; [| lia].
  destruct (sim_update_score_fields s2) as (_ & _ & _ & _ & _ & _ & Hsc3).
  cbn zeta in *. revert Hsc3. generalize (Sim.update_score s2) as s3. intros s3 Hsc3.
  destruct (sim_finish_fields s3) as (_ & _ & _ & Hsc4). cbn zeta in *. lia.
Qed.

Lemma sim_run_monotone (inputs : list (bool * Z)) (s : Sim.t) :
  Sim.score s <= Sim.score (Py.state_of (Sim.run s inputs)).
Proof.
  revert s. induction inputs as [| [d e] tl IH]; intros s; cbn [Sim.run].
  - cbn. lia.
  - pose proof (sim_tick_monotone s d e) as Hs1.
    destruct (Sim.update s d e) as [s1 | x s1]; cbn [Py.state_of] in *.
    + specialize (IH s1). lia.
    + lia.
Qed.

Lemma sim_init_ordered (entropy : nat -> Z) (sw sh : Z) (speed gravity : Q) (s : Sim.t) :
  Sim.init entropy sw sh speed gravity = Some s -> Spec.ordered (Sim.pipes s).
Proof.
  unfold Sim.init, Sim.PIPE_COUNT. cbn [Sim.generate_initial_pipes].
  destruct (Py.randint (entropy 0%nat) 150 (sh - 150)) as [c0 |]; [| discriminate].
  destruct (Py.randint (entropy 1%nat) 150 (sh - 150)) as [c1 |]; [| discriminate].
  destruct (Py.randint (entropy 2%nat) 150 (sh - 150)) as [c2 |]; [| discriminate].
  destruct (Py.randint (entropy 3%nat) 150 (sh - 150)) as [c3 |]; [| discriminate].
  intros [= <-]. cbn [Sim.pipes app]. unfold Spec.ordered.
  repeat (constructor; [| repeat (constructor; try (cbn; rewrite <- Zlt_Qlt; lia))]).
  constructor.
Qed.

Lemma engine_update_all_cleared (g : GameEngine.t) (d : bool) :
  Spec.all_cleared_credited g -> Spec.all_cleared_credited (GameEngine.update g d).
Proof.
  intros Hall. destruct (GameEngine.game_over g) eqn:Hover.
  { unfold GameEngine.update. now rewrite Hover. }
  destruct (engine_tick_credit g d Hover) as (_ & Hp & _). cbn zeta in Hp.
  intros i Hi. apply elem_of_cleared_set in Hi. rewrite Hp. set_solver.
Qed.

(** C6, amended. The score never decreases, over any sequence of ticks, in
    either clock.  On one tick the engine credits every obstacle newly
    cleared on that tick, so its score grows by at most 1 when any two
    obstacles are at least one tick of travel (the pipe speed) apart and
    every obstacle already behind the agent is credited; both conditions
    carry over to the next tick.  The simulation's score grows by at most 1
    per tick when its obstacles are at strictly increasing x, which the
    constructor establishes and every tick preserves. *)
Theorem C6_score_growth :
  (forall g ds, GameEngine.score g <= GameEngine.score (GameEngine.run g ds))
  /\ (forall g d,
        Spec.well_spaced g -> Spec.all_cleared_credited g ->
        GameEngine.score g <= GameEngine.score (GameEngine.update g d)
                           <= GameEngine.score g + 1
        /\ Spec.well_spaced (GameEngine.update g d)
        /\ Spec.all_cleared_credited (GameEngine.update g d))
  /\ (forall s inputs, Sim.score s <= Sim.score (Py.state_of (Sim.run s inputs)))
  /\ (forall s d e,
        Spec.ordered (Sim.pipes s) ->
        Sim.score s <= Sim.score (Py.state_of (Sim.update s d e)) <= Sim.score s + 1
        /\ Spec.ordered (Sim.pipes (Py.state_of (Sim.update s d e))))
  /\ (forall entropy sw sh speed gravity s,
        Sim.init entropy sw sh speed gravity = Some s -> Spec.ordered (Sim.pipes s)).
Proof.
  split; [| split; [| split; [| split]]].
  - intros g ds. apply engine_run_monotone.
  - intros g d Hsp Hall. split; [split |].
    + apply engine_update_monotone.
    + now apply engine_tick_at_most_one.
    + split; [now apply engine_update_well_spaced | now apply engine_update_all_cleared].
  - intros s inputs. apply sim_run_monotone.
  - intros s d e Hord. destruct (sim_tick_score s d e Hord) as (Hord' & Hs).
    split; assumption.
  - apply sim_init_ordered.
Qed.

Lemma C6_witness :
  (GameEngine.score Examples.running_engine
   <= GameEngine.score (GameEngine.update Examples.running_engine true)
   <= GameEngine.score Examples.running_engine + 1)
  /\ (Sim.score Examples.running_sim
      <= Sim.score (Py.state_of (Sim.update Examples.running_sim true 9))
      <= Sim.score Examples.running_sim + 1).
Proof.
  destruct C6_score_growth as (_ & Hengine & _ & Hsim & Hinit).
  assert (Hpipes : GameEngine.pipes Examples.running_engine
                   = [{| GameEngine.xPosition := 400; GameEngine.topPipe := 225;
                         GameEngine.bottomPipe := 375 |}])
    by (vm_compute; reflexivity).
  split.
  - apply (Hengine Examples.running_engine true).
    + intros i j p q Hne Hp Hq. rewrite Hpipes in Hp, Hq.
      destruct i as [| [| i]], j as [| [| j]]; cbn in Hp, Hq;
        try discriminate; congruence.
    + intros i (p & Hp & Hc). rewrite Hpipes in Hp.
      destruct i as [| i]; cbn in Hp; [| destruct i; discriminate].
      injection Hp as <-. vm_compute in Hc. discriminate.
  - apply (Hsim Examples.running_sim true 9).
    apply (Hinit (fun i => match i with
                           | O => 150 | S O => 50 | S (S O) => 250 | _ => 150
                           end) 800 600 3%Q (1 # 2)%Q).
    vm_compute. reflexivity.
Defined.

(** * Further properties of the code *)

(** ** The decision policy, rule by rule *)

Lemma free_fall_closed (n : nat) (gravity y v : Q) :
  ((AI.free_fall n gravity (y, v)).1
   == y + inject_Z (Z.of_nat n) * v
      + inject_Z (Z.of_nat n * (Z.of_nat n + 1) / 2) * gravity)%Q
  /\ ((AI.free_fall n gravity (y, v)).2 == v + inject_Z (Z.of_nat n) * gravity)%Q.
Proof.
  revert y v. induction n as [| n IH]; intros y v.
  - cbn [AI.free_fall fst snd].
    change (inject_Z (Z.of_nat 0 * (Z.of_nat 0 + 1) / 2)) with 0%Q.
    change (inject_Z (Z.of_nat 0)) with 0%Q. split; ring.
  - cbn [AI.free_fall fst snd].
    destruct (IH (y + (v + gravity))%Q (v + gravity)%Q) as [Hy Hv].
    rewrite Hy, Hv.
    assert (Hhalf : Z.of_nat (S n) * (Z.of_nat (S n) + 1) / 2
                    = Z.of_nat n * (Z.of_nat n + 1) / 2 + Z.of_nat (S n)).
    { rewrite Nat2Z.inj_succ.
      replace (Z.succ (Z.of_nat n) * (Z.succ (Z.of_nat n) + 1))
        with (Z.of_nat n * (Z.of_nat n + 1) + Z.succ (Z.of_nat n) * 2) by lia.
      now rewrite Z.div_add by lia. }
    rewrite Hhalf, Nat2Z.inj_succ. unfold Z.succ.
    rewrite !inject_Z_plus. change (inject_Z 1) with 1%Q. split; ring.
Qed.

Lemma geb_proper (a a' b b' : Q) :
  (a == a')%Q -> (b == b')%Q -> Py.geb a b = Py.geb a' b'.
Proof.
  intros Ha Hb. destruct (Py.geb a' b') eqn:H.
  - apply geb_iff. apply geb_iff in H. now rewrite Ha, Hb.
  - apply geb_false_iff. apply geb_false_iff in H. now rewrite Ha, Hb.
Qed.

Lemma emergency_rule_iff (gs : GameEngine.game_state) :
  AI.emergency_rule gs = true
  <-> exists pipe,
        GameEngine.currentPipe gs = Some pipe
        /\ (GameEngine.xPos (GameEngine.pilot gs) < GameEngine.xPosition pipe)%Q
        /\ (GameEngine.xPosition pipe - GameEngine.xPos (GameEngine.pilot gs) < 150)%Q
        /\ (GameEngine.bottomPipe pipe <= Props.bottom_after_five gs + 5)%Q.
Proof.
  unfold AI.emergency_rule.
  destruct (GameEngine.currentPipe gs) as [pipe |].
  2: { split; [discriminate | intros (p & Hp & _); discriminate]. }
  assert (Hclosed : ((AI.free_fall 5 (GameEngine.gs_gravity gs)
                        (GameEngine.yPos (GameEngine.pilot gs),
                         GameEngine.velocity (GameEngine.pilot gs))).1
                     + GameEngine.height (GameEngine.pilot gs) + 5
                     == Props.bottom_after_five gs + 5)%Q).
  { destruct (free_fall_closed 5 (GameEngine.gs_gravity gs)
                (GameEngine.yPos (GameEngine.pilot gs))
                (GameEngine.velocity (GameEngine.pilot gs))) as [Hy _].
    rewrite Hy. unfold Props.bottom_after_five.
    change (inject_Z (Z.of_nat 5)) with 5%Q.
    change (inject_Z (Z.of_nat 5 * (Z.of_nat 5 + 1) / 2)) with 15%Q. ring. }
  destruct (Py.ltb 0 _ && Py.ltb _ 150) eqn:Hnear.
  - apply andb_true_iff in Hnear as [Hpos Hclose].
    apply ltb_iff in Hpos, Hclose.
    rewrite (geb_proper _ _ _ _ Hclosed (Qeq_refl _)), geb_iff. split.
    + intros Hb. exists pipe. repeat split; try assumption. lra.
    + intros (p & [= <-] & _ & _ & Hb). exact Hb.
  - split; [discriminate |]. intros (p & [= <-] & Hpos & Hclose & _).
    apply andb_false_iff in Hnear as [Hn | Hn]; apply ltb_false_iff in Hn; lra.
Qed.

(** X1. Rule 2 in closed form: the emergency rule fires exactly when there
    is a target whose leading edge is strictly ahead of the agent by less
    than 150, and the bottom edge after five frames of free fall,
    [y + 5*v + 15*gravity + height], plus 5 reaches the gap's lower edge;
    and when it fires [shouldJump] returns true. *)
Theorem X1_emergency_rule (gs : GameEngine.game_state) :
  (AI.emergency_rule gs = true
   <-> exists pipe,
         GameEngine.currentPipe gs = Some pipe
         /\ (GameEngine.xPos (GameEngine.pilot gs) < GameEngine.xPosition pipe)%Q
         /\ (GameEngine.xPosition pipe - GameEngine.xPos (GameEngine.pilot gs) < 150)%Q
         /\ (GameEngine.bottomPipe pipe <= Props.bottom_after_five gs + 5)%Q)
  /\ (AI.emergency_rule gs = true -> AI.shouldJump gs = true).
Proof.
  split; [apply emergency_rule_iff |].
  intros He. unfold AI.shouldJump. rewrite He. now destruct (AI.floor_rule gs).
Qed.

Lemma X1_witness :
  AI.floor_rule Props.falling_near_pipe = false
  /\ AI.shouldJump Props.falling_near_pipe = true.
Proof.
  split; [reflexivity |].
  apply (X1_emergency_rule Props.falling_near_pipe). reflexivity.
Defined.

(** X2. Without a target obstacle the policy is the floor rule alone:
    [shouldJump] returns true exactly when the bottom edge predicted for the
    next frame plus the margin reaches the floor. *)
Theorem X2_no_target_floor_only (gs : GameEngine.game_state) :
  GameEngine.currentPipe gs = None ->
  (AI.shouldJump gs = true
   <-> (GameEngine.floor gs
        <= Spec.predicted_bottom gs + Spec.margin (GameEngine.pilot gs))%Q).
Proof.
  intros Hnone. rewrite <- floor_rule_iff.
  unfold AI.shouldJump, AI.emergency_rule. rewrite Hnone.
  destruct (AI.floor_rule gs); split; congruence.
Qed.

Lemma X2_witness :
  AI.shouldJump Examples.near_floor = true
  /\ AI.shouldJump (Examples.snapshot 300 0 (1 # 2) (-8) 600 None) = false.
Proof.
  split.
  - apply (X2_no_target_floor_only Examples.near_floor); [reflexivity |].
    vm_compute. discriminate.
  - apply not_true_iff_false. intros Hjump.
    apply (X2_no_target_floor_only (Examples.snapshot 300 0 (1 # 2) (-8) 600 None))
      in Hjump; [| reflexivity].
    vm_compute in Hjump. apply Hjump. reflexivity.
Defined.

Lemma strategy_bottom_iff (gs : GameEngine.game_state) (pipe : GameEngine.pipe) :
  GameEngine.currentPipe gs = Some pipe ->
  AI.floor_rule gs = false ->
  AI.emergency_rule gs = false ->
  (300 < Spec.gapCenter pipe \/ GameEngine.floor gs - 20 <= Spec.targetY pipe + 64)%Q ->
  (AI.shouldJump gs = true
   <-> (GameEngine.bottomPipe pipe
        <= Spec.predicted_bottom gs + Spec.margin (GameEngine.pilot gs))%Q).
Proof.
  intros Htarget Hfloor Hemergency Hbranch.
  unfold AI.shouldJump. rewrite Hfloor, Hemergency, Htarget.
  change (AI.pilot_bottom_next_frame (GameEngine.pilot gs) (GameEngine.gs_gravity gs))
    with (Spec.predicted_bottom gs).
  assert (Hb : Py.geb (Spec.predicted_bottom gs + AI.safety_margin (GameEngine.pilot gs))
                 (GameEngine.bottomPipe pipe) = true
               <-> (GameEngine.bottomPipe pipe
                    <= Spec.predicted_bottom gs + Spec.margin (GameEngine.pilot gs))%Q).
  { rewrite geb_iff. now rewrite safety_margin_spec. }
  assert (Hmin : (GameEngine.bottomPipe pipe
                  - (GameEngine.bottomPipe pipe - GameEngine.topPipe pipe) * (3 # 4)
                  + AI.apex_height == Spec.targetY pipe + 64)%Q).
  { unfold Spec.targetY, AI.apex_height. ring. }
  destruct (Py.leb _ AI.SCREEN_CENTER) eqn:Hcenter.
  - apply leb_iff in Hcenter. unfold AI.SCREEN_CENTER in Hcenter.
    fold (Spec.gapCenter pipe) in Hcenter.
    destruct Hbranch as [Hlow | Hclose]; [lra |].
    assert (Hfar : Py.geb (GameEngine.bottomPipe pipe
                           - (GameEngine.bottomPipe pipe - GameEngine.topPipe pipe) * (3 # 4)
                           + AI.apex_height) (GameEngine.floor gs - 20) = true).
    { apply geb_iff. now rewrite Hmin. }
    rewrite Hfar. destruct (Py.geb _ (GameEngine.bottomPipe pipe)); rewrite <- Hb; tauto.
  - destruct (Py.geb _ (GameEngine.bottomPipe pipe)); rewrite <- Hb; tauto.
Qed.

(** X3. Bottom hugging: for a target whose gap center is below the midline
    300, and also for a higher gap whose apex altitude
    [gapBottom - 0.75*gapHeight + 64] is within 20 of the floor, when rules
    1 and 2 do not fire [shouldJump] returns true exactly when the bottom
    edge predicted for the next frame plus the margin reaches the gap's
    lower edge. *)
Theorem X3_bottom_hugging (gs : GameEngine.game_state) (pipe : GameEngine.pipe) :
  GameEngine.currentPipe gs = Some pipe ->
  AI.floor_rule gs = false ->
  AI.emergency_rule gs = false ->
  (300 < Spec.gapCenter pipe \/ GameEngine.floor gs - 20 <= Spec.targetY pipe + 64)%Q ->
  (AI.shouldJump gs = true
   <-> (GameEngine.bottomPipe pipe
        <= Spec.predicted_bottom gs + Spec.margin (GameEngine.pilot gs))%Q).
Proof. apply strategy_bottom_iff. Qed.

Lemma X3_witness :
  AI.shouldJump Props.gliding_far_pipe = false
  /\ AI.shouldJump (Props.with_kinematics 490 0 Props.gliding_far_pipe) = true.
Proof.
  split.
  - apply not_true_iff_false. intros Hjump.
    apply (X3_bottom_hugging Props.gliding_far_pipe
             {| GameEngine.xPosition := 400; GameEngine.topPipe := 375;
                GameEngine.bottomPipe := 525 |}) in Hjump;
      try reflexivity; [| left; vm_compute; reflexivity].
    vm_compute in Hjump. apply Hjump. reflexivity.
  - apply (X3_bottom_hugging (Props.with_kinematics 490 0 Props.gliding_far_pipe)
             {| GameEngine.xPosition := 400; GameEngine.topPipe := 375;
                GameEngine.bottomPipe := 525 |});
      try reflexivity; [left; vm_compute; reflexivity | vm_compute; discriminate].
Defined.

Lemma strategy_apex_iff (gs : GameEngine.game_state) (pipe : GameEngine.pipe) :
  GameEngine.currentPipe gs = Some pipe ->
  AI.floor_rule gs = false ->
  AI.emergency_rule gs = false ->
  (Spec.gapCenter pipe <= 300)%Q ->
  (Spec.targetY pipe + 64 < GameEngine.floor gs - 20)%Q ->
  (AI.shouldJump gs = true
   <-> (Spec.targetY pipe + 64 <= GameEngine.yPos (GameEngine.pilot gs))%Q).
Proof.
  intros Htarget Hfloor Hemergency Hcenter Hfeasible.
  unfold AI.shouldJump. rewrite Hfloor, Hemergency, Htarget.
  apply leb_iff in Hcenter. unfold Spec.gapCenter in Hcenter.
  unfold AI.SCREEN_CENTER. rewrite Hcenter.
  assert (Hmin : (GameEngine.bottomPipe pipe
                  - (GameEngine.bottomPipe pipe - GameEngine.topPipe pipe) * (3 # 4)
                  + AI.apex_height == Spec.targetY pipe + 64)%Q).
  { unfold Spec.targetY, AI.apex_height. ring. }
  assert (Hfar : Py.geb (GameEngine.bottomPipe pipe
                         - (GameEngine.bottomPipe pipe - GameEngine.topPipe pipe) * (3 # 4)
                         + AI.apex_height) (GameEngine.floor gs - 20) = false).
  { apply geb_false_iff. now rewrite Hmin. }
  rewrite Hfar.
  destruct (Py.geb (GameEngine.yPos (GameEngine.pilot gs)) _) eqn:Hy.
  - apply geb_iff in Hy. rewrite Hmin in Hy. tauto.
  - apply geb_false_iff in Hy. rewrite Hmin in Hy.
    split; [discriminate | intros Hle; lra].
Qed.

Lemma should_jump_cases (gs : GameEngine.game_state) :
  AI.shouldJump gs = true ->
  AI.floor_rule gs = true
  \/ AI.emergency_rule gs = true
  \/ exists pipe, GameEngine.currentPipe gs = Some pipe
                  /\ AI.floor_rule gs = false /\ AI.emergency_rule gs = false.
Proof.
  unfold AI.shouldJump.
  destruct (AI.floor_rule gs); [auto |].
  destruct (AI.emergency_rule gs); [auto |].
  destruct (GameEngine.currentPipe gs) as [pipe |]; [eauto 6 | discriminate].
Qed.

(** X4. The policy is monotone in the agent's altitude and velocity: if
    [shouldJump] returns true for a snapshot, it returns true for every
    snapshot that differs from it only by a lower agent (larger y) falling
    at least as fast. *)
Theorem X4_lower_agent_still_jumps (gs : GameEngine.game_state) (y v y' v' : Q) :
  (y <= y')%Q -> (v <= v')%Q ->
  AI.shouldJump (Props.with_kinematics y v gs) = true ->
  AI.shouldJump (Props.with_kinematics y' v' gs) = true.
Proof.
  intros Hy Hv Hjump.
  set (gs1 := Props.with_kinematics y v gs) in *.
  set (gs2 := Props.with_kinematics y' v' gs).
  assert (Hpb : (Spec.predicted_bottom gs1 <= Spec.predicted_bottom gs2)%Q).
  { unfold Spec.predicted_bottom. cbn. lra. }
  assert (Hfive : (Props.bottom_after_five gs1 <= Props.bottom_after_five gs2)%Q).
  { unfold Props.bottom_after_five. cbn. lra. }
  assert (Hmargin : Spec.margin (GameEngine.pilot gs1) = Spec.margin (GameEngine.pilot gs2))
    by reflexivity.
  destruct (AI.floor_rule gs2) eqn:Hf2.
  { unfold AI.shouldJump. now rewrite Hf2. }
  destruct (AI.emergency_rule gs2) eqn:He2.
  { unfold AI.shouldJump. now rewrite Hf2, He2. }
  assert (Hf1 : AI.floor_rule gs1 = false).
  { apply not_true_iff_false. intros H1. apply not_true_iff_false in Hf2. apply Hf2.
    apply floor_rule_iff. apply floor_rule_iff in H1.
    rewrite Hmargin in H1. change (GameEngine.floor gs2) with (GameEngine.floor gs1). lra. }
  assert (He1 : AI.emergency_rule gs1 = false).
  { apply not_true_iff_false. intros H1. apply not_true_iff_false in He2. apply He2.
    apply emergency_rule_iff. apply emergency_rule_iff in H1.
    destruct H1 as (pipe & Hp & Hpos & Hclose & Hb).
    exists pipe. repeat split; try assumption. lra. }
  destruct (should_jump_cases gs1 Hjump) as [H | [H | (pipe & Hp & _ & _)]];
    [congruence | congruence |].
  destruct (Qlt_le_dec 300 (Spec.gapCenter pipe)) as [Hlow | Hhigh].
  - apply (strategy_bottom_iff gs2 pipe Hp Hf2 He2 (or_introl Hlow)).
    apply (strategy_bottom_iff gs1 pipe Hp Hf1 He1 (or_introl Hlow)) in Hjump.
    rewrite <- Hmargin. lra.
  - destruct (Qlt_le_dec (Spec.targetY pipe + 64) (GameEngine.floor gs1 - 20))
      as [Hfeasible | Hclose].
    + apply (strategy_apex_iff gs2 pipe Hp Hf2 He2 Hhigh Hfeasible).
      apply (strategy_apex_iff gs1 pipe Hp Hf1 He1 Hhigh Hfeasible) in Hjump.
      cbn in *. lra.
    + apply (strategy_bottom_iff gs2 pipe Hp Hf2 He2 (or_intror Hclose)).
      apply (strategy_bottom_iff gs1 pipe Hp Hf1 He1 (or_intror Hclose)) in Hjump.
      rewrite <- Hmargin. lra.
Qed.

Lemma X4_witness :
  AI.shouldJump (Props.with_kinematics 200 0 Examples.apex_low) = true
  /\ AI.shouldJump (Props.with_kinematics 260 3 Examples.apex_low) = true.
Proof.
  split; [reflexivity |].
  apply (X4_lower_agent_still_jumps Examples.apex_low 200 0 260 3).
  - vm_compute. discriminate.
  - vm_compute. discriminate.
  - reflexivity.
Defined.

(** ** Dictionaries: missing keys *)

Lemma dyn_should_jump_engine (gs : GameEngine.game_state) :
  Dyn.shouldJump (Dyn.engine_game_state gs) = inr (AI.shouldJump gs).
Proof.
  unfold Dyn.shouldJump, AI.shouldJump, AI.floor_rule, AI.emergency_rule,
    AI.pilot_bottom_next_frame, AI.safety_margin.
  destruct gs as [[px py h w pg jv v] speed target pipes gravity floor].
  cbn -[Py.geb Py.ltb Py.leb Py.max3 AI.free_fall Qplus Qminus Qmult Qdiv].
  destruct (Py.geb _ floor); [reflexivity |].
  destruct target as [[x top bottom] |];
    cbn -[Py.geb Py.ltb Py.leb Py.max3 AI.free_fall Qplus Qminus Qmult Qdiv];
    [| reflexivity].
  destruct (Py.ltb 0 (x - px) && Py.ltb (x - px) 150);
    cbn -[Py.geb Py.ltb Py.leb Py.max3 AI.free_fall Qplus Qminus Qmult Qdiv].
  - destruct (Py.geb _ bottom); [reflexivity |].
    cbn -[Py.geb Py.ltb Py.leb Py.max3 AI.free_fall Qplus Qminus Qmult Qdiv].
    repeat match goal with |- context [if ?b then _ else _] => destruct b end; reflexivity.
  - repeat match goal with |- context [if ?b then _ else _] => destruct b end; reflexivity.
Qed.

(** X5. On the dictionary that [GameEngine.get_game_state] builds,
    [shouldJump] never raises: every key it reads is present and numeric, and
    its result is that of the record-level embedding.  The session's decision
    in autopilot mode on a running instance is therefore this result: the
    [except] branch around the call is never taken. *)
Theorem X5_engine_snapshot_never_raises :
  (forall gs, Dyn.shouldJump (Dyn.engine_game_state gs) = inr (AI.shouldJump gs))
  /\ (forall g,
        App.decide g
        = (GameEngine.autopilot g && negb (GameEngine.game_over g))
          && AI.shouldJump (GameEngine.get_game_state g)).
Proof.
  split; [apply dyn_should_jump_engine |].
  intros g. unfold App.decide. rewrite dyn_should_jump_engine.
  now destruct (GameEngine.autopilot g && negb (GameEngine.game_over g)).
Qed.

(** X6. The pygame simulation cannot drive the shipped policy: the
    dictionary of [FlappyBirdGame.get_game_state] has no ["floor"] key, so
    [shouldJump] raises [KeyError('floor')] on its second lookup, for every
    state of the simulation; [run_test_mode] therefore ends on its first
    frame, before any update, whenever the game is not already over. *)
Theorem X6_sim_snapshot_key_error :
  (forall s, Dyn.shouldJump (Dyn.sim_game_state (Sim.get_game_state s))
             = inl (Dyn.KeyError "floor"))
  /\ (forall entropy s,
        Sim.game_over s = false ->
        Dyn.run_test_mode entropy s = Dyn.PolicyRaised (Dyn.KeyError "floor") s 0).
Proof.
  split; [reflexivity |].
  intros entropy s Hrun. unfold Dyn.run_test_mode.
  change (100 * 100)%nat with (S (100 * 100 - 1)).
  cbn [Dyn.test_loop]. unfold Sim.is_game_over. now rewrite Hrun.
Qed.

Lemma X6_witness :
  Dyn.run_test_mode (fun _ => 0) Examples.running_sim
  = Dyn.PolicyRaised (Dyn.KeyError "floor") Examples.running_sim 0.
Proof.
  apply (proj2 X6_sim_snapshot_key_error (fun _ => 0) Examples.running_sim).
  reflexivity.
Defined.

(** ** The engine: target selection, impulses and integration *)

Lemma first_ahead_spec (px : Q) (ps : list GameEngine.pipe) (i0 : nat) :
  match GameEngine.first_ahead i0 px ps with
  | Some (i, p) =>
      (i0 <= i)%nat /\ nth_error ps (i - i0) = Some p
      /\ (px < GameEngine.xPosition p + 50)%Q
      /\ forall j q, (j < i - i0)%nat -> nth_error ps j = Some q ->
                     (GameEngine.xPosition q + 50 <= px)%Q
  | None => forall q, In q ps -> (GameEngine.xPosition q + 50 <= px)%Q
  end.
Proof.
  revert i0. induction ps as [| p ps IH]; intros i0; cbn [GameEngine.first_ahead].
  - intros q [].
  - destruct (Py.gtb _ px) eqn:Hahead.
    + apply gtb_iff in Hahead. rewrite Nat.sub_diag.
      split; [lia |]. split; [reflexivity |]. split; [exact Hahead |].
      intros j q Hj. lia.
    + apply ltb_false_iff in Hahead. specialize (IH (S i0)).
      destruct (GameEngine.first_ahead (S i0) px ps) as [[i q] |].
      * destruct IH as (Hle & Hnth & Hq & Hbefore).
        split; [lia |]. replace (i - i0)%nat with (S (i - S i0)) by lia.
        split; [exact Hnth |]. split; [exact Hq |].
        intros j r Hj Hr. destruct j as [| j].
        -- injection Hr as <-. exact Hahead.
        -- apply (Hbefore j r); [lia | exact Hr].
      * intros q [<- | Hq]; [exact Hahead | now apply IH].
Qed.

(** X7. [get_current_pipe] returns the first obstacle of the list whose
    trailing edge is strictly ahead of the agent's x, with its index: every
    obstacle before it has its trailing edge at or behind the agent; it
    returns [(None, None)] exactly when no obstacle is ahead.  The snapshot's
    [currentPipe] is that obstacle. *)
Theorem X7_current_pipe_first_ahead (g : GameEngine.t) :
  (forall i p,
      GameEngine.get_current_pipe g = Some (i, p) ->
      nth_error (GameEngine.pipes g) i = Some p
      /\ GameEngine.currentPipe (GameEngine.get_game_state g) = Some p
      /\ (GameEngine.pilot_x g < GameEngine.xPosition p + 50)%Q
      /\ forall j q, (j < i)%nat -> nth_error (GameEngine.pipes g) j = Some q ->
                     (GameEngine.xPosition q + 50 <= GameEngine.pilot_x g)%Q)
  /\ (GameEngine.get_current_pipe g = None
      <-> forall q, In q (GameEngine.pipes g) ->
                    (GameEngine.xPosition q + 50 <= GameEngine.pilot_x g)%Q).
Proof.
  pose proof (first_ahead_spec (GameEngine.pilot_x g) (GameEngine.pipes g) 0) as Hspec.
  unfold GameEngine.get_game_state, GameEngine.get_current_pipe in *. cbn.
  destruct (GameEngine.first_ahead 0 _ _) as [[i p] |].
  - destruct Hspec as (_ & Hnth & Hp & Hbefore). rewrite Nat.sub_0_r in *.
    split.
    + intros i' p' [= <- <-]. auto.
    + split; [discriminate |]. intros Hall.
      apply nth_error_In in Hnth. specialize (Hall p Hnth). lra.
  - split; [discriminate |]. split; [intros _; exact Hspec | reflexivity].
Qed.

Lemma X7_witness :
  nth_error (GameEngine.pipes Examples.two_close_engine) 0
  = Some {| GameEngine.xPosition := 52; GameEngine.topPipe := 225;
            GameEngine.bottomPipe := 375 |}
  /\ (100 < 52 + 50)%Q.
Proof.
  destruct (X7_current_pipe_first_ahead Examples.two_close_engine) as [Hsome _].
  destruct (Hsome 0%nat {| GameEngine.xPosition := 52; GameEngine.topPipe := 225;
                           GameEngine.bottomPipe := 375 |})
    as (Hnth & _ & Hahead & _); [reflexivity |].
  split; [exact Hnth | exact Hahead].
Defined.

Lemma engine_jump_frame (g : GameEngine.t) :
  GameEngine.game_over g = false ->
  GameEngine.advance_frame (GameEngine.jump g) false = GameEngine.advance_frame g true.
Proof.
  intros Hrun. unfold GameEngine.advance_frame, GameEngine.jump.
  destruct g. cbn in *. subst. reflexivity.
Qed.

Lemma engine_jump_twice (g : GameEngine.t) :
  GameEngine.jump (GameEngine.jump g) = GameEngine.jump g.
Proof.
  unfold GameEngine.jump. destruct g as [? ? ? ? ? ? ? ? ? ? ? ? ? ? [] ? ?]; reflexivity.
Qed.

Lemma engine_jump_then_update (g : GameEngine.t) :
  GameEngine.update (GameEngine.jump g) false = GameEngine.update g true.
Proof.
  destruct (GameEngine.game_over g) eqn:Hover.
  - unfold GameEngine.jump. rewrite Hover. unfold GameEngine.update. now rewrite Hover.
  - unfold GameEngine.update.
    assert (Hj : GameEngine.game_over (GameEngine.jump g) = false).
    { unfold GameEngine.jump. now rewrite Hover. }
    rewrite Hj, Hover. cbn zeta. now rewrite engine_jump_frame.
Qed.

(** X8. Impulses do not stack and a manual jump is the decision of the next
    tick: [jump] twice is [jump] once, and [jump] followed by a tick without
    decision is a tick with decision true.  In a session, in manual mode, a
    [jump] message followed by an [update] message leaves the engine as
    [update(True)] does and reports no decision; in autopilot mode a [jump]
    message changes nothing. *)
Theorem X8_manual_jump_is_next_decision (g : GameEngine.t) (e1 e2 : Z) :
  GameEngine.jump (GameEngine.jump g) = GameEngine.jump g
  /\ GameEngine.update (GameEngine.jump g) false = GameEngine.update g true
  /\ (GameEngine.autopilot g = false ->
      App.session [(e1, App.Jump); (e2, App.Update)] g
      = (Py.Returned (GameEngine.update g true),
         [App.state_update (App.get_render_state (GameEngine.update g true)) false]))
  /\ (GameEngine.autopilot g = true ->
      App.handle e1 App.Jump g = (Py.Returned g, None)).
Proof.
  split; [apply engine_jump_twice |]. split; [apply engine_jump_then_update |].
  split.
  - intros Hmanual. cbn [App.session App.handle]. rewrite Hmanual.
    assert (Hd : App.decide (GameEngine.jump g) = false).
    { unfold App.decide.
      assert (Ha : GameEngine.autopilot (GameEngine.jump g) = false).
      { unfold GameEngine.jump. now destruct (GameEngine.game_over g). }
      now rewrite Ha. }
    rewrite Hd, engine_jump_then_update. reflexivity.
  - intros Hauto. cbn [App.handle]. now rewrite Hauto.
Qed.

Lemma X8_witness :
  App.session [(0, App.Jump); (0, App.Update)] Examples.running_engine
  = (Py.Returned (GameEngine.update Examples.running_engine true),
     [App.state_update
        (App.get_render_state (GameEngine.update Examples.running_engine true)) false])
  /\ App.handle 0 App.Jump Props.autopilot_engine
     = (Py.Returned Props.autopilot_engine, None).
Proof.
  destruct (X8_manual_jump_is_next_decision Examples.running_engine 0 0)
    as (_ & _ & Hmanual & _).
  destruct (X8_manual_jump_is_next_decision Props.autopilot_engine 0 0)
    as (_ & _ & _ & Hauto).
  split; [apply Hmanual; reflexivity | apply Hauto; reflexivity].
Defined.

Lemma engine_advance_frame_kinematics (g : GameEngine.t) (d : bool) :
  GameEngine.game_over g = false ->
  let g' := GameEngine.advance_frame g d in
  let v := ((if d then GameEngine.jump_velocity g else GameEngine.pilot_velocity g)
            + GameEngine.gravity g)%Q in
  GameEngine.pilot_velocity g' = v
  /\ GameEngine.pilot_y g' = (GameEngine.pilot_y g + v)%Q
  /\ Props.same_config g g'.
Proof.
  intros Hrun. unfold GameEngine.advance_frame, GameEngine.jump, Props.same_config.
  destruct d; cbn; rewrite ?Hrun; cbn; repeat split.
Qed.

Lemma engine_finish_fields (b : bool) (g : GameEngine.t) :
  let g' := (if b then GameEngine.set_game_over true else fun g' : GameEngine.t => g')
              (GameEngine.update_score g) in
  GameEngine.pilot_velocity g' = GameEngine.pilot_velocity g
  /\ GameEngine.pilot_y g' = GameEngine.pilot_y g
  /\ GameEngine.pipes g' = GameEngine.pipes g
  /\ GameEngine.frame_count g' = GameEngine.frame_count g
  /\ Props.same_config g g'.
Proof. unfold Props.same_config. destruct b; repeat split. Qed.

Lemma same_config_refl (g : GameEngine.t) : Props.same_config g g.
Proof. unfold Props.same_config. repeat split. Qed.

Lemma same_config_trans (g1 g2 g3 : GameEngine.t) :
  Props.same_config g1 g2 -> Props.same_config g2 g3 -> Props.same_config g1 g3.
Proof.
  unfold Props.same_config.
  intros (? & ? & ? & ? & ? & ? & ? & ? & ? & ?) (? & ? & ? & ? & ? & ? & ? & ? & ? & ?).
  repeat split; congruence.
Qed.

(** One effective tick: kinematics, obstacles, frame counter and what stays. *)
Lemma engine_tick_fields (g : GameEngine.t) (d : bool) :
  GameEngine.game_over g = false ->
  let g' := GameEngine.update g d in
  let v := ((if d then GameEngine.jump_velocity g else GameEngine.pilot_velocity g)
            + GameEngine.gravity g)%Q in
  GameEngine.pilot_velocity g' = v
  /\ GameEngine.pilot_y g' = (GameEngine.pilot_y g + v)%Q
  /\ GameEngine.pipes g'
     = map (GameEngine.move_pipe (GameEngine.pipe_speed g)) (GameEngine.pipes g)
  /\ GameEngine.frame_count g' = GameEngine.frame_count g + 1
  /\ Props.same_config g g'.
Proof.
  intros Hrun. destruct (engine_update_running g d Hrun) as [b ->].
  destruct (engine_advance_frame_kinematics g d Hrun) as (Hv & Hy & Hc).
  destruct (engine_advance_frame_fields g d) as (Hf & _ & _ & _ & Hps & _).
  cbn zeta in *. revert Hv Hy Hc Hf Hps.
  generalize (GameEngine.advance_frame g d) as g1. intros g1 Hv Hy Hc Hf Hps.
  destruct (engine_finish_fields b g1) as (Hv2 & Hy2 & Hps2 & Hf2 & Hc2). cbn zeta in *.
  rewrite Hv2, Hy2, Hps2, Hf2, Hv, Hy, Hps, Hf.
  split; [reflexivity |]. split; [reflexivity |]. split; [reflexivity |].
  split; [reflexivity |]. exact (same_config_trans _ _ _ Hc Hc2).
Qed.

Lemma engine_update_same_config (g : GameEngine.t) (d : bool) :
  Props.same_config g (GameEngine.update g d).
Proof.
  destruct (GameEngine.game_over g) eqn:Hover.
  - unfold GameEngine.update. rewrite Hover. apply same_config_refl.
  - now destruct (engine_tick_fields g d Hover) as (_ & _ & _ & _ & Hc).
Qed.

Lemma engine_run_same_config (ds : list bool) (g : GameEngine.t) :
  Props.same_config g (GameEngine.run g ds).
Proof.
  revert g. induction ds as [| d ds IH]; intros g; [apply same_config_refl |].
  change (GameEngine.run g (d :: ds)) with (GameEngine.run (GameEngine.update g d) ds).
  eapply same_config_trans; [apply engine_update_same_config | apply IH].
Qed.

Lemma engine_update_still_running (g : GameEngine.t) (d : bool) :
  GameEngine.game_over (GameEngine.update g d) = false -> GameEngine.game_over g = false.
Proof.
  intros Hafter. destruct (GameEngine.game_over g) eqn:Hover; [| reflexivity].
  unfold GameEngine.update in Hafter. rewrite Hover in Hafter. congruence.
Qed.

Lemma engine_run_still_running (ds : list bool) (g : GameEngine.t) :
  GameEngine.game_over (GameEngine.run g ds) = false -> GameEngine.game_over g = false.
Proof.
  revert g. induction ds as [| d ds IH]; intros g Hafter; [exact Hafter |].
  change (GameEngine.run g (d :: ds)) with (GameEngine.run (GameEngine.update g d) ds)
    in Hafter.
  eapply engine_update_still_running, IH, Hafter.
Qed.

(** X9. The policy's free-fall prediction is the engine's integrator: as
    long as the instance is still running after [n] frames without impulse,
    its altitude and velocity are exactly the pair that the loop of rule 2
    computes from the altitude and velocity it started with, and its frame
    counter has advanced by [n]. *)
Theorem X9_free_fall_is_integration (n : nat) (g : GameEngine.t) :
  GameEngine.game_over (GameEngine.run g (Props.free_frames n)) = false ->
  let g' := GameEngine.run g (Props.free_frames n) in
  (GameEngine.pilot_y g', GameEngine.pilot_velocity g')
  = AI.free_fall n (GameEngine.gravity g)
      (GameEngine.pilot_y g, GameEngine.pilot_velocity g)
  /\ GameEngine.frame_count g' = GameEngine.frame_count g + Z.of_nat n.
Proof.
  revert g. induction n as [| n IH]; intros g Hrunning.
  - cbn. split; [reflexivity | lia].
  - change (Props.free_frames (S n)) with (false :: Props.free_frames n) in *.
    change (GameEngine.run g (false :: Props.free_frames n))
      with (GameEngine.run (GameEngine.update g false) (Props.free_frames n)) in *.
    destruct (IH _ Hrunning) as (Hyv & Hf). cbn zeta in *.
    pose proof (engine_update_still_running _ _ (engine_run_still_running _ _ Hrunning))
      as Hrun.
    destruct (engine_tick_fields g false Hrun) as (Hv1 & Hy1 & _ & Hf1 & Hc).
    cbn zeta in *. destruct Hc as (_ & _ & _ & Hg & _).
    rewrite Hyv, Hf, Hv1, Hy1, Hg, Hf1. cbn [AI.free_fall fst snd].
    split; [reflexivity | lia].
Qed.

Lemma X9_witness :
  (GameEngine.pilot_y (GameEngine.run Examples.running_engine (Props.free_frames 5)),
   GameEngine.pilot_velocity (GameEngine.run Examples.running_engine (Props.free_frames 5)))
  = AI.free_fall 5 (1 # 2) (300, 0)%Q.
Proof.
  apply (X9_free_fall_is_integration 5 Examples.running_engine).
  vm_compute. reflexivity.
Defined.

(** ** The engine: obstacles over a run *)

Lemma engine_update_pipe_track (g : GameEngine.t) (d : bool) (i : nat) (p' : GameEngine.pipe) :
  nth_error (GameEngine.pipes (GameEngine.update g d)) i = Some p' ->
  exists p,
    nth_error (GameEngine.pipes g) i = Some p
    /\ GameEngine.topPipe p' = GameEngine.topPipe p
    /\ GameEngine.bottomPipe p' = GameEngine.bottomPipe p
    /\ (GameEngine.xPosition p'
        == GameEngine.xPosition p
           - inject_Z (GameEngine.frame_count (GameEngine.update g d)
                       - GameEngine.frame_count g) * GameEngine.pipe_speed g)%Q.
Proof.
  destruct (GameEngine.game_over g) eqn:Hover.
  - unfold GameEngine.update. rewrite Hover. intros Hp. exists p'.
    rewrite Z.sub_diag. repeat split; try assumption. change (inject_Z 0) with 0%Q. ring.
  - destruct (engine_tick_fields g d Hover) as (_ & _ & Hps & Hf & _). cbn zeta in *.
    rewrite Hps, Hf, nth_error_map.
    destruct (nth_error (GameEngine.pipes g) i) as [p |]; [| discriminate].
    intros [= <-]. exists p. repeat split.
    replace (GameEngine.frame_count g + 1 - GameEngine.frame_count g) with 1 by lia.
    cbn. change (inject_Z 1) with 1%Q. ring.
Qed.

Lemma engine_run_pipe_track (ds : list bool) (g : GameEngine.t) (i : nat)
  (p' : GameEngine.pipe) :
  nth_error (GameEngine.pipes (GameEngine.run g ds)) i = Some p' ->
  exists p,
    nth_error (GameEngine.pipes g) i = Some p
    /\ GameEngine.topPipe p' = GameEngine.topPipe p
    /\ GameEngine.bottomPipe p' = GameEngine.bottomPipe p
    /\ (GameEngine.xPosition p'
        == GameEngine.xPosition p
           - inject_Z (GameEngine.frame_count (GameEngine.run g ds)
                       - GameEngine.frame_count g) * GameEngine.pipe_speed g)%Q.
Proof.
  revert g. induction ds as [| d ds IH]; intros g.
  - cbn. intros Hp. exists p'. rewrite Z.sub_diag. repeat split; try assumption.
    change (inject_Z 0) with 0%Q. ring.
  - change (GameEngine.run g (d :: ds)) with (GameEngine.run (GameEngine.update g d) ds).
    intros Hp. destruct (IH _ Hp) as (p1 & Hp1 & Ht1 & Hb1 & Hx1).
    destruct (engine_update_pipe_track g d i p1 Hp1) as (p & Hp0 & Ht0 & Hb0 & Hx0).
    exists p. split; [exact Hp0 |]. split; [congruence |]. split; [congruence |].
    destruct (engine_update_same_config g d) as (_ & _ & Hv & _).
    rewrite Hx1, Hx0, Hv.
    set (f0 := GameEngine.frame_count g).
    set (f1 := GameEngine.frame_count (GameEngine.update g d)).
    set (f2 := GameEngine.frame_count (GameEngine.run (GameEngine.update g d) ds)).
    replace (f2 - f0) with ((f2 - f1) + (f1 - f0)) by lia.
    rewrite inject_Z_plus. ring.
Qed.

(** X10. Obstacles keep their gap and their place in the list, and move with
    the frame counter: after any sequence of ticks the i-th obstacle is the
    i-th obstacle of the start with the same [topPipe] and [bottomPipe], and
    its x is the start x minus the pipe speed times the number of frames
    elapsed. *)
Theorem X10_obstacles_move_with_frames (g : GameEngine.t) (ds : list bool) (i : nat)
  (p' : GameEngine.pipe) :
  nth_error (GameEngine.pipes (GameEngine.run g ds)) i = Some p' ->
  exists p,
    nth_error (GameEngine.pipes g) i = Some p
    /\ GameEngine.topPipe p' = GameEngine.topPipe p
    /\ GameEngine.bottomPipe p' = GameEngine.bottomPipe p
    /\ (GameEngine.xPosition p'
        == GameEngine.xPosition p
           - inject_Z (GameEngine.frame_count (GameEngine.run g ds)
                       - GameEngine.frame_count g) * GameEngine.pipe_speed g)%Q.
Proof. apply engine_run_pipe_track. Qed.

Lemma X10_witness :
  exists p,
    nth_error (GameEngine.pipes Examples.running_engine) 0 = Some p
    /\ (400 - 3 - 3 == GameEngine.xPosition p - inject_Z (2 - 0) * 3)%Q.
Proof.
  destruct (X10_obstacles_move_with_frames Examples.running_engine [false; true] 0
              {| GameEngine.xPosition := 400 - 3 - 3; GameEngine.topPipe := 225;
                 GameEngine.bottomPipe := 375 |})
    as (p & Hp & _ & _ & Hx); [reflexivity |].
  exists p. split; [exact Hp | exact Hx].
Defined.

Lemma make_pipe_bottom (f : Z) (pc : Levels.pipe_config) :
  (GameEngine.bottomPipe (GameEngine.make_pipe f pc) <= inject_Z f)%Q.
Proof.
  unfold GameEngine.make_pipe.
  destruct (Z.gtb_spec (Levels.gapCenter pc + Levels.gapHeight pc / 2) f);
    cbn; rewrite <- Zle_Qle; lia.
Qed.

Lemma make_pipe_gap (f : Z) (pc : Levels.pipe_config) :
  2 <= Levels.gapHeight pc ->
  (GameEngine.topPipe (GameEngine.make_pipe f pc)
   < GameEngine.bottomPipe (GameEngine.make_pipe f pc))%Q.
Proof.
  intros Hh. unfold GameEngine.make_pipe.
  pose proof (Z.div_le_mono 2 (Levels.gapHeight pc) 2 ltac:(lia) Hh) as Hhalf.
  change (2 / 2) with 1 in Hhalf.
  destruct (Z.gtb_spec (Levels.gapCenter pc + Levels.gapHeight pc / 2) f);
    cbn; rewrite <- Zlt_Qlt; lia.
Qed.

Lemma loaded_run_pipe (entropy : Z) (level : Levels.level_config) (g g' : GameEngine.t)
  (ds : list bool) (p : GameEngine.pipe) :
  GameEngine.load_level entropy level g = Py.Returned g' ->
  In p (GameEngine.pipes (GameEngine.run g' ds)) ->
  exists pc,
    In pc (Levels.pipes level)
    /\ GameEngine.topPipe p
       = GameEngine.topPipe (GameEngine.make_pipe (GameEngine.floor_y g') pc)
    /\ GameEngine.bottomPipe p
       = GameEngine.bottomPipe (GameEngine.make_pipe (GameEngine.floor_y g') pc).
Proof.
  intros Hload Hin. apply In_nth_error in Hin as [i Hi].
  destruct (engine_run_pipe_track ds g' i p Hi) as (p0 & Hp0 & Ht & Hb & _).
  apply load_level_returned in Hload as [_ Hg'].
  rewrite Hg' in Hp0. cbn in Hp0. rewrite nth_error_map in Hp0.
  destruct (nth_error (Levels.pipes level) i) as [pc |] eqn:Hpc; [| discriminate].
  injection Hp0 as <-. exists pc. split; [eapply nth_error_In; eassumption |].
  split; assumption.
Qed.

(** X11. After a load, no gap extends into the floor, at any frame of the
    run: the floor drawn at load lies in the level's range and never
    changes, and every obstacle's [bottomPipe] is at most the floor. *)
Theorem X11_gaps_above_floor (entropy : Z) (level : Levels.level_config)
  (g g' : GameEngine.t) (ds : list bool) :
  GameEngine.load_level entropy level g = Py.Returned g' ->
  GameEngine.floor_y (GameEngine.run g' ds) = GameEngine.floor_y g'
  /\ (GameEngine.floor_range level g).1 <= GameEngine.floor_y g'
     <= (GameEngine.floor_range level g).2
  /\ forall p, In p (GameEngine.pipes (GameEngine.run g' ds)) ->
               (GameEngine.bottomPipe p <= inject_Z (GameEngine.floor_y (GameEngine.run g' ds)))%Q.
Proof.
  intros Hload.
  destruct (engine_run_same_config ds g') as (_ & _ & _ & _ & _ & _ & _ & _ & Hfloor & _).
  split; [exact Hfloor |]. split.
  - apply load_level_returned in Hload as [Hdraw _]. now apply randint_range in Hdraw.
  - intros p Hp. rewrite Hfloor.
    destruct (loaded_run_pipe _ _ _ _ _ _ Hload Hp) as (pc & _ & _ & ->).
    apply make_pipe_bottom.
Qed.

Lemma X11_witness :
  (375 <= inject_Z (GameEngine.floor_y
                      (GameEngine.run Examples.medium_engine [true; false])))%Q.
Proof.
  destruct (X11_gaps_above_floor 60 Levels.medium GameEngine.default
              Examples.medium_engine [true; false]) as (_ & _ & Hgaps);
    [vm_compute; reflexivity |].
  apply (Hgaps {| GameEngine.xPosition := 400 - 3 - 3; GameEngine.topPipe := 225;
                  GameEngine.bottomPipe := 375 |}).
  vm_compute. left. reflexivity.
Defined.

(** X12. When every descriptor of the level has a gap height of at least 2,
    every obstacle has [topPipe < bottomPipe], at load and at any later
    frame. *)
Theorem X12_gaps_are_open (entropy : Z) (level : Levels.level_config)
  (g g' : GameEngine.t) (ds : list bool) :
  GameEngine.load_level entropy level g = Py.Returned g' ->
  (forall pc, In pc (Levels.pipes level) -> 2 <= Levels.gapHeight pc) ->
  forall p, In p (GameEngine.pipes (GameEngine.run g' ds)) ->
            (GameEngine.topPipe p < GameEngine.bottomPipe p)%Q.
Proof.
  intros Hload Hheights p Hp.
  destruct (loaded_run_pipe _ _ _ _ _ _ Hload Hp) as (pc & Hpc & -> & ->).
  apply make_pipe_gap. now apply Hheights.
Qed.

Lemma X12_witness : (225 < 375)%Q.
Proof.
  apply (X12_gaps_are_open 60 Levels.simple GameEngine.default Examples.running_engine
           [true; false] ltac:(vm_compute; reflexivity)
           ltac:(intros pc [<- | []]; vm_compute; discriminate)
           {| GameEngine.xPosition := 400 - 3 - 3; GameEngine.topPipe := 225;
              GameEngine.bottomPipe := 375 |}).
  vm_compute. left. reflexivity.
Defined.

(** ** The engine: what a run leaves behind *)

Lemma reset_of_same_config (g g' : GameEngine.t) :
  Props.same_config g g' -> GameEngine.reset g' = GameEngine.reset g.
Proof.
  unfold Props.same_config. destruct g, g'. cbn.
  intros (? & ? & ? & ? & ? & ? & ? & ? & ? & ?). subst. reflexivity.
Qed.

Lemma engine_jump_same_config (g : GameEngine.t) :
  Props.same_config g (GameEngine.jump g).
Proof.
  unfold GameEngine.jump, Props.same_config.
  destruct (GameEngine.game_over g); repeat split.
Qed.

Lemma load_level_after_reset (entropy : Z) (level : Levels.level_config) (g g' : GameEngine.t) :
  GameEngine.reset g' = GameEngine.reset g ->
  GameEngine.load_level entropy level g' = GameEngine.load_level entropy level g.
Proof.
  intros Hreset. unfold GameEngine.load_level. now rewrite Hreset.
Qed.

(** X13. A tick or a jump changes nothing that [reset] keeps: after any
    sequence of ticks, and after a jump, [reset] gives the state that
    [reset] would have given before, and so does [load_level], whether it
    returns or raises.  What was played leaves no trace in the next run. *)
Theorem X13_reset_forgets_the_run (g : GameEngine.t) (ds : list bool) (entropy : Z)
  (level : Levels.level_config) :
  GameEngine.reset (GameEngine.run g ds) = GameEngine.reset g
  /\ GameEngine.reset (GameEngine.jump g) = GameEngine.reset g
  /\ GameEngine.reset (GameEngine.reset g) = GameEngine.reset g
  /\ GameEngine.load_level entropy level (GameEngine.run g ds)
     = GameEngine.load_level entropy level g
  /\ GameEngine.load_level entropy level (GameEngine.jump g)
     = GameEngine.load_level entropy level g.
Proof.
  assert (Hrun : GameEngine.reset (GameEngine.run g ds) = GameEngine.reset g)
    by apply reset_of_same_config, engine_run_same_config.
  assert (Hjump : GameEngine.reset (GameEngine.jump g) = GameEngine.reset g)
    by apply reset_of_same_config, engine_jump_same_config.
  split; [exact Hrun |]. split; [exact Hjump |].
  split; [apply reset_of_same_config; unfold Props.same_config; repeat split |].
  split; now apply load_level_after_reset.
Qed.

Lemma size_below (n : nat) (X : gset nat) :
  (forall i, i ∈ X -> (i < n)%nat) -> (size X <= n)%nat.
Proof.
  intros Hbound.
  assert (Hsub : X ⊆ set_seq 0 n).
  { intros i Hi. apply elem_of_set_seq. specialize (Hbound i Hi). lia. }
  apply subseteq_size in Hsub. now rewrite size_set_seq in Hsub.
Qed.

Lemma engine_update_credited_in_range (g : GameEngine.t) (d : bool) :
  (forall i, i ∈ GameEngine.passed_pipes g -> (i < length (GameEngine.pipes g))%nat) ->
  forall i, i ∈ GameEngine.passed_pipes (GameEngine.update g d) ->
            (i < length (GameEngine.pipes (GameEngine.update g d)))%nat.
Proof.
  intros Hrange. destruct (GameEngine.game_over g) eqn:Hover.
  { unfold GameEngine.update. now rewrite Hover. }
  destruct (engine_tick_credit g d Hover) as (_ & Hp & Hps & _). cbn zeta in *.
  intros i Hi. rewrite Hp in Hi. apply elem_of_union in Hi as [Hi | Hi].
  - rewrite Hps, length_map. now apply Hrange.
  - apply elem_of_cleared_set in Hi as (p & Hp' & _).
    apply nth_error_Some. congruence.
Qed.

Lemma engine_run_credited_in_range (ds : list bool) (g : GameEngine.t) :
  (forall i, i ∈ GameEngine.passed_pipes g -> (i < length (GameEngine.pipes g))%nat) ->
  forall i, i ∈ GameEngine.passed_pipes (GameEngine.run g ds) ->
            (i < length (GameEngine.pipes (GameEngine.run g ds)))%nat.
Proof.
  revert g. induction ds as [| d ds IH]; intros g Hrange; [exact Hrange |].
  change (GameEngine.run g (d :: ds)) with (GameEngine.run (GameEngine.update g d) ds).
  apply IH. now apply engine_update_credited_in_range.
Qed.

(** X14. The score of a run is bounded by the level: from a load, after any
    sequence of ticks, the score lies between 0 and the number of obstacle
    descriptors of the level. *)
Theorem X14_score_bounded_by_level (entropy : Z) (level : Levels.level_config)
  (g g' : GameEngine.t) (ds : list bool) :
  GameEngine.load_level entropy level g = Py.Returned g' ->
  0 <= GameEngine.score (GameEngine.run g' ds) <= Z.of_nat (length (Levels.pipes level)).
Proof.
  intros Hload.
  assert (Hfresh : GameEngine.score g' = 0 /\ GameEngine.passed_pipes g' = ∅
                   /\ length (GameEngine.pipes g') = length (Levels.pipes level)).
  { apply load_level_returned in Hload as [_ ->]. cbn. rewrite length_map. auto. }
  destruct Hfresh as (Hscore & Hpassed & Hlen).
  assert (Hs0 : GameEngine.score g' = Z.of_nat (size (GameEngine.passed_pipes g'))).
  { rewrite Hscore, Hpassed, size_empty. reflexivity. }
  destruct (engine_run_invariants ds g' Hs0) as (Hs & _ & Hlen' & _). cbn zeta in *.
  assert (Hrange : forall i, i ∈ GameEngine.passed_pipes (GameEngine.run g' ds) ->
                             (i < length (GameEngine.pipes (GameEngine.run g' ds)))%nat).
  { apply engine_run_credited_in_range. rewrite Hpassed. set_solver. }
  apply size_below in Hrange. rewrite Hs. lia.
Qed.

Lemma X14_witness :
  0 <= GameEngine.score (GameEngine.run Examples.two_close_engine [false; false; false])
    <= 2.
Proof.
  apply (X14_score_bounded_by_level 60 Examples.two_close_level GameEngine.default
           Examples.two_close_engine [false; false; false]).
  vm_compute. reflexivity.
Defined.

(** ** Autopilot *)

Lemma safety_margin_at_least_five (pilot : GameEngine.pilot_dict) :
  (5 <= AI.safety_margin pilot)%Q.
Proof. unfold AI.safety_margin, Py.max3. apply Q.le_max_r. Qed.

Lemma autopilot_update_step (g : GameEngine.t) :
  GameEngine.autopilot g = true ->
  (GameEngine.jump_velocity g + GameEngine.gravity g <= 0)%Q ->
  (GameEngine.pilot_y g + GameEngine.pilot_height g < inject_Z (GameEngine.floor_y g))%Q ->
  let g' := Py.state_of (App.handle 0 App.Update g).1 in
  Props.same_config g g'
  /\ (GameEngine.pilot_y g' + GameEngine.pilot_height g' < inject_Z (GameEngine.floor_y g'))%Q.
Proof.
  intros Hauto Himpulse Habove. cbn [App.handle fst Py.state_of].
  pose proof (engine_update_same_config g (App.decide g)) as Hc.
  split; [exact Hc |].
  destruct (GameEngine.game_over g) eqn:Hover.
  { unfold GameEngine.update. now rewrite Hover. }
  destruct (engine_tick_fields g (App.decide g) Hover) as (_ & Hy & _). cbn zeta in Hy.
  destruct Hc as (_ & _ & _ & _ & _ & _ & Hh & _ & Hfloor & _).
  rewrite Hy, Hh, Hfloor.
  assert (Hd : App.decide g = AI.shouldJump (GameEngine.get_game_state g)).
  { unfold App.decide. rewrite dyn_should_jump_engine, Hauto, Hover. reflexivity. }
  rewrite Hd. destruct (AI.shouldJump (GameEngine.get_game_state g)) eqn:Hjump.
  - lra.
  - assert (Hrule : AI.floor_rule (GameEngine.get_game_state g) = false).
    { unfold AI.shouldJump in Hjump.
      destruct (AI.floor_rule (GameEngine.get_game_state g)); congruence. }
    unfold AI.floor_rule in Hrule. apply geb_false_iff in Hrule.
    pose proof (safety_margin_at_least_five
                  (GameEngine.pilot (GameEngine.get_game_state g))) as Hmargin.
    unfold AI.pilot_bottom_next_frame in Hrule. cbn in Hrule, Hmargin. lra.
Qed.

(** X15. The autopilot never lets the agent reach the floor.  For an engine
    in autopilot mode whose impulse outweighs one frame of gravity
    ([jump_velocity + gravity <= 0], as with the defaults -8 and 0.5) and
    whose agent is above the floor, after any number of [update] messages the
    agent's bottom edge is still strictly above the floor: the floor test of
    [check_collision] never ends such a run. *)
Theorem X15_autopilot_stays_above_floor (n : nat) (g : GameEngine.t) :
  GameEngine.autopilot g = true ->
  (GameEngine.jump_velocity g + GameEngine.gravity g <= 0)%Q ->
  (GameEngine.pilot_y g + GameEngine.pilot_height g < inject_Z (GameEngine.floor_y g))%Q ->
  let g' := Props.updates n g in
  (GameEngine.pilot_y g' + GameEngine.pilot_height g' < inject_Z (GameEngine.floor_y g'))%Q
  /\ Py.geb (GameEngine.pilot_y g' + GameEngine.pilot_height g')
            (inject_Z (GameEngine.floor_y g')) = false.
Proof.
  intros Hauto Himpulse Habove. cbn zeta.
  enough (Hinv : Props.same_config g (Props.updates n g)
                 /\ (GameEngine.pilot_y (Props.updates n g)
                     + GameEngine.pilot_height (Props.updates n g)
                     < inject_Z (GameEngine.floor_y (Props.updates n g)))%Q).
  { destruct Hinv as [_ Hlt]. split; [exact Hlt | now apply geb_false_iff]. }
  induction n as [| n [Hc Hlt]].
  - split; [apply same_config_refl | exact Habove].
  - change (Props.updates (S n) g)
      with (Py.state_of (App.handle 0 App.Update (Props.updates n g)).1).
    destruct Hc as (Hc1 & Hc2 & Hc3 & Hgrav & Hc5 & Hc6 & Hc7 & Hjv & Hc9 & Hap).
    destruct (autopilot_update_step (Props.updates n g)) as [Hc' Hlt'];
      [congruence | rewrite Hjv, Hgrav; exact Himpulse | exact Hlt |].
    split; [| exact Hlt'].
    eapply same_config_trans; [| exact Hc'].
    unfold Props.same_config. repeat split; assumption.
Qed.

Lemma X15_witness :
  Py.geb (GameEngine.pilot_y (Props.updates 40 Props.autopilot_engine)
          + GameEngine.pilot_height (Props.updates 40 Props.autopilot_engine))
         (inject_Z (GameEngine.floor_y (Props.updates 40 Props.autopilot_engine)))
  = false.
Proof.
  apply (X15_autopilot_stays_above_floor 40 Props.autopilot_engine).
  - reflexivity.
  - vm_compute. discriminate.
  - vm_compute. reflexivity.
Defined.

(** ** The level table *)

Lemma lookup_level_none (level_id : string) (tbl : list (string * Levels.level_config)) :
  (forall level, ~ In (level_id, level) tbl) -> Levels.lookup_level level_id tbl = None.
Proof.
  induction tbl as [| [k v] tbl IH]; intros Hnot; cbn; [reflexivity |].
  destruct (String.eqb_spec k level_id) as [-> | Hne].
  - exfalso. apply (Hnot v). now left.
  - apply IH. intros level Hin. apply (Hnot level). now right.
Qed.

Lemma get_level_shipped (level_id : string) :
  In (Levels.get_level level_id) Props.shipped.
Proof.
  unfold Levels.get_level, Levels.LEVELS, Props.shipped. cbn [Levels.lookup_level map snd].
  repeat match goal with
         | |- context [String.eqb ?k level_id] => destruct (String.eqb k level_id)
         end; cbn; tauto.
Qed.

(** X16. [get_level] is a lookup with a default: an id of the table gives its
    level, any other id gives the marathon level, and in every case the
    result is one of the five levels of the table. *)
Theorem X16_get_level_fallback (level_id : string) :
  (forall level, In (level_id, level) Levels.LEVELS -> Levels.get_level level_id = level)
  /\ ((forall level, ~ In (level_id, level) Levels.LEVELS) ->
      Levels.get_level level_id = Levels.marathon)
  /\ In (Levels.get_level level_id) Props.shipped.
Proof.
  split; [| split].
  - intros level Hin. unfold Levels.LEVELS in Hin. cbn in Hin.
    repeat destruct Hin as [Hin | Hin]; try contradiction;
      injection Hin as <- <-; reflexivity.
  - intros Hnot. unfold Levels.get_level. now rewrite lookup_level_none.
  - apply get_level_shipped.
Qed.

Lemma X16_witness :
  Levels.get_level "hard" = Levels.hard
  /\ Levels.get_level "no such level" = Levels.marathon.
Proof.
  destruct (X16_get_level_fallback "hard") as (Hknown & _).
  destruct (X16_get_level_fallback "no such level") as (_ & Hunknown & _).
  split.
  - apply Hknown. cbn. tauto.
  - apply Hunknown. intros level Hin. cbn in Hin.
    repeat destruct Hin as [Hin | Hin]; try contradiction; discriminate.
Defined.

Lemma shipped_levels_checked (level : Levels.level_config) :
  In level Props.shipped ->
  Props.spacedb 3 (Props.level_xs level) = true
  /\ Props.none_behindb 100 (Props.level_xs level) = true
  /\ exists lo hi, Levels.floor level = Levels.mk_floor lo hi /\ lo <= hi.
Proof.
  unfold Props.shipped, Levels.LEVELS. cbn [map snd].
  intros Hin. repeat destruct Hin as [<- | Hin]; try contradiction;
    (split; [vm_compute; reflexivity |]; split; [vm_compute; reflexivity |];
     eexists _, _; split; [reflexivity | lia]).
Qed.

Lemma spacedb_sound (v : Q) (ps : list GameEngine.pipe) :
  Props.spacedb v (map GameEngine.xPosition ps) = true ->
  forall i j p q, i <> j ->
    nth_error ps i = Some p -> nth_error ps j = Some q ->
    (GameEngine.xPosition p + v <= GameEngine.xPosition q
     \/ GameEngine.xPosition q + v <= GameEngine.xPosition p)%Q.
Proof.
  induction ps as [| a ps IH]; cbn [map Props.spacedb]; intros Hcheck i j p q Hne Hp Hq.
  - destruct i; discriminate.
  - apply andb_true_iff in Hcheck as [Hhead Htail].
    rewrite forallb_forall in Hhead.
    assert (Hfirst : forall r, In r ps ->
                (GameEngine.xPosition a + v <= GameEngine.xPosition r
                 \/ GameEngine.xPosition r + v <= GameEngine.xPosition a)%Q).
    { intros r Hr. specialize (Hhead (GameEngine.xPosition r) (in_map _ _ _ Hr)).
      apply orb_true_iff in Hhead as [H | H]; apply leb_iff in H; auto. }
    destruct i as [| i], j as [| j]; cbn in Hp, Hq.
    + congruence.
    + injection Hp as <-. apply Hfirst. eapply nth_error_In, Hq.
    + injection Hq as <-. apply or_comm, Hfirst. eapply nth_error_In, Hp.
    + apply (IH Htail i j); [congruence | assumption | assumption].
Qed.

Lemma make_pipe_x (f : Z) (pc : Levels.pipe_config) :
  GameEngine.xPosition (GameEngine.make_pipe f pc) = inject_Z (Levels.xPosition pc).
Proof. unfold GameEngine.make_pipe. now destruct (_ >? f). Qed.

Lemma load_level_total (entropy : Z) (level : Levels.level_config) (g : GameEngine.t)
  (lo hi : Z) :
  Levels.floor level = Levels.mk_floor lo hi -> lo <= hi ->
  exists g', GameEngine.load_level entropy level g = Py.Returned g'.
Proof.
  intros Hfloor Hle. unfold GameEngine.load_level, GameEngine.floor_range.
  rewrite Hfloor. cbn [Levels.floor_min Levels.floor_max Levels.mk_floor].
  destruct (randint_total entropy lo hi Hle) as [f ->]. eauto.
Qed.

Lemma engine_run_spaced_credited (ds : list bool) (g : GameEngine.t) :
  Spec.well_spaced g -> Spec.all_cleared_credited g ->
  Spec.well_spaced (GameEngine.run g ds) /\ Spec.all_cleared_credited (GameEngine.run g ds).
Proof.
  revert g. induction ds as [| d ds IH]; intros g Hsp Hall; [auto |].
  change (GameEngine.run g (d :: ds)) with (GameEngine.run (GameEngine.update g d) ds).
  apply IH; [now apply engine_update_well_spaced | now apply engine_update_all_cleared].
Qed.

(** X17. On the shipped levels the score moves one point at a time: for
    every level id (unknown ids included), every floor draw and every
    sequence of decisions, the default engine loads the level without
    raising, and each further tick leaves the score unchanged or adds
    exactly 1. *)
Theorem X17_shipped_levels_one_point_per_tick (level_id : string) (entropy : Z)
  (ds : list bool) (d : bool) :
  exists g0,
    GameEngine.load_level entropy (Levels.get_level level_id) GameEngine.default
    = Py.Returned g0
    /\ GameEngine.score (GameEngine.run g0 ds)
       <= GameEngine.score (GameEngine.update (GameEngine.run g0 ds) d)
       <= GameEngine.score (GameEngine.run g0 ds) + 1.
Proof.
  destruct (shipped_levels_checked _ (get_level_shipped level_id))
    as (Hspaced & Hahead & lo & hi & Hfloor & Hle).
  destruct (load_level_total entropy _ GameEngine.default lo hi Hfloor Hle) as [g0 Hload].
  exists g0. split; [exact Hload |].
  pose proof Hload as Hg0. apply load_level_returned in Hg0 as [_ Hg0].
  assert (Hxs : map GameEngine.xPosition (GameEngine.pipes g0)
                = Props.level_xs (Levels.get_level level_id)).
  { rewrite Hg0. cbn. unfold Props.level_xs. rewrite map_map.
    apply map_ext. intros pc. apply make_pipe_x. }
  assert (Hspeed : GameEngine.pipe_speed g0 = 3%Q) by (rewrite Hg0; reflexivity).
  assert (Hx : GameEngine.pilot_x g0 = 100%Q) by (rewrite Hg0; reflexivity).
  assert (Hsp : Spec.well_spaced g0).
  { unfold Spec.well_spaced. rewrite Hspeed. apply spacedb_sound. now rewrite Hxs. }
  assert (Hall : Spec.all_cleared_credited g0).
  { intros i (p & Hp & Hc). exfalso. unfold Spec.cleared in Hc. rewrite Hx in Hc.
    unfold Props.none_behindb in Hahead. rewrite forallb_forall in Hahead.
    assert (Hin : In (GameEngine.xPosition p) (Props.level_xs (Levels.get_level level_id))).
    { rewrite <- Hxs. apply in_map. eapply nth_error_In, Hp. }
    apply Hahead, geb_iff in Hin. lra. }
  destruct (engine_run_spaced_credited ds g0 Hsp Hall) as [Hsp' Hall'].
  split; [apply engine_update_monotone | now apply engine_tick_at_most_one].
Qed.

(** ** Sessions *)












(** ** The pygame simulation: construction and track *)

Lemma randint_none_iff (entropy a b : Z) :
  Py.randint entropy a b = None <-> b < a.
Proof.
  unfold Py.randint. destruct (Z.ltb_spec b a) as [Hlt | Hle].
  - split; [intros _; exact Hlt | reflexivity].
  - split; [discriminate | lia].
Qed.

Lemma new_pipe_gap (sh : Z) (x : Q) (c : Z) :
  150 <= c <= sh - 150 -> Props.gap_in_screen sh (Sim.new_pipe x c 150).
Proof. intros Hc. unfold Props.gap_in_screen. cbn. repeat split; lia. Qed.

Lemma sim_constructor_spec (entropy : nat -> Z) (sw sh : Z) (speed gravity : Q) :
  (Sim.init entropy sw sh speed gravity = None <-> sh < 300)
  /\ (forall s,
        Sim.init entropy sw sh speed gravity = Some s ->
        Sim.game_over s = false /\ Sim.score s = 0 /\ Sim.frame_count s = 0
        /\ Sim.screen_height s = sh /\ Sim.screen_width s = sw
        /\ Sim.pilot s = Sim.new_pilot 100 (inject_Z (sh / 2)) gravity
        /\ map Sim.x_position (Sim.pipes s)
           = map (fun k => inject_Z (sw + Z.of_nat k * 250)) [0; 1; 2; 3]%nat
        /\ Forall (Props.gap_in_screen sh) (Sim.pipes s)).
Proof.
  unfold Sim.init, Sim.PIPE_COUNT. cbn [Sim.generate_initial_pipes].
  destruct (Py.randint (entropy 0%nat) 150 (sh - 150)) as [c0 |] eqn:H0.
  2: { apply randint_none_iff in H0. split; [split; [lia | reflexivity] | discriminate]. }
  pose proof (randint_range _ _ _ _ H0) as Hc0.
  destruct (randint_total (entropy 1%nat) 150 (sh - 150) ltac:(lia)) as [c1 H1].
  destruct (randint_total (entropy 2%nat) 150 (sh - 150) ltac:(lia)) as [c2 H2].
  destruct (randint_total (entropy 3%nat) 150 (sh - 150) ltac:(lia)) as [c3 H3].
  rewrite H1, H2, H3.
  apply randint_range in H1, H2, H3.
  split; [split; [discriminate | lia] |].
  intros s [= <-]. cbn. repeat split; try reflexivity.
  repeat (constructor; [now apply new_pipe_gap |]). constructor.
Qed.

(** X19. The constructor of the simulation raises exactly when the screen is
    less than 300 high (its gap-center draw has an empty range).  Otherwise
    it builds a running game at frame 0 and score 0, the agent at rest at
    x = 100 and half the screen height, and four obstacles at the screen
    width plus 0, 250, 500 and 750, each with a gap of 150 inside the
    screen. *)
Theorem X19_sim_constructor (entropy : nat -> Z) (sw sh : Z) (speed gravity : Q) :
  (Sim.init entropy sw sh speed gravity = None <-> sh < 300)
  /\ (forall s,
        Sim.init entropy sw sh speed gravity = Some s ->
        Sim.game_over s = false /\ Sim.score s = 0 /\ Sim.frame_count s = 0
        /\ Sim.screen_height s = sh /\ Sim.screen_width s = sw
        /\ Sim.pilot s = Sim.new_pilot 100 (inject_Z (sh / 2)) gravity
        /\ map Sim.x_position (Sim.pipes s)
           = map (fun k => inject_Z (sw + Z.of_nat k * 250)) [0; 1; 2; 3]%nat
        /\ Forall (Props.gap_in_screen sh) (Sim.pipes s)).
Proof. apply sim_constructor_spec. Qed.

Lemma X19_witness :
  Sim.init (fun _ => 0) 800 299 3 (1 # 2) = None
  /\ map Sim.x_position (Sim.pipes Examples.running_sim) = [800; 1050; 1300; 1550]%Q.
Proof.
  destruct (X19_sim_constructor (fun _ => 0) 800 299 3 (1 # 2)) as [Hnone _].
  destruct (X19_sim_constructor
              (fun i => match i with
                        | O => 150 | S O => 50 | S (S O) => 250 | _ => 150
                        end) 800 600 3 (1 # 2)) as [_ Hsome].
  split; [apply Hnone; lia |].
  destruct (Hsome Examples.running_sim) as (_ & _ & _ & _ & _ & _ & Hxs & _);
    [vm_compute; reflexivity |].
  exact Hxs.
Defined.

Lemma gap_in_screen_update (sh : Z) (v : Q) (ps : list Sim.Pipe) :
  Forall (Props.gap_in_screen sh) ps ->
  Forall (Props.gap_in_screen sh) (Sim.retire (map (Sim.pipe_update v) ps)).
Proof.
  intros Hall. rewrite List.Forall_forall in *. intros p Hp.
  apply filter_In in Hp as [Hp _]. apply in_map_iff in Hp as (p0 & <- & Hp0).
  exact (Hall p0 Hp0).
Qed.

Lemma retire_length (ps : list Sim.Pipe) : (length (Sim.retire ps) <= length ps)%nat.
Proof. apply List.filter_length_le. Qed.

(** One tick on a track of at most four obstacles whose gaps are inside a
    screen at least 300 high. *)
Lemma sim_track_step (s : Sim.t) (d : bool) (e : Z) :
  300 <= Sim.screen_height s ->
  (1 <= length (Sim.pipes s) <= 4)%nat ->
  Forall (Props.gap_in_screen (Sim.screen_height s)) (Sim.pipes s) ->
  exists s',
    Sim.update s d e = Py.Returned s'
    /\ Sim.screen_height s' = Sim.screen_height s
    /\ (1 <= length (Sim.pipes s') <= 4)%nat
    /\ Forall (Props.gap_in_screen (Sim.screen_height s)) (Sim.pipes s').
Proof.
  intros Hheight Hlen Hgaps.
  destruct (Sim.game_over s) eqn:Hover.
  { exists s. rewrite sim_update_terminal by assumption. auto. }
  rewrite sim_update_running by assumption.
  destruct (sim_advance_frame_fields s d) as (_ & _ & Hh & _ & Hps & _).
  cbn zeta in *.
  assert (Hlen1 : (length (Sim.pipes (Sim.advance_frame s d)) <= 4)%nat).
  { rewrite Hps. pose proof (retire_length (map (Sim.pipe_update (Sim.pipe_speed s))
                                              (Sim.pipes s))) as Hr.
    rewrite length_map in Hr. lia. }
  assert (Hgaps1 : Forall (Props.gap_in_screen (Sim.screen_height s))
                     (Sim.pipes (Sim.advance_frame s d))).
  { rewrite Hps. now apply gap_in_screen_update. }
  revert Hh Hlen1 Hgaps1. clear Hps.
  generalize (Sim.advance_frame s d) as s1. intros s1 Hh Hlen1 Hgaps1.
  assert (Hspawned :
            exists s2, Sim.spawn e s1 = Py.Returned s2
                       /\ Sim.screen_height s2 = Sim.screen_height s
                       /\ (1 <= length (Sim.pipes s2) <= 4)%nat
                       /\ Forall (Props.gap_in_screen (Sim.screen_height s)) (Sim.pipes s2)).
  { unfold Sim.spawn, Sim.PIPE_COUNT.
    destruct (Nat.ltb_spec (length (Sim.pipes s1)) 4) as [Hshort | Hfull].
    - destruct (randint_total e 150 (Sim.screen_height s1 - 150) ltac:(lia)) as [c Hc].
      rewrite Hc. eexists. split; [reflexivity |]. split; [exact Hh |].
      cbn [Sim.pipes Sim.set_pipes]. rewrite length_app. cbn [length].
      split; [lia |]. apply Forall_app. split; [exact Hgaps1 |].
      constructor; [| constructor]. apply new_pipe_gap.
      apply randint_range in Hc. lia.
    - exists s1. repeat split; try assumption; lia. }
  destruct Hspawned as (s2 & -> & Hh2 & Hlen2 & Hgaps2).
  destruct (sim_update_score_fields s2) as (_ & Hps3 & _ & _ & Hh3 & _).
  cbn zeta in *. revert Hps3 Hh3.
  generalize (Sim.update_score s2) as s3. intros s3 Hps3 Hh3.
  destruct (sim_finish_fields s3) as (Hps4 & Hh4 & _). cbn zeta in *.
  eexists. split; [reflexivity |].
  rewrite Hps4, Hh4, Hps3, Hh3. auto.
Qed.

Lemma sim_track_run (inputs : list (bool * Z)) (s : Sim.t) :
  300 <= Sim.screen_height s ->
  (1 <= length (Sim.pipes s) <= 4)%nat ->
  Forall (Props.gap_in_screen (Sim.screen_height s)) (Sim.pipes s) ->
  exists s',
    Sim.run s inputs = Py.Returned s'
    /\ (1 <= length (Sim.pipes s') <= 4)%nat
    /\ Forall (Props.gap_in_screen (Sim.screen_height s)) (Sim.pipes s').
Proof.
  revert s. induction inputs as [| [d e] tl IH]; intros s Hheight Hlen Hgaps.
  - exists s. auto.
  - cbn [Sim.run].
    destruct (sim_track_step s d e Hheight Hlen Hgaps) as (s1 & -> & Hh1 & Hlen1 & Hgaps1).
    rewrite <- Hh1 in Hgaps1.
    destruct (IH s1 ltac:(lia) Hlen1 Hgaps1) as (s' & Hrun & Hlen' & Hgaps').
    exists s'. rewrite Hh1 in Hgaps'. auto.
Qed.

(** X20. A constructed simulation never raises, whatever the decisions, the
    draws and the pipe speed: every tick returns, the track always has
    between one and four obstacles, and every obstacle on it has a gap of
    150 lying inside the screen (top at least 75, bottom at most the screen
    height minus 75). *)
Theorem X20_sim_run_returns (entropy : nat -> Z) (sw sh : Z) (speed gravity : Q)
  (s : Sim.t) (inputs : list (bool * Z)) :
  Sim.init entropy sw sh speed gravity = Some s ->
  exists s',
    Sim.run s inputs = Py.Returned s'
    /\ (1 <= length (Sim.pipes s') <= 4)%nat
    /\ forall p, In p (Sim.pipes s') ->
                 Sim.bottom_pipe p - Sim.top_pipe p = 150
                 /\ 75 <= Sim.top_pipe p /\ Sim.bottom_pipe p <= sh - 75.
Proof.
  intros Hinit.
  assert (Hsome : Sim.init entropy sw sh speed gravity <> None) by congruence.
  destruct (sim_constructor_spec entropy sw sh speed gravity) as [Hnone Hbuilt].
  assert (Hsh : 300 <= sh) by (destruct (Z.lt_ge_cases sh 300); [tauto | assumption]).
  destruct (Hbuilt s Hinit) as (_ & _ & _ & Hh & _ & _ & Hxs & Hgaps).
  assert (Hlen : length (Sim.pipes s) = 4%nat).
  { rewrite <- (length_map Sim.x_position), Hxs. reflexivity. }
  rewrite <- Hh in Hgaps, Hsh.
  destruct (sim_track_run inputs s Hsh ltac:(lia) Hgaps) as (s' & Hrun & Hlen' & Hgaps').
  exists s'. split; [exact Hrun |]. split; [exact Hlen' |].
  intros p Hp. rewrite List.Forall_forall in Hgaps'.
  destruct (Hgaps' p Hp) as (_ & Htop & Hbottom & Hc). rewrite Hh in Hc. lia.
Qed.

Lemma X20_witness :
  exists s',
    Sim.run Examples.running_sim [(true, 4); (false, 5)] = Py.Returned s'
    /\ (1 <= length (Sim.pipes s') <= 4)%nat.
Proof.
  destruct (X20_sim_run_returns
              (fun i => match i with
                        | O => 150 | S O => 50 | S (S O) => 250 | _ => 150
                        end) 800 600 3 (1 # 2) Examples.running_sim [(true, 4); (false, 5)])
    as (s' & Hrun & Hlen & _); [vm_compute; reflexivity |].
  exists s'. split; [exact Hrun | exact Hlen].
Defined.

(** ** The two clocks integrate alike *)

Lemma sim_score_fold_physics (ps : list Sim.Pipe) (s : Sim.t) :
  let s' :=
    fold_left
      (fun s pipe =>
         if Py.eqb (Sim.x_position pipe + Sim.PIPE_WIDTH) (Sim.x_pos (Sim.pilot s))
         then Sim.set_score (Sim.score s + 1) s else s) ps s in
  Sim.pilot s' = Sim.pilot s /\ Sim.gravity s' = Sim.gravity s.
Proof.
  revert s. induction ps as [| p ps IH]; intros s; cbn [fold_left]; [auto |].
  destruct (Py.eqb _ _); [apply (IH (Sim.set_score (Sim.score s + 1) s)) | apply IH].
Qed.

Lemma sim_tick_kinematics (s s' : Sim.t) (d : bool) (e : Z) :
  Sim.game_over s = false ->
  Sim.update s d e = Py.Returned s' ->
  let v := ((if d then Sim.jump_velocity (Sim.pilot s) else Sim.velocity (Sim.pilot s))
            + Sim.gravity s)%Q in
  Sim.velocity (Sim.pilot s') = v
  /\ Sim.y_pos (Sim.pilot s') = (Sim.y_pos (Sim.pilot s) + v)%Q
  /\ Sim.gravity s' = Sim.gravity s
  /\ Sim.jump_velocity (Sim.pilot s') = Sim.jump_velocity (Sim.pilot s).
Proof.
  intros Hrun. rewrite sim_update_running by assumption.
  assert (Hadv : Sim.pilot (Sim.advance_frame s d)
                 = Sim.pilot_update (Sim.gravity s)
                     (if d then Sim.pilot_jump (Sim.pilot s) else Sim.pilot s)
                 /\ Sim.gravity (Sim.advance_frame s d) = Sim.gravity s).
  { unfold Sim.advance_frame. destruct d; split; reflexivity. }
  destruct Hadv as [Hp Hg]. revert Hp Hg.
  generalize (Sim.advance_frame s d) as s1. intros s1 Hp Hg.
  assert (Hspawn : Sim.pilot (Py.state_of (Sim.spawn e s1)) = Sim.pilot s1
                   /\ Sim.gravity (Py.state_of (Sim.spawn e s1)) = Sim.gravity s1).
  { unfold Sim.spawn. destruct (Nat.ltb _ _); [destruct (Py.randint e 150 _) |];
      split; reflexivity. }
  destruct (Sim.spawn e s1) as [s2 | x s2]; [| discriminate].
  cbn [Py.state_of] in Hspawn. destruct Hspawn as [Hp2 Hg2].
  destruct (sim_score_fold_physics (Sim.pipes s2) s2) as [Hp3 Hg3].
  fold (Sim.update_score s2) in Hp3, Hg3. cbn zeta in *. revert Hp3 Hg3.
  generalize (Sim.update_score s2) as s3. intros s3 Hp3 Hg3 [= <-].
  assert (Hfin : forall b : bool,
             Sim.pilot (if b then Sim.set_game_over true s3 else s3) = Sim.pilot s3
             /\ Sim.gravity (if b then Sim.set_game_over true s3 else s3) = Sim.gravity s3)
    by (intros []; split; reflexivity).
  destruct (Hfin (Sim.check_collision s3)) as [-> ->].
  rewrite Hp3, Hp2, Hp, Hg3, Hg2, Hg. destruct d; repeat split.
Qed.

(** X21. The engine and the pygame simulation integrate the agent in the
    same way: started with the same altitude, velocity, gravity and impulse,
    and given the same decisions, the two have the same altitude and velocity
    for as long as both are still running. *)
Theorem X21_clocks_integrate_alike (ds : list bool) (e : Z) (g : GameEngine.t)
  (s s' : Sim.t) :
  GameEngine.pilot_y g = Sim.y_pos (Sim.pilot s) ->
  GameEngine.pilot_velocity g = Sim.velocity (Sim.pilot s) ->
  GameEngine.gravity g = Sim.gravity s ->
  GameEngine.jump_velocity g = Sim.jump_velocity (Sim.pilot s) ->
  GameEngine.game_over (GameEngine.run g ds) = false ->
  Sim.run s (Props.sim_inputs e ds) = Py.Returned s' ->
  Sim.game_over s' = false ->
  GameEngine.pilot_y (GameEngine.run g ds) = Sim.y_pos (Sim.pilot s')
  /\ GameEngine.pilot_velocity (GameEngine.run g ds) = Sim.velocity (Sim.pilot s').
Proof.
  revert g s. induction ds as [| d ds IH]; intros g s Hy Hv Hg Hj Hengine Hsim Hrunning.
  - cbn in *. injection Hsim as <-. auto.
  - change (GameEngine.run g (d :: ds))
      with (GameEngine.run (GameEngine.update g d) ds) in *.
    cbn [Props.sim_inputs map Sim.run] in Hsim.
    assert (Hs : Sim.game_over s = false).
    { destruct (Sim.game_over s) eqn:Hover; [| reflexivity].
      rewrite sim_update_terminal in Hsim by assumption.
      fold (Props.sim_inputs e ds) in Hsim.
      rewrite sim_run_terminal in Hsim by assumption. congruence. }
    pose proof (engine_update_still_running _ _ (engine_run_still_running _ _ Hengine))
      as Hg0.
    destruct (Sim.update s d e) as [s1 | x s1] eqn:Hup; [| discriminate].
    destruct (sim_tick_kinematics s s1 d e Hs Hup) as (Hv1 & Hy1 & Hg1 & Hj1).
    destruct (engine_tick_fields g d Hg0) as (Hev & Hey & _ & _ & Hc).
    cbn zeta in *. destruct Hc as (_ & _ & _ & Heg & _ & _ & _ & Hej & _).
    apply (IH (GameEngine.update g d) s1); try assumption.
    + rewrite Hey, Hy1, Hy, Hv, Hg, Hj. reflexivity.
    + rewrite Hev, Hv1, Hv, Hg, Hj. reflexivity.
    + congruence.
    + congruence.
Qed.

Lemma X21_witness :
  GameEngine.pilot_y (GameEngine.run Examples.running_engine [true; false; false])
  = Sim.y_pos (Sim.pilot (Py.state_of
                            (Sim.run Examples.running_sim
                               (Props.sim_inputs 7 [true; false; false])))).
Proof.
  apply (X21_clocks_integrate_alike [true; false; false] 7 Examples.running_engine
           Examples.running_sim
           (Py.state_of (Sim.run Examples.running_sim
                           (Props.sim_inputs 7 [true; false; false]))));
    vm_compute; reflexivity.
Defined.

(** ** The keys that the policy reads *)

Lemma dyn_should_jump_minimal (gs : GameEngine.game_state) :
  Dyn.shouldJump (Props.minimal_game_state true gs) = inr (AI.shouldJump gs).
Proof.
  unfold Dyn.shouldJump, AI.shouldJump, AI.floor_rule, AI.emergency_rule,
    AI.pilot_bottom_next_frame, AI.safety_margin, Props.minimal_game_state.
  destruct gs as [[px py h w pg jv v] speed target pipes gravity floor].
  cbn -[Py.geb Py.ltb Py.leb Py.max3 AI.free_fall Qplus Qminus Qmult Qdiv].
  destruct (Py.geb _ floor); [reflexivity |].
  destruct target as [[x top bottom] |];
    cbn -[Py.geb Py.ltb Py.leb Py.max3 AI.free_fall Qplus Qminus Qmult Qdiv];
    [| reflexivity].
  destruct (Py.ltb 0 (x - px) && Py.ltb (x - px) 150);
    cbn -[Py.geb Py.ltb Py.leb Py.max3 AI.free_fall Qplus Qminus Qmult Qdiv].
  - destruct (Py.geb _ bottom); [reflexivity |].
    cbn -[Py.geb Py.ltb Py.leb Py.max3 AI.free_fall Qplus Qminus Qmult Qdiv].
    repeat match goal with |- context [if ?b then _ else _] => destruct b end; reflexivity.
  - repeat match goal with |- context [if ?b then _ else _] => destruct b end; reflexivity.
Qed.

(** X22. The keys of a game state that [shouldJump] reads are ["pilot"]
    (its ["yPos"], ["velocity"], ["height"], ["width"], and ["xPos"] only
    when there is a target), ["floor"], ["gravity"] and ["currentPipe"]: a
    dictionary with only these gives the decision of the full snapshot, so
    the pipe speed, the obstacle list, the impulse and the pilot's own
    gravity entry play no part; with a target and no ["xPos"] the call
    raises [KeyError('xPos')] once the floor rule has not fired.  The pilot
    dictionary of [Pilot.to_dict] has no ["velocity"]: with it the call
    raises [KeyError('velocity')] even when a ["floor"] entry is supplied. *)
Theorem X22_keys_read_by_the_policy :
  (forall gs, Dyn.shouldJump (Props.minimal_game_state true gs) = inr (AI.shouldJump gs))
  /\ (forall gs, GameEngine.currentPipe gs = None ->
        Dyn.shouldJump (Props.minimal_game_state false gs) = inr (AI.shouldJump gs))
  /\ (forall gs pipe, GameEngine.currentPipe gs = Some pipe ->
        Dyn.shouldJump (Props.minimal_game_state false gs)
        = if AI.floor_rule gs then inr true else inl (Dyn.KeyError "xPos"))
  /\ (forall s floor,
        Dyn.shouldJump (Props.sim_game_state_with_floor floor (Sim.get_game_state s))
        = inl (Dyn.KeyError "velocity")).
Proof.
  split; [apply dyn_should_jump_minimal |]. split; [| split].
  - intros gs Hnone.
    unfold Dyn.shouldJump, AI.shouldJump, AI.floor_rule, AI.emergency_rule,
      AI.pilot_bottom_next_frame, AI.safety_margin, Props.minimal_game_state.
    rewrite Hnone.
    cbn -[Py.geb Py.ltb Py.leb Py.max3 AI.free_fall Qplus Qminus Qmult Qdiv].
    now destruct (Py.geb _ (GameEngine.floor gs)).
  - intros gs pipe Hsome.
    unfold Dyn.shouldJump, AI.floor_rule, AI.pilot_bottom_next_frame, AI.safety_margin,
      Props.minimal_game_state.
    rewrite Hsome.
    cbn -[Py.geb Py.ltb Py.leb Py.max3 AI.free_fall Qplus Qminus Qmult Qdiv].
    now destruct (Py.geb _ (GameEngine.floor gs)).
  - reflexivity.
Qed.

Lemma X22_witness :
  Dyn.shouldJump (Props.minimal_game_state false Examples.near_floor) = inr true
  /\ Dyn.shouldJump (Props.minimal_game_state false Examples.apex_low)
     = inl (Dyn.KeyError "xPos").
Proof.
  destruct X22_keys_read_by_the_policy as (_ & Hnone & Hsome & _). split.
  - apply (Hnone Examples.near_floor). reflexivity.
  - apply (Hsome Examples.apex_low Examples.high_gap). reflexivity.
Defined.
